(** * keyboard.py: the Vial keyboard session, embedded and verified

    A shallow embedding of [src/main/python/keyboard.py] (class [Keyboard])
    and the properties of its discovery, keymap synchronisation and
    save/restore operations.

    Python objects are modelled as follows.
    - [bytes] is a list of [Byte.byte]; [struct.pack] is partial (an
      out-of-range field raises [struct.error]), [struct.unpack] demands
      the exact length.
    - [self.layout] (a [dict]) is a [gmap (Z * Z * Z) Z];
      [self.rowcol] (an [OrderedDict] whose values are all [True]) is the
      list of its keys in insertion order.
    - Every method is a computation in a state-and-exception monad over a
      [World]: the fields of the [Keyboard] object, the state of the device
      behind [usb_send], and the log of the requests handed to [usb_send].
      An exception leaves the world as it was when it was raised.
    - The collaborators that the module imports ([util], [lzma], [json],
      [kle_serial]) are the fields of the class [Env]. *)

From Stdlib Require Import ZArith Lia.
From Stdlib.Strings Require Import Byte Ascii.
From Stdlib Require Import DecimalString DecimalPos DecimalZ.
From stdpp Require Import base option list list_numbers gmap strings.

Local Open Scope Z_scope.

(** ** Bytes and [struct] *)

Abbreviation bytes := (list byte).

Definition Z_of_byte (b : byte) : Z := Z.of_N (Byte.to_N b).

Definition byte_of_Z (x : Z) : byte :=
  default Byte.x00 (Byte.of_N (Z.to_N (x mod 256))).

(** Exceptions of the Python run time that the module can raise.
    [NonTermination] is not a Python exception: it marks a loop of the
    model that ran out of fuel. *)
Inductive exn : Type :=
  | KeyError
  | IndexError
  | ValueError
  | StructError
  | TransportError
  | PayloadError
  | DeserializeError
  | JSONDecodeError
  | NonTermination.

Inductive result (A : Type) : Type :=
  | Ok (a : A)
  | Raise (e : exn).
Arguments Ok {A} a.
Arguments Raise {A} e.

(** Format character [B]: one unsigned byte. *)
Definition pack_B (x : Z) : result bytes :=
  if decide (0 <= x <= 255) then Ok [byte_of_Z x] else Raise StructError.

(** Format [>H]: big-endian unsigned 16-bit. *)
Definition pack_H_be (x : Z) : result bytes :=
  if decide (0 <= x <= 65535)
  then Ok [byte_of_Z (x / 256); byte_of_Z x]
  else Raise StructError.

(** Format [<I]: little-endian unsigned 32-bit. *)
Definition pack_I_le (x : Z) : result bytes :=
  if decide (0 <= x <= 4294967295)
  then Ok [byte_of_Z x; byte_of_Z (x / 256);
           byte_of_Z (x / 65536); byte_of_Z (x / 16777216)]
  else Raise StructError.

Definition result_bind {A B} (r : result A) (k : A -> result B) : result B :=
  match r with
  | Ok a => k a
  | Raise e => Raise e
  end.

(** [struct.pack] of several fields: fields are encoded left to right,
    the first one out of range raises. *)
Fixpoint pack_all (fields : list (result bytes)) : result bytes :=
  match fields with
  | [] => Ok []
  | f :: rest =>
      result_bind f (fun b => result_bind (pack_all rest) (fun bs => Ok (b ++ bs)))
  end.

Definition le_value (bs : bytes) : Z :=
  foldr (fun b acc => Z_of_byte b + 256 * acc) 0 bs.

Definition be_value (bs : bytes) : Z :=
  foldl (fun acc b => 256 * acc + Z_of_byte b) 0 bs.

(** Python slice [data[lo:hi]] for [0 <= lo <= hi]. *)
Definition slice (lo hi : nat) (data : bytes) : bytes :=
  take (hi - lo) (drop lo data).

(** [struct.unpack("<I", b)]: exactly four bytes. *)
Definition unpack_I_le (b : bytes) : result Z :=
  if decide (length b = 4%nat) then Ok (le_value b) else Raise StructError.

(** [struct.unpack("<IQ", b)]: exactly twelve bytes, no padding. *)
Definition unpack_IQ_le (b : bytes) : result (Z * Z) :=
  if decide (length b = 12%nat)
  then Ok (le_value (take 4 b), le_value (drop 4 b))
  else Raise StructError.

(** [struct.unpack(">H", b)]: exactly two bytes. *)
Definition unpack_H_be (b : bytes) : result Z :=
  if decide (length b = 2%nat) then Ok (be_value b) else Raise StructError.

Definition CMD_VIA_GET_KEYCODE : Z := 0x04.
Definition CMD_VIA_SET_KEYCODE : Z := 0x05.
Definition CMD_VIA_GET_LAYER_COUNT : Z := 0x11.
Definition CMD_VIA_VIAL_PREFIX : Z := 0xFE.

Definition CMD_VIAL_GET_KEYBOARD_ID : Z := 0x00.
Definition CMD_VIAL_GET_SIZE : Z := 0x01.
Definition CMD_VIAL_GET_DEFINITION : Z := 0x02.

(** ** Documents *)

(** A key record of [kle_serial]: its twelve label slots (a slot is
    [None] or a string), and the [row] and [col] attributes that
    [reload_layout] attaches. *)
Record Key : Type := mkKey {
  key_labels : list (option string);
  key_row : option Z;
  key_col : option Z;
}.

(** The layout document: [payload["matrix"]["rows"]],
    [payload["matrix"]["cols"]] and [payload["layouts"]["keymap"]].
    A field is [None] when the subscript raises. *)
Record Payload (KleDoc : Type) : Type := mkPayload {
  matrix_rows : option Z;
  matrix_cols : option Z;
  layouts_keymap : option KleDoc;
}.
Arguments mkPayload {KleDoc} _ _ _.
Arguments matrix_rows {KleDoc} _.
Arguments matrix_cols {KleDoc} _.
Arguments layouts_keymap {KleDoc} _.

(** The save document [{"version": v, "layout": [[[...]]]}]. *)
Record SavedLayout : Type := mkSaved {
  doc_version : Z;
  doc_layout : list (list (list Z));
}.

(** The write request of [set_key]:
    [struct.pack(">BBBBH", CMD_VIA_SET_KEYCODE, layer, row, col, code)]. *)
Definition set_request (layer row col code : Z) : result bytes :=
  pack_all [pack_B CMD_VIA_SET_KEYCODE; pack_B layer; pack_B row; pack_B col;
            pack_H_be code].

(** The chunk request of [reload_layout]:
    [struct.pack("<BBI", CMD_VIA_VIAL_PREFIX, CMD_VIAL_GET_DEFINITION, block)]. *)
Definition chunk_request (block : Z) : result bytes :=
  pack_all [pack_B CMD_VIA_VIAL_PREFIX; pack_B CMD_VIAL_GET_DEFINITION;
            pack_I_le block].

(** ** The environment of the module *)

Class Env : Type := {
  (** state of the device behind the handle [self.dev] *)
  Dev : Type;
  (** [usb_send(dev, msg)]: the new device state and the response, or no
      response when the transport raises *)
  usb_send : Dev -> bytes -> Dev * option bytes;
  (** [util.MSG_LEN] *)
  MSG_LEN : Z;
  (** the value of [payload["layouts"]["keymap"]] *)
  KleDoc : Type;
  (** [json.loads(lzma.decompress(payload))] *)
  decode_payload : bytes -> option (Payload KleDoc);
  (** [KleSerial().deserialize(doc).keys] *)
  deserialize : KleDoc -> option (list Key);
  (** [json.dumps(data).encode("utf-8")] *)
  json_dumps : SavedLayout -> bytes;
  (** [json.loads(data.decode("utf-8"))], for documents of the save format *)
  json_loads : bytes -> option SavedLayout;
}.

(** ** The session object *)

Record Keyboard : Type := mkKeyboard {
  rowcol : list (Z * Z);
  layout : gmap (Z * Z * Z) Z;
  rows : Z;
  cols : Z;
  layers : Z;
  keys : list Key;
  vial_protocol : Z;
  keyboard_id : Z;
}.

(** [Keyboard.__init__] *)
Definition init : Keyboard :=
  {| rowcol := []; layout := ∅; rows := 0; cols := 0; layers := 0;
     keys := []; vial_protocol := -1; keyboard_id := -1 |}.

Record World `{Env} : Type := mkWorld {
  self : Keyboard;
  device : Dev;
  sent : list bytes;
}.

(** ** The monad *)

Definition M `{Env} (A : Type) : Type := World -> result A * World.

Definition ret `{Env} {A} (a : A) : M A := fun w => (Ok a, w).

Definition raise `{Env} {A} (e : exn) : M A := fun w => (Raise e, w).

Definition bind `{Env} {A B} (m : M A) (k : A -> M B) : M B :=
  fun w =>
    match m w with
    | (Ok a, w') => k a w'
    | (Raise e, w') => (Raise e, w')
    end.

Declare Scope kb_scope.
Delimit Scope kb_scope with kb.
Notation "'let*' x ':=' m 'in' k" := (bind m (fun x => k))
  (at level 10, x pattern, m at level 100, k at level 200) : kb_scope.
Notation "m1 ';;' m2" := (bind m1 (fun _ => m2))
  (at level 100, m2 at level 200, right associativity) : kb_scope.
Local Open Scope kb_scope.

Definition lift `{Env} {A} (r : result A) : M A := fun w => (r, w).

Definition lift_opt `{Env} {A} (e : exn) (o : option A) : M A :=
  match o with
  | Some a => ret a
  | None => raise e
  end.

Definition get_self `{Env} : M Keyboard := fun w => (Ok (self w), w).

Definition modify_self `{Env} (f : Keyboard -> Keyboard) : M unit :=
  fun w => (Ok tt, {| self := f (self w); device := device w; sent := sent w |}).

(** [for x in xs: body(x)] *)
Fixpoint for_each `{Env} {A} (xs : list A) (body : A -> M unit) : M unit :=
  match xs with
  | [] => ret tt
  | x :: rest => body x ;; for_each rest body
  end.

(** [self.usb_send(self.dev, msg)]; the request is logged in [sent]. *)
Definition send `{Env} (msg : bytes) : M bytes :=
  fun w =>
    let '(d, resp) := usb_send (device w) msg in
    let w' := {| self := self w; device := d; sent := sent w ++ [msg] |} in
    match resp with
    | Some data => (Ok data, w')
    | None => (Raise TransportError, w')
    end.

(** [range(n)] and [enumerate(xs)] *)
Definition range (n : Z) : list Z := seqZ 0 n.

Definition enumerate {A} (xs : list A) : list (Z * A) :=
  imap (fun i x => (Z.of_nat i, x)) xs.

(** ** Field updates of the session object *)

Definition set_rowcol (v : list (Z * Z)) (k : Keyboard) : Keyboard :=
  {| rowcol := v; layout := layout k; rows := rows k; cols := cols k;
     layers := layers k; keys := keys k;
     vial_protocol := vial_protocol k; keyboard_id := keyboard_id k |}.

Definition set_layout (v : gmap (Z * Z * Z) Z) (k : Keyboard) : Keyboard :=
  {| rowcol := rowcol k; layout := v; rows := rows k; cols := cols k;
     layers := layers k; keys := keys k;
     vial_protocol := vial_protocol k; keyboard_id := keyboard_id k |}.

Definition set_rows (v : Z) (k : Keyboard) : Keyboard :=
  {| rowcol := rowcol k; layout := layout k; rows := v; cols := cols k;
     layers := layers k; keys := keys k;
     vial_protocol := vial_protocol k; keyboard_id := keyboard_id k |}.

Definition set_cols (v : Z) (k : Keyboard) : Keyboard :=
  {| rowcol := rowcol k; layout := layout k; rows := rows k; cols := v;
     layers := layers k; keys := keys k;
     vial_protocol := vial_protocol k; keyboard_id := keyboard_id k |}.

Definition set_layers (v : Z) (k : Keyboard) : Keyboard :=
  {| rowcol := rowcol k; layout := layout k; rows := rows k; cols := cols k;
     layers := v; keys := keys k;
     vial_protocol := vial_protocol k; keyboard_id := keyboard_id k |}.

Definition set_keys (v : list Key) (k : Keyboard) : Keyboard :=
  {| rowcol := rowcol k; layout := layout k; rows := rows k; cols := cols k;
     layers := layers k; keys := v;
     vial_protocol := vial_protocol k; keyboard_id := keyboard_id k |}.

Definition set_identity (p i : Z) (k : Keyboard) : Keyboard :=
  {| rowcol := rowcol k; layout := layout k; rows := rows k; cols := cols k;
     layers := layers k; keys := keys k;
     vial_protocol := p; keyboard_id := i |}.

(** [self.rowcol[(row, col)] = True]: a new key goes to the end, a key
    already present keeps its place. *)
Definition rowcol_setitem (rc : Z * Z) (l : list (Z * Z)) : list (Z * Z) :=
  if decide (rc ∈ l) then l else l ++ [rc].

(** ** Keymap synchroniser *)

(** [Keyboard.reload_layers] *)
Definition reload_layers `{Env} : M unit :=
  let* msg := lift (pack_all [pack_B CMD_VIA_GET_LAYER_COUNT]) in
  let* data := send msg in
  let* n := lift_opt IndexError (data !! 1%nat) in
  modify_self (set_layers (Z_of_byte n)).

(** [Keyboard.reload_keymap] *)
Definition reload_keymap `{Env} : M unit :=
  let* k := get_self in
  for_each (range (layers k)) (fun layer =>
    let* k := get_self in
    for_each (rowcol k) (fun '(row, col) =>
      let* msg := lift (pack_all [pack_B CMD_VIA_GET_KEYCODE; pack_B layer;
                                  pack_B row; pack_B col]) in
      let* data := send msg in
      let* keycode := lift (unpack_H_be (slice 4 6 data)) in
      modify_self (fun k => set_layout (<[(layer, row, col) := keycode]> (layout k)) k))).

(** [Keyboard.set_key] *)
Definition set_key `{Env} (layer row col code : Z) : M unit :=
  let key := (layer, row, col) in
  let* k := get_self in
  let* cur := lift_opt KeyError (layout k !! key) in
  if decide (cur <> code) then
    let* msg := lift (set_request layer row col code) in
    send msg ;;
    modify_self (fun k => set_layout (<[key := code]> (layout k)) k)
  else ret tt.

(** ** Layout discovery *)

(** The chunk loop of [reload_layout]:
    [while sz > 0: ...; block += 1; sz -= MSG_LEN].
    The loop is run on a fuel that [reload_layout] sets to [sz], which is
    enough whenever [MSG_LEN] is positive. *)
Fixpoint fetch_chunks `{Env} (fuel : nat) (sz block : Z) (payload : bytes) : M bytes :=
  if decide (sz > 0) then
    match fuel with
    | O => raise NonTermination
    | S fuel' =>
        let* msg := lift (chunk_request block) in
        let* data := send msg in
        let data := if decide (sz < MSG_LEN) then take (Z.to_nat sz) data else data in
        fetch_chunks fuel' (sz - MSG_LEN) (block + 1) (payload ++ data)
    end
  else ret payload.

(** Python [str.split(",")]. *)
Fixpoint split_comma_aux (cur : string) (s : string) : list string :=
  match s with
  | EmptyString => [String.rev cur]
  | String c rest =>
      if Ascii.eqb c ","%char then String.rev cur :: split_comma_aux EmptyString rest
      else split_comma_aux (String c cur) rest
  end.

Definition split_comma (s : string) : list string := split_comma_aux EmptyString s.

(** Python [sep in s] for the one-character separator [","]. *)
Fixpoint has_comma (s : string) : bool :=
  match s with
  | EmptyString => false
  | String c rest => Ascii.eqb c ","%char || has_comma rest
  end.

(** The ASCII characters that [int] strips: space, [\t] to [\r], and the
    separators [\x1c] to [\x1f]. *)
Definition is_space (c : ascii) : bool :=
  let n := nat_of_ascii c in
  (Nat.eqb n 32 || (Nat.leb 9 n && Nat.leb n 13)
   || (Nat.leb 28 n && Nat.leb n 31))%bool.

Fixpoint lstrip (s : string) : string :=
  match s with
  | String c rest => if is_space c then lstrip rest else s
  | EmptyString => EmptyString
  end.

Definition strip (s : string) : string :=
  String.rev (lstrip (String.rev (lstrip s))).

Definition is_digit (c : ascii) : bool :=
  let n := nat_of_ascii c in (Nat.leb 48 n && Nat.leb n 57)%bool.

Definition digit_of (c : ascii) : option Z :=
  if is_digit c then Some (Z.of_nat (nat_of_ascii c - 48)) else None.

(** Decimal digits, a single underscore allowed between two digits;
    [prev] tells whether the previous character was a digit. *)
Fixpoint digits_value (prev : bool) (acc : Z) (s : string) : option Z :=
  match s with
  | EmptyString => if prev then Some acc else None
  | String c rest =>
      match digit_of c with
      | Some d => digits_value true (10 * acc + d) rest
      | None =>
          if (Ascii.eqb c "_"%char && prev)%bool then
            match rest with
            | String c' _ =>
                if is_digit c' then digits_value false acc rest else None
            | EmptyString => None
            end
          else None
      end
  end.

(** Python [int(s)] on ASCII text: surrounding white space, an optional
    sign, decimal digits. *)
Definition py_int (s : string) : option Z :=
  match strip s with
  | String "-"%char rest => Z.opp <$> digits_value false 0 rest
  | String "+"%char rest => digits_value false 0 rest
  | t => digits_value false 0 t
  end.

(** A Python string is true when it is not empty; [None] is false. *)
Definition truthy (l : option string) : bool :=
  match l with
  | Some (String _ _) => true
  | _ => false
  end.

(** [self.keys[i].row = r; self.keys[i].col = c]: the key objects are
    shared between the loop variable and [self.keys]. *)
Definition key_set_rowcol (i : nat) (r c : option Z) (k : Keyboard) : Keyboard :=
  set_keys (alter (fun key => mkKey (key_labels key) r c) i (keys k)) k.

(** The test and the parse of a primary label in [reload_layout]:
    [if label and "," in label: row, col = label.split(","); int(row), int(col)].
    [Ok None] when the test fails, [ValueError] when the split does not
    give two parts or a part is not an integer. *)
Definition label_coordinate (l0 : option string) : result (option (Z * Z)) :=
  if (truthy l0 && has_comma (default EmptyString l0))%bool then
    match split_comma (default EmptyString l0) with
    | [a; b] =>
        match py_int a with
        | Some row =>
            match py_int b with
            | Some col => Ok (Some (row, col))
            | None => Raise ValueError
            end
        | None => Raise ValueError
        end
    | _ => Raise ValueError
    end
  else Ok None.

(** The body of the loop [for key in self.keys] of [reload_layout]. *)
Definition reload_key `{Env} (i : nat) (key : Key) : M unit :=
  modify_self (key_set_rowcol i None None) ;;
  let* l0 := lift_opt IndexError (key_labels key !! 0%nat) in
  let* rc := lift (label_coordinate l0) in
  match rc with
  | Some (row, col) =>
      modify_self (key_set_rowcol i (Some row) (Some col)) ;;
      modify_self (fun k => set_rowcol (rowcol_setitem (row, col) (rowcol k)) k)
  | None => ret tt
  end.

(** The live path of [reload_layout] (the [else] branch): identity, size,
    chunks, then [json.loads(lzma.decompress(payload))]. *)
Definition fetch_payload `{Env} : M (Payload KleDoc) :=
  let* msg := lift (pack_all [pack_B CMD_VIA_VIAL_PREFIX;
                              pack_B CMD_VIAL_GET_KEYBOARD_ID]) in
  let* data := send msg in
  let* (p, i) := lift (unpack_IQ_le (slice 0 12 data)) in
  modify_self (set_identity p i) ;;
  let* msg := lift (pack_all [pack_B CMD_VIA_VIAL_PREFIX;
                              pack_B CMD_VIAL_GET_SIZE]) in
  let* data := send msg in
  let* sz := lift (unpack_I_le (slice 0 4 data)) in
  let* payload := fetch_chunks (Z.to_nat sz) sz 0 [] in
  lift_opt PayloadError (decode_payload payload).

(** The loop [for key in self.keys] of [reload_layout]. *)
Definition reload_keys `{Env} (ks : list Key) : M unit :=
  for_each (imap (fun i key => (i, key)) ks) (fun '(i, key) => reload_key i key).

(** The part of [reload_layout] that both paths share: the matrix
    dimensions, the key records and their coordinates. *)
Definition apply_payload `{Env} (payload : Payload KleDoc) : M unit :=
  let* r := lift_opt KeyError (matrix_rows payload) in
  modify_self (set_rows r) ;;
  let* c := lift_opt KeyError (matrix_cols payload) in
  modify_self (set_cols c) ;;
  let* doc := lift_opt KeyError (layouts_keymap payload) in
  let* ks := lift_opt DeserializeError (deserialize doc) in
  modify_self (set_keys ks) ;;
  reload_keys ks.

(** [Keyboard.reload_layout]; [sideload_json] is [None] on the live path. *)
Definition reload_layout `{Env} (sideload_json : option (Payload KleDoc)) : M unit :=
  let* payload :=
    match sideload_json with
    | Some doc => ret doc
    | None => fetch_payload
    end in
  apply_payload payload.

(** [Keyboard.reload] *)
Definition reload `{Env} (sideload_json : option (Payload KleDoc)) : M unit :=
  modify_self (set_rowcol []) ;;
  modify_self (set_layout ∅) ;;
  reload_layout sideload_json ;;
  reload_layers ;;
  reload_keymap.

(** ** Layout serialiser *)

(** The document built by [save_layout] before it is encoded. *)
Definition save_doc (k : Keyboard) : SavedLayout :=
  {| doc_version := 0;
     doc_layout :=
       (fun l => (fun r => (fun c => default (-1) (layout k !! (l, r, c)))
                             <$> range (cols k))
                   <$> range (rows k))
         <$> range (layers k) |}.

(** [Keyboard.save_layout] *)
Definition save_layout `{Env} : M bytes :=
  let* k := get_self in
  ret (json_dumps (save_doc k)).

(** The innermost statement of [restore_layout]. *)
Definition restore_cell `{Env} (l r c col : Z) : M unit :=
  let* k := get_self in
  if decide (is_Some (layout k !! (l, r, c))) then set_key l r c col else ret tt.

(** The three loops of [restore_layout], on the decoded document. *)
Definition restore_doc `{Env} (doc : SavedLayout) : M unit :=
  for_each (enumerate (doc_layout doc)) (fun '(l, layer) =>
    for_each (enumerate layer) (fun '(r, row) =>
      for_each (enumerate row) (fun '(c, col) =>
        restore_cell l r c col))).

(** [Keyboard.restore_layout] *)
Definition restore_layout `{Env} (data : bytes) : M unit :=
  let* doc := lift_opt JSONDecodeError (json_loads data) in
  restore_doc doc.

(** [m] keeps the property [P] of the world, whether it returns or raises. *)
Definition stable `{Env} {A} (P : World -> Prop) (m : M A) : Prop :=
  forall w, P w -> P (m w).2.

(** [m] does not raise [e]. *)
Definition never_raises `{Env} {A} (e : exn) (m : M A) : Prop :=
  forall w, (m w).1 <> Raise e.

(** The cells that the three loops of [restore_layout] visit, in order:
    [(l, r, c, col)] for every index triple of the array. *)
Definition doc_cells (doc : SavedLayout) : list (Z * Z * Z * Z) :=
  '(l, layer) ← enumerate (doc_layout doc);
  '(r, row) ← enumerate layer;
  '(c, col) ← enumerate row;
  [(l, r, c, col)].

(** [doc["layout"][l][r][c]], for indices counted from zero. *)
Definition doc_at (doc : SavedLayout) (l r c : nat) : option Z :=
  layer ← doc_layout doc !! l; row ← layer !! r; row !! c.

(** A Keymap that holds an entry for every index triple below
    [(layers, rows, cols)]. *)
Definition fully_populated (k : Keyboard) : Prop :=
  forall l r c,
    0 <= l < layers k -> 0 <= r < rows k -> 0 <= c < cols k ->
    is_Some (layout k !! (l, r, c)).

(** The coordinate that [reload_layout] reads off a key record, if any. *)
Definition key_coordinate (key : Key) : option (Z * Z) :=
  match key_labels key !! 0%nat with
  | Some l0 =>
      match label_coordinate l0 with
      | Ok rc => rc
      | Raise _ => None
      end
  | None => None
  end.

(** The key record after the loop body has attached [row] and [col]. *)
Definition key_located (key : Key) : Key :=
  mkKey (key_labels key) (fst <$> key_coordinate key) (snd <$> key_coordinate key).

(** The least number of messages of [m] bytes that hold [s] bytes. *)
Definition ceil_div (s m : Z) : Z := (s + m - 1) / m.

(** ** A codec for the save format

    The text that [json.dumps] writes for a save document, and a reader
    for such text.  The session takes its codec from [Env]; this one
    instantiates it for concrete runs. *)
Module Json.

Definition quote : string := String (ascii_of_nat 34) EmptyString.

Definition print_int (z : Z) : string := NilZero.string_of_int (Z.to_int z).

Definition print_list {A} (pr : A -> string) (xs : list A) : string :=
  "[" +:+ String.concat ", " (pr <$> xs) +:+ "]".

Definition print_doc (d : SavedLayout) : string :=
  "{" +:+ quote +:+ "version" +:+ quote +:+ ": " +:+ print_int (doc_version d)
      +:+ ", " +:+ quote +:+ "layout" +:+ quote +:+ ": "
      +:+ print_list (print_list (print_list print_int)) (doc_layout d) +:+ "}".

Definition dumps (d : SavedLayout) : bytes :=
  String.list_byte_of_string (print_doc d).

Definition parser (A : Type) : Type := string -> option (A * string).

Definition is_ws (c : ascii) : bool :=
  let n := nat_of_ascii c in
  (Nat.eqb n 32 || Nat.eqb n 9 || Nat.eqb n 10 || Nat.eqb n 13)%bool.

Fixpoint skip_ws (s : string) : string :=
  match s with
  | String c rest => if is_ws c then skip_ws rest else s
  | EmptyString => EmptyString
  end.

(** consume the literal [lit], after optional white space *)
Fixpoint expect_aux (lit s : string) : option string :=
  match lit with
  | EmptyString => Some s
  | String c lit' =>
      match s with
      | String c' s' => if Ascii.eqb c c' then expect_aux lit' s' else None
      | EmptyString => None
      end
  end.

Definition expect (lit : string) : parser unit :=
  fun s => (fun rest => (tt, rest)) <$> expect_aux lit (skip_ws s).

Definition is_num_char (c : ascii) : bool :=
  (is_digit c || Ascii.eqb c "-"%char)%bool.

Fixpoint span_num (s : string) : string * string :=
  match s with
  | String c rest =>
      if is_num_char c
      then let '(n, r) := span_num rest in (String c n, r)
      else (EmptyString, s)
  | EmptyString => (EmptyString, EmptyString)
  end.

Definition p_int : parser Z :=
  fun s =>
    let '(n, rest) := span_num (skip_ws s) in
    (fun d => (Z.of_int d, rest)) <$> NilZero.int_of_string n.

(** the rest of an array after one element: a closing bracket, or a
    comma and the next element *)
Fixpoint p_items {A} (p : parser A) (fuel : nat) (s : string) : option (list A * string) :=
  match fuel with
  | O => None
  | S fuel' =>
      match skip_ws s with
      | String c rest =>
          if Ascii.eqb c "]"%char then Some ([], rest)
          else if Ascii.eqb c ","%char then
            match p rest with
            | Some (x, s1) =>
                (fun '(xs, s2) => (x :: xs, s2)) <$> p_items p fuel' s1
            | None => None
            end
          else None
      | EmptyString => None
      end
  end.

Definition p_list {A} (p : parser A) : parser (list A) :=
  fun s =>
    match skip_ws s with
    | String c rest =>
        if Ascii.eqb c "["%char then
          match skip_ws rest with
          | String c' rest' =>
              if Ascii.eqb c' "]"%char then Some ([], rest')
              else
                match p rest with
                | Some (x, s1) =>
                    (fun '(xs, s2) => (x :: xs, s2)) <$> p_items p (String.length s) s1
                | None => None
                end
          | EmptyString => None
          end
        else None
    | EmptyString => None
    end.

Definition p_doc : parser SavedLayout :=
  fun s =>
    '(_, s) ← expect "{" s;
    '(_, s) ← expect (quote +:+ "version" +:+ quote) s;
    '(_, s) ← expect ":" s;
    '(v, s) ← p_int s;
    '(_, s) ← expect "," s;
    '(_, s) ← expect (quote +:+ "layout" +:+ quote) s;
    '(_, s) ← expect ":" s;
    '(l, s) ← p_list (p_list (p_list p_int)) s;
    '(_, s) ← expect "}" s;
    Some (mkSaved v l, s).

Definition loads (data : bytes) : option SavedLayout :=
  match p_doc (String.string_of_list_byte data) with
  | Some (d, rest) =>
      match skip_ws rest with
      | EmptyString => Some d
      | _ => None
      end
  | None => None
  end.

End Json.

(** Every character of [s] satisfies [P]. *)
Fixpoint string_forall (P : ascii -> bool) (s : string) : bool :=
  match s with
  | EmptyString => true
  | String c rest => P c && string_forall P rest
  end.

(** What may follow a number in the text of a document: the end of the
    text, or a character that cannot continue the number. *)
Definition ends_number (rest : string) : Prop :=
  match rest with
  | EmptyString => True
  | String c _ => Json.is_num_char c = false
  end.

(** The text of an array after its first element. *)
Fixpoint items_tail {A} (pr : A -> string) (xs : list A) (rest : string) : string :=
  match xs with
  | [] => String "]" rest
  | x :: xs' => String "," (String " " (pr x +:+ items_tail pr xs' rest))
  end.

(** ** A simulated keyboard

    A firmware double in the manner of the test doubles that are injected
    through the [usb_send] argument of [Keyboard.__init__]: frames of 32
    bytes, a keymap, and a definition blob.  It serves to run the model on
    concrete sessions. *)
Module Sim.

Record firmware : Type := mkFirmware {
  fw_protocol : Z;
  fw_uid : Z;
  fw_blob : bytes;
  fw_layer_count : Z;
  fw_keymap : gmap (Z * Z * Z) Z;
}.

Definition frame (bs : bytes) : bytes := take 32 (bs ++ replicate 32 Byte.x00).

Definition le_bytes (n : nat) (x : Z) : bytes :=
  (fun i => byte_of_Z (x / 256 ^ Z.of_nat i)) <$> seq 0 n.

Definition respond (fw : firmware) (msg : bytes) : firmware * option bytes :=
  match Z_of_byte <$> msg with
  | [0x11] => (fw, Some (frame [byte_of_Z 0x11; byte_of_Z (fw_layer_count fw)]))
  | [0x04; l; r; c] =>
      let k := default 0 (fw_keymap fw !! (l, r, c)) in
      (fw, Some (frame (msg ++ [byte_of_Z (k / 256); byte_of_Z k])))
  | [0x05; l; r; c; hi; lo] =>
      (mkFirmware (fw_protocol fw) (fw_uid fw) (fw_blob fw) (fw_layer_count fw)
                  (<[(l, r, c) := 256 * hi + lo]> (fw_keymap fw)),
       Some (frame msg))
  | [0xFE; 0x00] =>
      (fw, Some (frame (le_bytes 4 (fw_protocol fw) ++ le_bytes 8 (fw_uid fw))))
  | [0xFE; 0x01] =>
      (fw, Some (frame (le_bytes 4 (Z.of_nat (length (fw_blob fw))))))
  | [0xFE; 0x02; b0; b1; b2; b3] =>
      let blk := b0 + 256 * (b1 + 256 * (b2 + 256 * b3)) in
      (fw, Some (frame (drop (Z.to_nat (32 * blk)) (fw_blob fw))))
  | _ => (fw, None)
  end.

(** A toy container for layout documents: a magic byte, the two matrix
    dimensions, then the primary labels of the keys, each closed by a
    semicolon. *)
Fixpoint labels_of (cur : string) (s : string) : list string :=
  match s with
  | EmptyString => []
  | String c rest =>
      if Ascii.eqb c ";"%char then String.rev cur :: labels_of EmptyString rest
      else labels_of (String c cur) rest
  end.

Definition decode (blob : bytes) : option (Payload (list string)) :=
  match blob with
  | m :: r :: c :: rest =>
      if decide (Z_of_byte m = 0xFD)
      then Some (mkPayload (Some (Z_of_byte r)) (Some (Z_of_byte c))
                           (Some (labels_of EmptyString (String.string_of_list_byte rest))))
      else None
  | _ => None
  end.

Definition key_of_label (s : string) : Key :=
  mkKey ((match s with EmptyString => None | _ => Some s end) :: replicate 11 None)
        None None.

Definition encode (rows cols : Z) (labels : string) : bytes :=
  byte_of_Z 0xFD :: byte_of_Z rows :: byte_of_Z cols :: String.list_byte_of_string labels.

End Sim.

(** The simulated keyboard as an environment of the module. *)
#[export] Instance sim_env : Env := {|
  Dev := Sim.firmware;
  usb_send := Sim.respond;
  MSG_LEN := 32;
  KleDoc := list string;
  decode_payload := Sim.decode;
  deserialize := fun labels => Some (Sim.key_of_label <$> labels);
  json_dumps := Json.dumps;
  json_loads := Json.loads;
|}.

(** Concrete sessions on the simulated keyboard: a two-key, one-layer
    board whose definition blob holds four key records. *)
Definition fw0 : Sim.firmware :=
  Sim.mkFirmware 6 0x1122334455667788
    (Sim.encode 2 1 "0,0;;1,0;e0;")
    1 (list_to_map [((0, 0, 0), 10); ((0, 1, 0), 20)]).

Definition w_fresh : World := mkWorld _ init fw0 [].

Definition w_loaded : World := (reload None w_fresh).2.

(** A board whose only key is labelled ["3,7"] although its matrix is
    declared as one row by one column. *)
Definition fw_wide : Sim.firmware :=
  Sim.mkFirmware 6 0x99 (Sim.encode 1 1 "3,7;") 1 (list_to_map [((0, 3, 7), 41)]).

Definition w_wide : World := (reload None (mkWorld _ init fw_wide [])).2.

(** The loaded session in front of a keyboard whose definition blob no
    longer has the magic byte, so that decoding it fails. *)
Definition fw_corrupt : Sim.firmware :=
  Sim.mkFirmware 7 0x42 (byte_of_Z <$> [1; 2; 3; 4; 5]) 1 ∅.

Definition w_corrupt : World := mkWorld _ (self w_loaded) fw_corrupt (sent w_loaded).

(** A static layout document: a matrix of one row and one column, and one
    key labelled ["0,0"]. *)
Definition sideload_doc : Payload (list string) :=
  mkPayload (Some 1) (Some 1) (Some ["0,0"%string]).

(** A layout document with four key records: two with a coordinate, one
    without a label, one whose label has no separator. *)
Definition four_keys : Payload (list string) :=
  mkPayload (Some 4) (Some 8) (Some ["3,7"; ""; "Esc"; "0,0"]%string).

(** The chunk loop on the simulated keyboard for a declared size [S]: the
    length of the accumulated buffer and the number of requests. *)
Definition fetched (S : Z) : option (nat * nat) :=
  match fetch_chunks (Z.to_nat S) S 0 [] w_fresh with
  | (Ok payload, w') => Some (length payload, length (sent w'))
  | (Raise _, _) => None
  end.

(** Two save documents for the loaded session: one with a cell at the
    triple [(0, 0, 1)], which the session does not have, and one with the
    sentinel at the triple [(0, 1, 0)], which it has. *)
Definition doc_foreign : SavedLayout := mkSaved 0 [[[10; 99]; [21]]].

Definition doc_sentinel : SavedLayout := mkSaved 0 [[[11]; [-1]]].

(** ** Notions for the properties of the whole session *)

(** The read request of [reload_keymap]:
    [struct.pack("BBBB", CMD_VIA_GET_KEYCODE, layer, row, col)]. *)
Definition get_request (layer row col : Z) : result bytes :=
  pack_all [pack_B CMD_VIA_GET_KEYCODE; pack_B layer; pack_B row; pack_B col].

(** The requests of [reload_layout] and [reload_layers] that carry no
    argument. *)
Definition identity_request : result bytes :=
  pack_all [pack_B CMD_VIA_VIAL_PREFIX; pack_B CMD_VIAL_GET_KEYBOARD_ID].

Definition size_request : result bytes :=
  pack_all [pack_B CMD_VIA_VIAL_PREFIX; pack_B CMD_VIAL_GET_SIZE].

Definition layer_count_request : result bytes :=
  pack_all [pack_B CMD_VIA_GET_LAYER_COUNT].

(** The triples that the two loops of [reload_keymap] visit, in order:
    the layers outermost, the coordinates in the order of [rowcol]. *)
Definition keymap_keys (ls : list Z) (rc : list (Z * Z)) : list (Z * Z * Z) :=
  l ← ls; (fun '(r, c) => (l, r, c)) <$> rc.

(** A Keymap whose keys fit the byte fields of the requests and whose
    values are 16-bit keycodes. *)
Definition keymap_wf (m : gmap (Z * Z * Z) Z) : Prop :=
  forall l r c v,
    m !! (l, r, c) = Some v ->
    0 <= l <= 255 /\ 0 <= r <= 255 /\ 0 <= c <= 255 /\ 0 <= v <= 65535.

(** Two states of the session object that differ at most in the values
    of the Keymap: same coordinates, geometry, layer count, key records,
    identity, and the same set of Keymap keys. *)
Definition same_shape (k k' : Keyboard) : Prop :=
  rowcol k' = rowcol k /\ rows k' = rows k /\ cols k' = cols k /\
  layers k' = layers k /\ keys k' = keys k /\
  vial_protocol k' = vial_protocol k /\ keyboard_id k' = keyboard_id k /\
  dom (layout k') = dom (layout k).

(** The number of commas of a label. *)
Fixpoint count_commas (s : string) : nat :=
  match s with
  | EmptyString => O
  | String c rest => (if Ascii.eqb c ","%char then 1 else 0) + count_commas rest
  end.

(** The simulated keyboard behind a transport that raises on every
    exchange (a keyboard that has been unplugged). *)
Definition unplugged_env : Env := {|
  Dev := Sim.firmware;
  usb_send := fun fw _ => (fw, None);
  MSG_LEN := 32;
  KleDoc := list string;
  decode_payload := Sim.decode;
  deserialize := fun labels => Some (Sim.key_of_label <$> labels);
  json_dumps := Json.dumps;
  json_loads := Json.loads;
|}.

(** The loaded session, its keyboard unplugged. *)
Definition w_unplugged : @World unplugged_env :=
  @mkWorld unplugged_env (self w_loaded) fw0 [].

(** A cell of a save document whose triple has an entry in the Keymap [m]
    with another keycode: the cells for which [restore_layout] has to
    write. *)
Definition cell_differs (m : gmap (Z * Z * Z) Z) (cell : Z * Z * Z * Z) : Prop :=
  match m !! cell.1 with
  | Some cur => cur <> cell.2
  | None => False
  end.

#[export] Instance cell_differs_dec m cell : Decision (cell_differs m cell).
Proof. unfold cell_differs. destruct (m !! cell.1); apply _. Defined.

(** The write request for a cell of a save document. *)
Definition cell_request (cell : Z * Z * Z * Z) : result bytes :=
  let '(l, r, c, v) := cell in set_request l r c v.

(** The body of the inner loop of [reload_keymap], for the layer of the
    outer loop. *)
Definition keymap_step `{Env} (layer : Z) (rc : Z * Z) : M unit :=
  let '(row, col) := rc in
  let* msg := lift (pack_all [pack_B CMD_VIA_GET_KEYCODE; pack_B layer;
                              pack_B row; pack_B col]) in
  let* data := send msg in
  let* keycode := lift (unpack_H_be (slice 4 6 data)) in
  modify_self (fun k => set_layout (<[(layer, row, col) := keycode]> (layout k)) k).

(** Two states of the session object that differ at most in the Keymap. *)
Definition same_but_keymap (k k' : Keyboard) : Prop :=
  rowcol k' = rowcol k /\ rows k' = rows k /\ cols k' = cols k /\
  layers k' = layers k /\ keys k' = keys k /\
  vial_protocol k' = vial_protocol k /\ keyboard_id k' = keyboard_id k.

(** A static layout document whose only key is labelled ["300,0"], and
    the session in front of the simulated keyboard after [reload_layout]
    on it and [reload_layers]. *)
Definition far_doc : Payload (list string) :=
  mkPayload (Some 1) (Some 1) (Some ["300,0"%string]).

Definition w_far : World := (reload_layers (reload_layout (Some far_doc) w_fresh).2).2.

(** The simulated keyboard behind a transport that answers every request
    with an empty response. *)
Definition mute_env : Env := {|
  Dev := Sim.firmware;
  usb_send := fun fw _ => (fw, Some []);
  MSG_LEN := 32;
  KleDoc := list string;
  decode_payload := Sim.decode;
  deserialize := fun labels => Some (Sim.key_of_label <$> labels);
  json_dumps := Json.dumps;
  json_loads := Json.loads;
|}.

Definition w_mute : @World mute_env := @mkWorld mute_env init fw0 [].

(** The command byte of a request. *)
Definition command_of (msg : bytes) : option Z := Z_of_byte <$> head msg.

(** [m] does no exchange with the device. *)
Definition quiet `{Env} {A} (m : M A) : Prop :=
  forall w, sent (m w).2 = sent w /\ device (m w).2 = device w.

(** The requests sent since the log was [s0] all satisfy [Q]. *)
Definition sent_since `{Env} (s0 : list bytes) (Q : bytes -> Prop) (w : World) : Prop :=
  exists msgs, sent w = s0 ++ msgs /\ Forall Q msgs.

(** A static layout document without the ["keymap"] entry. *)
Definition no_keymap_doc : Payload (list string) :=
  mkPayload (Some 5) (Some 7) None.

(** [m] does not look at the session object: its result, the device and
    the log do not depend on it, and it updates it by a fixed function. *)
Definition oblivious `{Env} {A} (m : M A) : Prop :=
  forall d s, exists r d' s' (g : Keyboard -> Keyboard),
    forall k, m (mkWorld _ k d s) = (r, mkWorld _ (g k) d' s').

(** * Properties *)

Section Loops.
Context `{Env}.

(** A loop whose every iteration leaves the world [w] as it is. *)
Lemma for_each_noop {A} (xs : list A) (body : A -> M unit) w :
  (forall x, x ∈ xs -> body x w = (Ok tt, w)) ->
  for_each xs body w = (Ok tt, w).
Proof.
  induction xs as [|x xs IH]; intros Hbody; [done|].
  simpl. unfold bind. rewrite Hbody by left.
  apply IH. intros y Hy. apply Hbody. by right.
Qed.

Lemma for_each_app {A} (xs ys : list A) (body : A -> M unit) w :
  for_each (xs ++ ys) body w = (for_each xs body ;; for_each ys body) w.
Proof.
  revert w. induction xs as [|x xs IH]; intros w; simpl.
  - done.
  - unfold bind. destruct (body x w) as [[[]|e] w1]; [|done].
    rewrite IH. done.
Qed.

End Loops.

(** ** [struct] facts *)

Lemma Z_of_byte_range b : 0 <= Z_of_byte b <= 255.
Proof.
  unfold Z_of_byte. pose proof (Byte.to_N_bounded b). lia.
Qed.

Lemma Z_of_byte_of_Z x : 0 <= x <= 255 -> Z_of_byte (byte_of_Z x) = x.
Proof.
  intros Hx. unfold Z_of_byte, byte_of_Z.
  rewrite Z.mod_small by lia.
  destruct (Byte.of_N (Z.to_N x)) as [b|] eqn:Hb.
  - simpl. apply Byte.to_of_N in Hb. rewrite Hb. lia.
  - apply Byte.of_N_None_iff in Hb. lia.
Qed.

Lemma Z_of_byte_of_Z_mod x : Z_of_byte (byte_of_Z x) = x mod 256.
Proof.
  unfold byte_of_Z. pose proof (Z.mod_pos_bound x 256 ltac:(lia)) as Hx.
  unfold Z_of_byte.
  destruct (Byte.of_N (Z.to_N (x mod 256))) as [b|] eqn:Hb.
  - simpl. apply Byte.to_of_N in Hb. rewrite Hb. lia.
  - apply Byte.of_N_None_iff in Hb. lia.
Qed.

Lemma byte_of_Z_inj x y :
  0 <= x <= 255 -> 0 <= y <= 255 -> byte_of_Z x = byte_of_Z y -> x = y.
Proof.
  intros Hx Hy Heq.
  rewrite <- (Z_of_byte_of_Z x), <- (Z_of_byte_of_Z y) by done. by rewrite Heq.
Qed.

Lemma set_request_ok layer row col code :
  0 <= layer <= 255 -> 0 <= row <= 255 -> 0 <= col <= 255 -> 0 <= code <= 65535 ->
  set_request layer row col code =
    Ok [byte_of_Z 5; byte_of_Z layer; byte_of_Z row; byte_of_Z col;
        byte_of_Z (code / 256); byte_of_Z code].
Proof.
  intros. unfold set_request, pack_B, pack_H_be, CMD_VIA_SET_KEYCODE.
  repeat case_decide; try lia. reflexivity.
Qed.

Lemma set_request_inv layer row col code msg :
  set_request layer row col code = Ok msg ->
  (0 <= layer <= 255 /\ 0 <= row <= 255 /\ 0 <= col <= 255 /\ 0 <= code <= 65535) /\
  msg = [byte_of_Z 5; byte_of_Z layer; byte_of_Z row; byte_of_Z col;
         byte_of_Z (code / 256); byte_of_Z code].
Proof.
  unfold set_request, pack_B, pack_H_be, CMD_VIA_SET_KEYCODE.
  repeat case_decide; simpl; intros Heq; try discriminate.
  injection Heq as <-. done.
Qed.

Lemma set_request_raise layer row col code e :
  set_request layer row col code = Raise e -> e = StructError.
Proof.
  unfold set_request, pack_B, pack_H_be, CMD_VIA_SET_KEYCODE.
  repeat case_decide; simpl; intros Heq; try discriminate; by injection Heq.
Qed.

Lemma set_request_bad_code layer row col code :
  ~ (0 <= code <= 65535) -> set_request layer row col code = Raise StructError.
Proof.
  intros Hc. destruct (set_request layer row col code) as [msg|e] eqn:Hreq.
  - apply set_request_inv in Hreq. lia.
  - by rewrite (set_request_raise _ _ _ _ _ Hreq).
Qed.

(** ** The single-key mutator *)

Section SetKey.
Context `{Env}.

Lemma set_key_absent w layer row col code :
  layout (self w) !! (layer, row, col) = None ->
  set_key layer row col code w = (Raise KeyError, w).
Proof.
  intros Hk. unfold set_key, bind, get_self. simpl. rewrite Hk. reflexivity.
Qed.

Lemma set_key_same w layer row col code :
  layout (self w) !! (layer, row, col) = Some code ->
  set_key layer row col code w = (Ok tt, w).
Proof.
  intros Hk. unfold set_key, bind, get_self. simpl. rewrite Hk. simpl.
  case_decide; [congruence | reflexivity].
Qed.

Lemma set_key_unpackable w layer row col code cur :
  layout (self w) !! (layer, row, col) = Some cur ->
  cur <> code ->
  set_request layer row col code = Raise StructError ->
  set_key layer row col code w = (Raise StructError, w).
Proof.
  intros Hk Hne Hreq. unfold set_key, bind, get_self. simpl. rewrite Hk. simpl.
  case_decide; [|congruence]. unfold lift. rewrite Hreq. reflexivity.
Qed.

Lemma set_key_write w layer row col code cur msg :
  layout (self w) !! (layer, row, col) = Some cur ->
  cur <> code ->
  set_request layer row col code = Ok msg ->
  set_key layer row col code w =
    match (usb_send (device w) msg).2 with
    | Some _ =>
        (Ok tt,
         mkWorld _ (set_layout (<[(layer, row, col) := code]> (layout (self w))) (self w))
                 (usb_send (device w) msg).1 (sent w ++ [msg]))
    | None =>
        (Raise TransportError,
         mkWorld _ (self w) (usb_send (device w) msg).1 (sent w ++ [msg]))
    end.
Proof.
  intros Hk Hne Hreq. unfold set_key, bind, get_self. simpl. rewrite Hk. simpl.
  case_decide; [|congruence]. unfold lift. rewrite Hreq. unfold send.
  destruct (usb_send (device w) msg) as [d [data|]]; reflexivity.
Qed.

End SetKey.

(** ** Claims on the single-key mutator *)

(** C7: [setKey] for a (layer, row, col) triple that is absent from the
    Keymap cache signals a lookup failure to the caller ([KeyError], raised
    by [self.layout[key]]); no transport request is issued and the Keymap,
    like the rest of the world, is unchanged. *)
Theorem set_key_unknown_coordinate `{Env} (w : World) (layer row col code : Z) :
  layout (self w) !! (layer, row, col) = None ->
  (set_key layer row col code w).1 = Raise KeyError /\
  sent (set_key layer row col code w).2 = sent w /\
  layout (self (set_key layer row col code w).2) = layout (self w) /\
  (set_key layer row col code w).2 = w.
Proof.
  intros Hk. rewrite (set_key_absent _ _ _ _ _ Hk). simpl. auto.
Qed.

Lemma set_key_unknown_coordinate_witness :
  layout (self w_loaded) !! (0, 5, 0) = None /\
  (set_key 0 5 0 42 w_loaded).1 = Raise KeyError /\
  sent (set_key 0 5 0 42 w_loaded).2 = sent w_loaded /\
  layout (self (set_key 0 5 0 42 w_loaded).2) = layout (self w_loaded) /\
  (set_key 0 5 0 42 w_loaded).2 = w_loaded.
Proof.
  split; [reflexivity|].
  apply (set_key_unknown_coordinate w_loaded 0 5 0 42). reflexivity.
Defined.

(** C5: for a triple present in the Keymap, [setKey] with the cached
    keycode issues no transport request and leaves the whole world
    unchanged; and from a cached value [b], two calls of [setKey] with a
    value [a] different from [b] (a value that the write request can
    encode, on a transport that answers it) issue exactly one write
    request in total: the first call sends it and caches [a], the second
    is a no-op. *)
Theorem set_key_dedup `{Env} (w : World) (layer row col b : Z) :
  layout (self w) !! (layer, row, col) = Some b ->
  set_key layer row col b w = (Ok tt, w) /\
  forall a msg resp,
    a <> b ->
    set_request layer row col a = Ok msg ->
    (usb_send (device w) msg).2 = Some resp ->
    exists w1,
      set_key layer row col a w = (Ok tt, w1) /\
      set_key layer row col a w1 = (Ok tt, w1) /\
      sent w1 = sent w ++ [msg] /\
      layout (self w1) = <[(layer, row, col) := a]> (layout (self w)).
Proof.
  intros Hk. split; [by apply set_key_same|].
  intros a msg resp Hne Hreq Hresp.
  rewrite (set_key_write w layer row col a b msg Hk (not_eq_sym Hne) Hreq), Hresp.
  eexists. split; [reflexivity|]. split; [|split; reflexivity].
  apply set_key_same. simpl. apply lookup_insert_eq.
Qed.

Lemma set_key_dedup_witness :
  layout (self w_loaded) !! (0, 1, 0) = Some 20 /\
  set_key 0 1 0 20 w_loaded = (Ok tt, w_loaded) /\
  (21 <> 20 /\
   set_request 0 1 0 21 =
     Ok [byte_of_Z 5; byte_of_Z 0; byte_of_Z 1; byte_of_Z 0; byte_of_Z 0; byte_of_Z 21] /\
   is_Some (usb_send (device w_loaded)
              [byte_of_Z 5; byte_of_Z 0; byte_of_Z 1; byte_of_Z 0;
               byte_of_Z 0; byte_of_Z 21]).2) /\
  exists w1,
    set_key 0 1 0 21 w_loaded = (Ok tt, w1) /\
    set_key 0 1 0 21 w1 = (Ok tt, w1) /\
    sent w1 = sent w_loaded ++
      [[byte_of_Z 5; byte_of_Z 0; byte_of_Z 1; byte_of_Z 0; byte_of_Z 0; byte_of_Z 21]] /\
    layout (self w1) = <[(0, 1, 0) := 21]> (layout (self w_loaded)).
Proof.
  assert (Hk : layout (self w_loaded) !! (0, 1, 0) = Some 20) by reflexivity.
  destruct (set_key_dedup w_loaded 0 1 0 20 Hk) as [Hsame Htwice].
  split; [exact Hk|]. split; [exact Hsame|].
  split; [split; [lia | split; [reflexivity | eexists; reflexivity]]|].
  eapply (Htwice 21); [lia | reflexivity | reflexivity].
Defined.

(** ** The save document and the loops of [restore_layout] *)

Lemma elem_of_enumerate {A} (xs : list A) (i : Z) (x : A) :
  (i, x) ∈ enumerate xs <-> exists n : nat, i = Z.of_nat n /\ xs !! n = Some x.
Proof.
  unfold enumerate. rewrite elem_of_lookup_imap. split.
  - intros (n & y & Heq & Hn). injection Heq as -> ->. eauto.
  - intros (n & -> & Hn). eauto.
Qed.

Lemma elem_of_doc_cells doc l r c v :
  (l, r, c, v) ∈ doc_cells doc <->
  exists i j k : nat,
    l = Z.of_nat i /\ r = Z.of_nat j /\ c = Z.of_nat k /\ doc_at doc i j k = Some v.
Proof.
  unfold doc_cells, doc_at. split.
  - intros Hin.
    apply list_elem_of_bind in Hin as ([l' layer] & Hin & Hl).
    apply list_elem_of_bind in Hin as ([r' row] & Hin & Hr).
    apply list_elem_of_bind in Hin as ([c' col] & Hin & Hc).
    apply list_elem_of_singleton in Hin. injection Hin as -> -> -> ->.
    apply elem_of_enumerate in Hl as (i & -> & Hi).
    apply elem_of_enumerate in Hr as (j & -> & Hj).
    apply elem_of_enumerate in Hc as (k & -> & Hk).
    exists i, j, k. rewrite Hi. simpl. rewrite Hj. simpl. done.
  - intros (i & j & k & -> & -> & -> & Hat).
    destruct (doc_layout doc !! i) as [layer|] eqn:Hi; simpl in Hat; [|done].
    destruct (layer !! j) as [row|] eqn:Hj; simpl in Hat; [|done].
    apply list_elem_of_bind. exists (Z.of_nat i, layer). split.
    2:{ apply elem_of_enumerate. eauto. }
    apply list_elem_of_bind. exists (Z.of_nat j, row). split.
    2:{ apply elem_of_enumerate. eauto. }
    apply list_elem_of_bind. exists (Z.of_nat k, v). split.
    2:{ apply elem_of_enumerate. eauto. }
    apply list_elem_of_singleton. done.
Qed.

Lemma lookup_fmap_range {A} (f : Z -> A) (n : Z) (i : nat) :
  (f <$> range n) !! i = if decide (Z.of_nat i < n) then Some (f (Z.of_nat i)) else None.
Proof.
  unfold range. rewrite list_lookup_fmap. case_decide.
  - rewrite lookup_seqZ_lt by done. done.
  - rewrite lookup_seqZ_ge by lia. done.
Qed.

(** The array of [save_layout] has an entry exactly at the index triples
    below [(layers, rows, cols)]: the cached keycode, or [-1]. *)
Lemma save_doc_at k (i j n : nat) :
  doc_at (save_doc k) i j n =
    if decide (Z.of_nat i < layers k /\ Z.of_nat j < rows k /\ Z.of_nat n < cols k)
    then Some (default (-1) (layout k !! (Z.of_nat i, Z.of_nat j, Z.of_nat n)))
    else None.
Proof.
  unfold doc_at, save_doc. simpl.
  rewrite lookup_fmap_range. case_decide; simpl.
  - rewrite lookup_fmap_range. case_decide; simpl.
    + rewrite lookup_fmap_range. repeat case_decide; try done; lia.
    + case_decide; [lia | done].
  - case_decide; [lia | done].
Qed.

Section Restore.
Context `{Env}.

Lemma for_each_ext {A} (xs : list A) (f g : A -> M unit) w :
  (forall x w', x ∈ xs -> f x w' = g x w') ->
  for_each xs f w = for_each xs g w.
Proof.
  revert w. induction xs as [|x xs IH]; intros w Hfg; [done|].
  simpl. unfold bind. rewrite Hfg by left.
  destruct (g x w) as [[[]|e] w1]; [|done].
  apply IH. intros y w' Hy. apply Hfg. by right.
Qed.

Lemma for_each_bind {A B} (xs : list A) (f : A -> list B) (body : B -> M unit) w :
  for_each (xs ≫= f) body w = for_each xs (fun x => for_each (f x) body) w.
Proof.
  revert w. induction xs as [|x xs IH]; intros w; [done|].
  change ((x :: xs) ≫= f) with (f x ++ (xs ≫= f)).
  rewrite for_each_app. simpl. unfold bind.
  destruct (for_each (f x) body w) as [[[]|e] w1]; [|done].
  apply IH.
Qed.

(** [restore_layout] applies its innermost statement to the cells of the
    document, in the order of [doc_cells]. *)
Lemma restore_doc_cells doc w :
  restore_doc doc w =
    for_each (doc_cells doc) (fun '(l, r, c, col) => restore_cell l r c col) w.
Proof.
  unfold restore_doc, doc_cells.
  rewrite for_each_bind. apply for_each_ext. intros [l layer] w1 _.
  rewrite for_each_bind. apply for_each_ext. intros [r row] w2 _.
  rewrite for_each_bind. apply for_each_ext. intros [c col] w3 _.
  simpl. unfold bind. destruct (restore_cell l r c col w3) as [[[]|e] w4]; done.
Qed.

(** [restore_layout] on bytes that decode to [doc] runs the loops on [doc]. *)
Lemma restore_layout_decoded data doc w :
  json_loads data = Some doc -> restore_layout data w = restore_doc doc w.
Proof. intros Hd. unfold restore_layout, bind. rewrite Hd. reflexivity. Qed.

End Restore.

Section RestoreCell.
Context `{Env}.

Lemma restore_cell_unknown w l r c v :
  layout (self w) !! (l, r, c) = None -> restore_cell l r c v w = (Ok tt, w).
Proof.
  intros Hk. unfold restore_cell, bind, get_self. simpl.
  case_decide as Hs; [|done]. rewrite Hk in Hs. by destruct Hs.
Qed.

Lemma restore_cell_known w l r c v :
  is_Some (layout (self w) !! (l, r, c)) ->
  restore_cell l r c v w = set_key l r c v w.
Proof.
  intros Hk. unfold restore_cell, bind, get_self. simpl. case_decide; done.
Qed.

(** What one call of [set_key] can do to the request log and to the
    Keymap: nothing, or one write request for its own triple, followed
    by the update of an entry that was already there, with a value that
    fits 16 bits. *)
Lemma set_key_effect w l r c v :
  let w' := (set_key l r c v w).2 in
  (sent w' = sent w \/
   exists msg, sent w' = sent w ++ [msg] /\ set_request l r c v = Ok msg /\
               is_Some (layout (self w) !! (l, r, c))) /\
  (layout (self w') = layout (self w) \/
   layout (self w') = <[(l, r, c) := v]> (layout (self w)) /\
   is_Some (layout (self w) !! (l, r, c)) /\ 0 <= v <= 65535).
Proof.
  destruct (layout (self w) !! (l, r, c)) as [cur|] eqn:Hk.
  2:{ rewrite (set_key_absent _ _ _ _ _ Hk). simpl. auto. }
  destruct (decide (cur = v)) as [->|Hne].
  { rewrite (set_key_same _ _ _ _ _ Hk). simpl. auto. }
  destruct (set_request l r c v) as [msg|e] eqn:Hreq.
  2:{ rewrite (set_request_raise _ _ _ _ _ Hreq) in Hreq.
      rewrite (set_key_unpackable _ _ _ _ _ _ Hk Hne Hreq). simpl. auto. }
  rewrite (set_key_write _ _ _ _ _ _ _ Hk Hne Hreq).
  pose proof (set_request_inv _ _ _ _ _ Hreq) as [(_ & _ & _ & Hv) _].
  destruct (usb_send (device w) msg).2; simpl.
  - split; [right; eauto | right; eauto].
  - split; [right; eauto | left; done].
Qed.

Lemma restore_cell_effect w l r c v :
  let w' := (restore_cell l r c v w).2 in
  (sent w' = sent w \/
   exists msg, sent w' = sent w ++ [msg] /\ set_request l r c v = Ok msg /\
               is_Some (layout (self w) !! (l, r, c))) /\
  (layout (self w') = layout (self w) \/
   layout (self w') = <[(l, r, c) := v]> (layout (self w)) /\
   is_Some (layout (self w) !! (l, r, c)) /\ 0 <= v <= 65535).
Proof.
  destruct (layout (self w) !! (l, r, c)) as [cur|] eqn:Hk.
  - rewrite restore_cell_known by (rewrite Hk; eauto).
    rewrite <- Hk. apply set_key_effect.
  - rewrite (restore_cell_unknown _ _ _ _ _ Hk). simpl. auto.
Qed.

(** A loop that meets an iteration which must raise does raise. *)
Lemma for_each_raises {A} (I : World -> Prop) (xs : list A) (body : A -> M unit) x0 :
  (forall x w, I w -> (body x w).1 = Ok tt -> I (body x w).2) ->
  (forall w, I w -> exists e, (body x0 w).1 = Raise e) ->
  x0 ∈ xs ->
  forall w, I w -> exists e, (for_each xs body w).1 = Raise e.
Proof.
  intros Hstep Hx0. induction xs as [|x xs IH]; intros Hin w Hw.
  - by apply elem_of_nil in Hin.
  - simpl. unfold bind.
    destruct (body x w) as [[[]|e] w1] eqn:Hb; [|by exists e].
    apply elem_of_cons in Hin as [->|Hin].
    + destruct (Hx0 w Hw) as [e He]. rewrite Hb in He. discriminate.
    + apply IH; [done|]. specialize (Hstep x w Hw). rewrite Hb in Hstep.
      by apply Hstep.
Qed.

(** Iterations that do nothing can be left out of a loop. *)
Lemma for_each_filter {A} (I : World -> Prop) (P : A -> Prop)
    `{forall x, Decision (P x)} (xs : list A) (body : A -> M unit) :
  (forall x w, I w -> I (body x w).2) ->
  (forall x w, I w -> ~ P x -> body x w = (Ok tt, w)) ->
  forall w, I w -> for_each xs body w = for_each (filter P xs) body w.
Proof.
  intros Hstep Hskip. induction xs as [|x xs IH]; intros w Hw; [done|].
  rewrite filter_cons. destruct (decide (P x)) as [HP|HP]; simpl; unfold bind.
  - pose proof (Hstep x w Hw) as Hw1.
    destruct (body x w) as [[[]|e] w1]; [|done]. by apply IH.
  - rewrite (Hskip x w Hw HP). by apply IH.
Qed.

End RestoreCell.

Lemma set_request_triple_inj l r c v l' r' c' v' msg :
  set_request l r c v = Ok msg -> set_request l' r' c' v' = Ok msg ->
  (l, r, c) = (l', r', c').
Proof.
  intros [(Hl & Hr & Hc & _) ->]%set_request_inv [(Hl' & Hr' & Hc' & _) Heq]%set_request_inv.
  injection Heq as El Er Ec _ _.
  apply byte_of_Z_inj in El, Er, Ec; try done. congruence.
Qed.

Lemma for_each_invariant `{Env} {A} (I : World -> Prop) (xs : list A) (body : A -> M unit) :
  (forall x w, I w -> I (body x w).2) ->
  forall w, I w -> I (for_each xs body w).2.
Proof.
  intros Hstep. induction xs as [|x xs IH]; intros w Hw; [done|].
  simpl. unfold bind. pose proof (Hstep x w Hw) as Hw1.
  destruct (body x w) as [[[]|e] w1]; simpl in *; [by apply IH | done].
Qed.

(** Every cell of the document that [save_layout] writes holds the cached
    value of its triple, or belongs to a triple without an entry: restoring
    it changes nothing. *)
Lemma restore_save_noop `{Env} (w : World) :
  json_loads (json_dumps (save_doc (self w))) = Some (save_doc (self w)) ->
  (let* data := save_layout in restore_layout data) w = (Ok tt, w).
Proof.
  intros Hcodec.
  unfold save_layout, restore_layout, bind, get_self, ret. simpl.
  rewrite Hcodec. simpl. rewrite restore_doc_cells.
  apply for_each_noop. intros [[[l r] c] v] Hin.
  apply elem_of_doc_cells in Hin as (i & j & n & -> & -> & -> & Hat).
  rewrite save_doc_at in Hat. case_decide; [|done]. injection Hat as <-.
  destruct (layout (self w) !! (Z.of_nat i, Z.of_nat j, Z.of_nat n)) as [cur|] eqn:Hk.
  - rewrite restore_cell_known by (rewrite Hk; eauto). by apply set_key_same.
  - by apply restore_cell_unknown.
Qed.

(** ** Claims on save and restore *)

(** C2: for a session whose Keymap is fully populated (an entry for every
    triple below the layer count and the matrix dimensions), and a codec
    that reads back the document it wrote, [restore(save())] completes,
    leaves the Keymap (and the whole world) exactly unchanged and issues
    zero requests on the transport. *)
Theorem restore_save_roundtrip `{Env} (w : World) :
  fully_populated (self w) ->
  json_loads (json_dumps (save_doc (self w))) = Some (save_doc (self w)) ->
  let out := (let* data := save_layout in restore_layout data) w in
  out.1 = Ok tt /\
  layout (self out.2) = layout (self w) /\
  sent out.2 = sent w /\
  out.2 = w.
Proof.
  intros _ Hcodec. simpl. rewrite (restore_save_noop w Hcodec). simpl. auto.
Qed.

Lemma restore_save_roundtrip_witness :
  fully_populated (self w_loaded) /\
  json_loads (json_dumps (save_doc (self w_loaded))) = Some (save_doc (self w_loaded)) /\
  save_doc (self w_loaded) = mkSaved 0 [[[10]; [20]]] /\
  let out := (let* data := save_layout in restore_layout data) w_loaded in
  out.1 = Ok tt /\
  layout (self out.2) = layout (self w_loaded) /\
  sent out.2 = sent w_loaded /\
  out.2 = w_loaded.
Proof.
  assert (Hfull : fully_populated (self w_loaded)).
  { intros l r c Hl Hr Hc.
    assert (layers (self w_loaded) = 1) as El by (vm_compute; reflexivity).
    assert (rows (self w_loaded) = 2) as Er by (vm_compute; reflexivity).
    assert (cols (self w_loaded) = 1) as Ec by (vm_compute; reflexivity).
    rewrite El in Hl. rewrite Er in Hr. rewrite Ec in Hc.
    assert (l = 0) as -> by lia. assert (c = 0) as -> by lia.
    assert (r = 0 \/ r = 1) as [-> | ->] by lia; vm_compute; eexists; reflexivity. }
  split; [exact Hfull|].
  split; [vm_compute; reflexivity|]. split; [vm_compute; reflexivity|].
  apply (restore_save_roundtrip w_loaded Hfull). vm_compute; reflexivity.
Defined.

(** C10: [save()] enumerates exactly the index triples below
    [(layers, rows, cols)], each with the cached keycode or [-1]; hence a
    Keymap entry whose layer, row or col lies at or beyond those bounds is
    absent from the saved document, and since [restore] applies its
    statement to the cells of the decoded document only, [restore(save())]
    never re-applies such an entry. *)
Theorem save_layout_omits_out_of_bounds `{Env} (w : World) :
  let doc := save_doc (self w) in
  (forall l r c v,
     (l, r, c, v) ∈ doc_cells doc <->
     0 <= l < layers (self w) /\ 0 <= r < rows (self w) /\ 0 <= c < cols (self w) /\
     v = default (-1) (layout (self w) !! (l, r, c))) /\
  (forall l r c x,
     layout (self w) !! (l, r, c) = Some x ->
     layers (self w) <= l \/ rows (self w) <= r \/ cols (self w) <= c ->
     forall v, (l, r, c, v) ∉ doc_cells doc) /\
  (save_layout w = (Ok (json_dumps doc), w) /\
   forall data,
     json_loads data = Some doc ->
     restore_layout data w =
       for_each (doc_cells doc) (fun '(l, r, c, col) => restore_cell l r c col) w).
Proof.
  intros doc.
  assert (Hcells : forall l r c v,
     (l, r, c, v) ∈ doc_cells doc <->
     0 <= l < layers (self w) /\ 0 <= r < rows (self w) /\ 0 <= c < cols (self w) /\
     v = default (-1) (layout (self w) !! (l, r, c))).
  { intros l r c v. unfold doc. rewrite elem_of_doc_cells. split.
    - intros (i & j & n & -> & -> & -> & Hat).
      rewrite save_doc_at in Hat. case_decide; [|done]. injection Hat as <-.
      repeat split; try lia.
    - intros (Hl & Hr & Hc & ->).
      exists (Z.to_nat l), (Z.to_nat r), (Z.to_nat c).
      rewrite save_doc_at, !Z2Nat.id by lia.
      case_decide; [done | lia]. }
  split; [exact Hcells|]. split.
  - intros l r c x _ Hout v Hin. apply Hcells in Hin. lia.
  - split; [reflexivity|]. intros data Hd.
    rewrite (restore_layout_decoded data doc w Hd). apply restore_doc_cells.
Qed.

Lemma save_layout_omits_out_of_bounds_witness :
  (layout (self w_wide) !! (0, 3, 7) = Some 41 /\
   rows (self w_wide) = 1 /\ cols (self w_wide) = 1 /\ layers (self w_wide) = 1) /\
  save_doc (self w_wide) = mkSaved 0 [[[-1]]] /\
  forall v, (0, 3, 7, v) ∉ doc_cells (save_doc (self w_wide)).
Proof.
  assert (Hk : layout (self w_wide) !! (0, 3, 7) = Some 41) by (vm_compute; reflexivity).
  assert (Hr : rows (self w_wide) = 1) by (vm_compute; reflexivity).
  split; [repeat split; try exact Hk; vm_compute; reflexivity|].
  split; [vm_compute; reflexivity|].
  destruct (save_layout_omits_out_of_bounds w_wide) as (_ & Hout & _).
  apply (Hout 0 3 7 41 Hk). right. left. rewrite Hr. lia.
Defined.

(** C6: [restore] on a save document that contains an index triple which
    is not a key of the current Keymap: the statement for that triple does
    not raise and changes nothing; whatever the rest of the document does,
    the Keymap still has no entry at that triple afterwards and none of
    the requests issued is a write request for that triple; and the whole
    [restore] is the [restore] of the document without the cells of that
    triple. *)
Theorem restore_skips_unknown `{Env} (w : World) (data : bytes) (doc : SavedLayout)
    (l r c : Z) :
  json_loads data = Some doc ->
  layout (self w) !! (l, r, c) = None ->
  (forall v, restore_cell l r c v w = (Ok tt, w)) /\
  layout (self (restore_layout data w).2) !! (l, r, c) = None /\
  (exists extra,
     sent (restore_layout data w).2 = sent w ++ extra /\
     forall v msg, set_request l r c v = Ok msg -> msg ∉ extra) /\
  restore_layout data w =
    for_each (filter (fun cell => cell.1 <> (l, r, c)) (doc_cells doc))
             (fun '(l, r, c, col) => restore_cell l r c col) w.
Proof.
  intros Hd Hk. rewrite (restore_layout_decoded data doc w Hd).
  set (body := fun '(l, r, c, col) => restore_cell l r c col).
  set (I := fun w1 : World =>
              layout (self w1) !! (l, r, c) = None /\
              exists extra, sent w1 = sent w ++ extra /\
                forall v msg, set_request l r c v = Ok msg -> msg ∉ extra).
  assert (HI : I w).
  { split; [done|]. exists []. rewrite app_nil_r. split; [done|].
    intros v msg _ Hin. by apply elem_of_nil in Hin. }
  assert (Hstep : forall x w1, I w1 -> I (body x w1).2).
  { intros [[[l' r'] c'] v'] w1 (Hk1 & extra & Hs & Hno). unfold body.
    destruct (restore_cell_effect w1 l' r' c' v') as [Hsent Hlay].
    split.
    - destruct Hlay as [-> | (-> & Hsome & _)]; [done|].
      rewrite lookup_insert_ne; [done|]. intros Heq. rewrite Heq, Hk1 in Hsome.
      by destruct Hsome.
    - destruct Hsent as [-> | (msg' & -> & Hreq & Hsome)]; [by exists extra|].
      exists (extra ++ [msg']). rewrite Hs, app_assoc. split; [done|].
      intros v msg Hmsg [Hin | ->%list_elem_of_singleton]%elem_of_app.
      + by eapply Hno.
      + pose proof (set_request_triple_inj _ _ _ _ _ _ _ _ _ Hmsg Hreq) as Heq.
        rewrite <- Heq, Hk1 in Hsome. by destruct Hsome. }
  split; [intros v; by apply restore_cell_unknown|].
  rewrite restore_doc_cells.
  pose proof (for_each_invariant I (doc_cells doc) body Hstep w HI) as (Hk' & Hextra).
  split; [exact Hk'|]. split; [exact Hextra|].
  apply (for_each_filter I (fun cell => cell.1 <> (l, r, c))); [exact Hstep | | exact HI].
  intros [[[l' r'] c'] v'] w1 (Hk1 & _) Hcell. simpl in Hcell.
  apply dec_stable in Hcell. injection Hcell as -> -> ->.
  by apply restore_cell_unknown.
Qed.

Lemma restore_skips_unknown_witness :
  (json_loads (json_dumps doc_foreign) = Some doc_foreign /\
   layout (self w_loaded) !! (0, 0, 1) = None /\
   doc_cells doc_foreign = [(0, 0, 0, 10); (0, 0, 1, 99); (0, 1, 0, 21)] /\
   (restore_layout (json_dumps doc_foreign) w_loaded).1 = Ok tt) /\
  (forall v, restore_cell 0 0 1 v w_loaded = (Ok tt, w_loaded)) /\
  layout (self (restore_layout (json_dumps doc_foreign) w_loaded).2) !! (0, 0, 1) = None /\
  (exists extra,
     sent (restore_layout (json_dumps doc_foreign) w_loaded).2 = sent w_loaded ++ extra /\
     forall v msg, set_request 0 0 1 v = Ok msg -> msg ∉ extra) /\
  restore_layout (json_dumps doc_foreign) w_loaded =
    for_each (filter (fun cell => cell.1 <> (0, 0, 1)) (doc_cells doc_foreign))
             (fun '(l, r, c, col) => restore_cell l r c col) w_loaded.
Proof.
  assert (Hd : json_loads (json_dumps doc_foreign) = Some doc_foreign)
    by (vm_compute; reflexivity).
  assert (Hk : layout (self w_loaded) !! (0, 0, 1) = None) by (vm_compute; reflexivity).
  split.
  { split; [exact Hd|]. split; [exact Hk|]. split; vm_compute; reflexivity. }
  exact (restore_skips_unknown w_loaded (json_dumps doc_foreign) doc_foreign 0 0 1 Hd Hk).
Defined.

(** C9: when the Keymap has an entry at [(l, r, c)] and the save document
    holds the sentinel [-1] there, [restore] does not skip the cell: its
    statement is the call [setKey(l, r, c, -1)], whose cached value (a
    keycode, never [-1]) differs, so that the write request is encoded,
    the encoding of the keycode field rejects [-1] ([struct.error]), and
    the whole [restore] raises instead of completing. *)
Theorem restore_sentinel_fails `{Env} (w : World) (data : bytes) (doc : SavedLayout)
    (l r c k : Z) :
  json_loads data = Some doc ->
  layout (self w) !! (l, r, c) = Some k ->
  k <> -1 ->
  (l, r, c, -1) ∈ doc_cells doc ->
  restore_cell l r c (-1) w = set_key l r c (-1) w /\
  set_key l r c (-1) w = (Raise StructError, w) /\
  exists e, (restore_layout data w).1 = Raise e.
Proof.
  intros Hd Hk Hne Hin. rewrite (restore_layout_decoded data doc w Hd).
  assert (Hfail : forall w1 k1, layout (self w1) !! (l, r, c) = Some k1 -> k1 <> -1 ->
            restore_cell l r c (-1) w1 = set_key l r c (-1) w1 /\
            set_key l r c (-1) w1 = (Raise StructError, w1)).
  { intros w1 k1 Hk1 Hne1. split.
    - apply restore_cell_known. rewrite Hk1. eauto.
    - apply (set_key_unpackable _ _ _ _ _ k1); [done | done |].
      apply set_request_bad_code. lia. }
  destruct (Hfail w k Hk Hne) as [H1 H2]. split; [exact H1|]. split; [exact H2|].
  rewrite restore_doc_cells.
  apply (for_each_raises
           (fun w1 => exists k1, layout (self w1) !! (l, r, c) = Some k1 /\ k1 <> -1)
           _ _ (l, r, c, -1)); [| |exact Hin|by exists k].
  - intros [[[l' r'] c'] v'] w1 (k1 & Hk1 & Hne1) _.
    destruct (restore_cell_effect w1 l' r' c' v') as [_ [-> | (-> & _ & Hv)]].
    + by exists k1.
    + destruct (decide ((l', r', c') = (l, r, c))) as [->|Hdiff].
      * exists v'. rewrite lookup_insert_eq. split; [done | lia].
      * exists k1. by rewrite lookup_insert_ne.
  - intros w1 (k1 & Hk1 & Hne1). exists StructError.
    destruct (Hfail w1 k1 Hk1 Hne1) as [-> ->]. done.
Qed.

Lemma restore_sentinel_fails_witness :
  (json_loads (json_dumps doc_sentinel) = Some doc_sentinel /\
   layout (self w_loaded) !! (0, 1, 0) = Some 20 /\ 20 <> -1 /\
   (0, 1, 0, -1) ∈ doc_cells doc_sentinel) /\
  (restore_layout (json_dumps doc_sentinel) w_loaded).1 = Raise StructError /\
  layout (self (restore_layout (json_dumps doc_sentinel) w_loaded).2) !! (0, 0, 0) = Some 11 /\
  restore_cell 0 1 0 (-1) w_loaded = set_key 0 1 0 (-1) w_loaded /\
  set_key 0 1 0 (-1) w_loaded = (Raise StructError, w_loaded) /\
  exists e, (restore_layout (json_dumps doc_sentinel) w_loaded).1 = Raise e.
Proof.
  assert (Hd : json_loads (json_dumps doc_sentinel) = Some doc_sentinel)
    by (vm_compute; reflexivity).
  assert (Hk : layout (self w_loaded) !! (0, 1, 0) = Some 20) by (vm_compute; reflexivity).
  assert (Hin : (0, 1, 0, -1) ∈ doc_cells doc_sentinel).
  { vm_compute. right. left. }
  split; [split; [exact Hd | split; [exact Hk | split; [lia | exact Hin]]]|].
  split; [vm_compute; reflexivity|]. split; [vm_compute; reflexivity|].
  apply (restore_sentinel_fails w_loaded (json_dumps doc_sentinel) doc_sentinel
           0 1 0 20 Hd Hk); [lia | exact Hin].
Defined.

(** ** Arithmetic of the chunk count *)

Lemma ceil_div_step s m :
  0 < m -> 0 < s -> ceil_div s m = 1 + ceil_div (s - m) m /\ 0 <= ceil_div (s - m) m.
Proof.
  intros Hm Hs. unfold ceil_div. split.
  - replace (s + m - 1) with (s - m + m - 1 + 1 * m) by lia.
    rewrite Z.div_add by lia. lia.
  - apply Z.div_pos; lia.
Qed.

Lemma ceil_div_nonpos s m : 0 < m -> s <= 0 -> ceil_div s m <= 0.
Proof.
  intros Hm Hs. unfold ceil_div.
  assert ((s + m - 1) / m < 1); [|lia].
  apply Z.div_lt_upper_bound; lia.
Qed.

Lemma ceil_div_le s m : 0 < m -> 0 <= s -> ceil_div s m <= s.
Proof.
  intros Hm Hs. unfold ceil_div.
  assert ((s + m - 1) / m < s + 1); [|lia].
  apply Z.div_lt_upper_bound; nia.
Qed.

(** ** Frame properties of the operations *)

Section Frame.
Context `{Env}.

Lemma stable_bind {A B} P (m : M A) (k : A -> M B) :
  stable P m -> (forall a, stable P (k a)) -> stable P (bind m k).
Proof.
  intros Hm Hk w Hw. unfold bind. specialize (Hm w Hw).
  destruct (m w) as [[a|e] w1]; simpl in *; [by apply Hk | done].
Qed.

Lemma stable_pure {A} P (m : M A) :
  (forall w, (m w).2 = w) -> stable P m.
Proof. intros Hm w Hw. by rewrite Hm. Qed.

Lemma stable_modify_self (Pk : Keyboard -> Prop) f :
  (forall k, Pk k -> Pk (f k)) -> stable (fun w => Pk (self w)) (modify_self f).
Proof. intros Hf w Hw. simpl. by apply Hf. Qed.

Lemma stable_send (Pk : Keyboard -> Prop) msg :
  stable (fun w => Pk (self w)) (send msg).
Proof.
  intros w Hw. unfold send.
  destruct (usb_send (device w) msg) as [d [data|]]; exact Hw.
Qed.

Lemma stable_for_each {A} P (xs : list A) (body : A -> M unit) :
  (forall x, stable P (body x)) -> stable P (for_each xs body).
Proof.
  intros Hbody. induction xs as [|x xs IH]; [by intros w Hw|].
  simpl. apply stable_bind; [apply Hbody | intros _; apply IH].
Qed.

Lemma never_raises_bind {A B} e (m : M A) (k : A -> M B) :
  never_raises e m -> (forall a, never_raises e (k a)) -> never_raises e (bind m k).
Proof.
  intros Hm Hk w. unfold bind. specialize (Hm w).
  destruct (m w) as [[a|e'] w1]; simpl in *; [apply Hk|].
  intros [= ->]. by apply Hm.
Qed.

Lemma never_raises_lift {A} e (r : result A) :
  r <> Raise e -> never_raises e (lift r).
Proof. intros Hr w. exact Hr. Qed.

Lemma never_raises_lift_opt {A} e e' (o : option A) :
  e' <> e -> never_raises e (lift_opt e' o).
Proof. intros Hne w. destruct o; simpl; congruence. Qed.

Lemma never_raises_ok {A} e (m : M A) :
  (forall w, exists a, (m w).1 = Ok a) -> never_raises e m.
Proof. intros Hm w. destruct (Hm w) as [a ->]. done. Qed.

Lemma never_raises_send e msg :
  e <> TransportError -> never_raises e (send msg).
Proof.
  intros Hne w. unfold send.
  destruct (usb_send (device w) msg) as [d [data|]]; simpl; congruence.
Qed.

Lemma never_raises_for_each {A} e (xs : list A) (body : A -> M unit) :
  (forall x, never_raises e (body x)) -> never_raises e (for_each xs body).
Proof.
  intros Hbody. induction xs as [|x xs IH]; [by intros w|].
  simpl. apply never_raises_bind; [apply Hbody | intros _; apply IH].
Qed.

End Frame.

(** [struct] raises nothing but [struct.error]. *)
Lemma pack_all_raise fields e :
  Forall (fun f => forall e', f = Raise e' -> e' = StructError) fields ->
  pack_all fields = Raise e -> e = StructError.
Proof.
  induction 1 as [|f fields Hf _ IH]; simpl; [done|].
  destruct f as [b|e1]; simpl.
  - destruct (pack_all fields) as [bs|e2]; simpl; [done|].
    intros [= <-]. by apply IH.
  - intros [= <-]. by apply Hf.
Qed.

Lemma pack_B_raise x e : pack_B x = Raise e -> e = StructError.
Proof. unfold pack_B. case_decide; congruence. Qed.

Lemma pack_H_be_raise x e : pack_H_be x = Raise e -> e = StructError.
Proof. unfold pack_H_be. case_decide; congruence. Qed.

Lemma pack_I_le_raise x e : pack_I_le x = Raise e -> e = StructError.
Proof. unfold pack_I_le. case_decide; congruence. Qed.

Lemma unpack_I_le_raise b e : unpack_I_le b = Raise e -> e = StructError.
Proof. unfold unpack_I_le. case_decide; congruence. Qed.

Lemma unpack_IQ_le_raise b e : unpack_IQ_le b = Raise e -> e = StructError.
Proof. unfold unpack_IQ_le. case_decide; congruence. Qed.

Lemma unpack_H_be_raise b e : unpack_H_be b = Raise e -> e = StructError.
Proof. unfold unpack_H_be. case_decide; congruence. Qed.

Lemma label_coordinate_raise l0 e : label_coordinate l0 = Raise e -> e = ValueError.
Proof.
  unfold label_coordinate. repeat case_match; congruence.
Qed.

Create HintDb raises.
#[export] Hint Resolve pack_B_raise pack_H_be_raise pack_I_le_raise : raises.

Lemma pack_fields_raise fields e :
  Forall (fun f => (exists x, f = pack_B x) \/ (exists x, f = pack_H_be x) \/
                   (exists x, f = pack_I_le x)) fields ->
  pack_all fields = Raise e -> e = StructError.
Proof.
  intros Hf. apply pack_all_raise. eapply Forall_impl; [exact Hf|].
  intros f [[x ->] | [[x ->] | [x ->]]] e'; eauto with raises.
Qed.

Section Stability.
Context `{Env} (Pk : Keyboard -> Prop).

Local Abbreviation P := (fun w : World => Pk (self w)).

Lemma stable_lift {A} (r : result A) : stable P (lift r).
Proof. by apply stable_pure. Qed.

Lemma stable_lift_opt {A} e (o : option A) : stable P (lift_opt e o).
Proof. apply stable_pure. by destruct o. Qed.

Lemma stable_get_self : stable P get_self.
Proof. by apply stable_pure. Qed.

Lemma stable_ret {A} (a : A) : stable P (ret a).
Proof. by apply stable_pure. Qed.

Lemma fetch_chunks_stable fuel sz block payload :
  stable P (fetch_chunks fuel sz block payload).
Proof.
  revert sz block payload. induction fuel as [|fuel IH]; intros sz block payload; simpl.
  - case_decide; by apply stable_pure.
  - case_decide; [|by apply stable_pure].
    apply stable_bind; [apply stable_lift|]. intros msg.
    apply stable_bind; [apply stable_send|]. intros data. apply IH.
Qed.

Lemma fetch_payload_stable :
  (forall p i k, Pk k -> Pk (set_identity p i k)) ->
  stable P fetch_payload.
Proof.
  intros Hid. unfold fetch_payload.
  apply stable_bind; [apply stable_lift|]. intros msg.
  apply stable_bind; [apply stable_send|]. intros data.
  apply stable_bind; [apply stable_lift|]. intros [p i].
  apply stable_bind; [apply stable_modify_self, Hid|]. intros _.
  apply stable_bind; [apply stable_lift|]. intros msg2.
  apply stable_bind; [apply stable_send|]. intros data2.
  apply stable_bind; [apply stable_lift|]. intros sz.
  apply stable_bind; [apply fetch_chunks_stable|]. intros payload.
  apply stable_lift_opt.
Qed.

Lemma reload_key_stable i key :
  (forall v k, Pk k -> Pk (set_keys v k)) ->
  (forall v k, Pk k -> Pk (set_rowcol v k)) ->
  stable P (reload_key i key).
Proof.
  intros Hkeys Hrc. unfold reload_key.
  apply stable_bind; [apply stable_modify_self; intros k; apply Hkeys|]. intros _.
  apply stable_bind; [apply stable_lift_opt|]. intros l0.
  apply stable_bind; [apply stable_lift|]. intros [[row col]|]; [|apply stable_ret].
  apply stable_bind; [apply stable_modify_self; intros k; apply Hkeys|]. intros _.
  apply stable_modify_self. intros k. apply Hrc.
Qed.

Lemma apply_payload_stable payload :
  (forall v k, Pk k -> Pk (set_rows v k)) ->
  (forall v k, Pk k -> Pk (set_cols v k)) ->
  (forall v k, Pk k -> Pk (set_keys v k)) ->
  (forall v k, Pk k -> Pk (set_rowcol v k)) ->
  stable P (apply_payload payload).
Proof.
  intros Hrows Hcols Hkeys Hrc. unfold apply_payload, reload_keys.
  apply stable_bind; [apply stable_lift_opt|]. intros r.
  apply stable_bind; [apply stable_modify_self, Hrows|]. intros _.
  apply stable_bind; [apply stable_lift_opt|]. intros c.
  apply stable_bind; [apply stable_modify_self, Hcols|]. intros _.
  apply stable_bind; [apply stable_lift_opt|]. intros doc.
  apply stable_bind; [apply stable_lift_opt|]. intros ks.
  apply stable_bind; [apply stable_modify_self, Hkeys|]. intros _.
  apply stable_for_each. intros [i key]. by apply reload_key_stable.
Qed.

Lemma reload_layers_stable :
  (forall v k, Pk k -> Pk (set_layers v k)) ->
  stable P reload_layers.
Proof.
  intros Hl. unfold reload_layers.
  apply stable_bind; [apply stable_lift|]. intros msg.
  apply stable_bind; [apply stable_send|]. intros data.
  apply stable_bind; [apply stable_lift_opt|]. intros n.
  apply stable_modify_self, Hl.
Qed.

Lemma reload_keymap_stable :
  (forall v k, Pk k -> Pk (set_layout v k)) ->
  stable P reload_keymap.
Proof.
  intros Hl. unfold reload_keymap.
  apply stable_bind; [apply stable_get_self|]. intros k.
  apply stable_for_each. intros layer.
  apply stable_bind; [apply stable_get_self|]. intros k'.
  apply stable_for_each. intros [row col].
  apply stable_bind; [apply stable_lift|]. intros msg.
  apply stable_bind; [apply stable_send|]. intros data.
  apply stable_bind; [apply stable_lift|]. intros keycode.
  apply stable_modify_self. intros k''. apply Hl.
Qed.

End Stability.

Section Raises.
Context `{Env}.

(** The exceptions that each operation can raise. *)

Lemma reload_key_raises e i key :
  e <> IndexError -> e <> ValueError -> never_raises e (reload_key i key).
Proof.
  intros H1 H2. unfold reload_key.
  apply never_raises_bind; [apply never_raises_ok; by eexists|]. intros _.
  apply never_raises_bind; [by apply never_raises_lift_opt|]. intros l0.
  apply never_raises_bind.
  { apply never_raises_lift. intros Hr. apply label_coordinate_raise in Hr. congruence. }
  intros [[row col]|]; [|apply never_raises_ok; by eexists].
  apply never_raises_bind; [|intros _]; apply never_raises_ok; by eexists.
Qed.

Lemma apply_payload_raises e payload :
  e <> KeyError -> e <> DeserializeError -> e <> IndexError -> e <> ValueError ->
  never_raises e (apply_payload payload).
Proof.
  intros H1 H2 H3 H4. unfold apply_payload, reload_keys.
  apply never_raises_bind; [by apply never_raises_lift_opt|]. intros r.
  apply never_raises_bind; [apply never_raises_ok; by eexists|]. intros _.
  apply never_raises_bind; [by apply never_raises_lift_opt|]. intros c.
  apply never_raises_bind; [apply never_raises_ok; by eexists|]. intros _.
  apply never_raises_bind; [by apply never_raises_lift_opt|]. intros doc.
  apply never_raises_bind; [by apply never_raises_lift_opt|]. intros ks.
  apply never_raises_bind; [apply never_raises_ok; by eexists|]. intros _.
  apply never_raises_for_each. intros [i key]. by apply reload_key_raises.
Qed.

Ltac pack_fields :=
  repeat (apply Forall_cons_2;
          [first [by left; eexists | by right; left; eexists | by right; right; eexists]|]);
  apply Forall_nil_2.

Lemma never_raises_pack e fields :
  e <> StructError ->
  Forall (fun f => (exists x, f = pack_B x) \/ (exists x, f = pack_H_be x) \/
                   (exists x, f = pack_I_le x)) fields ->
  never_raises e (lift (pack_all fields)).
Proof.
  intros He Hf. apply never_raises_lift. intros Hr.
  apply pack_fields_raise in Hr; [congruence | exact Hf].
Qed.

Lemma reload_layers_raises e :
  e <> StructError -> e <> TransportError -> e <> IndexError ->
  never_raises e reload_layers.
Proof.
  intros H1 H2 H3. unfold reload_layers.
  apply never_raises_bind; [apply never_raises_pack; [done | pack_fields]|].
  intros msg. apply never_raises_bind; [by apply never_raises_send|]. intros data.
  apply never_raises_bind; [by apply never_raises_lift_opt|]. intros n.
  apply never_raises_ok; by eexists.
Qed.

Lemma reload_keymap_raises e :
  e <> StructError -> e <> TransportError -> never_raises e reload_keymap.
Proof.
  intros H1 H2. unfold reload_keymap.
  apply never_raises_bind; [apply never_raises_ok; by eexists|]. intros k.
  apply never_raises_for_each. intros layer.
  apply never_raises_bind; [apply never_raises_ok; by eexists|]. intros k'.
  apply never_raises_for_each. intros [row col].
  apply never_raises_bind; [apply never_raises_pack; [done | pack_fields]|].
  intros msg. apply never_raises_bind; [by apply never_raises_send|]. intros data.
  apply never_raises_bind.
  { apply never_raises_lift. intros Hr. apply unpack_H_be_raise in Hr. congruence. }
  intros keycode. apply never_raises_ok; by eexists.
Qed.

(** The chunk loop does not run out of fuel when [MSG_LEN] is positive and
    the fuel is at least the number of chunks, whatever the transport
    answers. *)
Lemma fetch_chunks_terminates fuel :
  0 < MSG_LEN ->
  forall sz block payload,
    (Z.to_nat (ceil_div sz MSG_LEN) <= fuel)%nat ->
    never_raises NonTermination (fetch_chunks fuel sz block payload).
Proof.
  intros HM. induction fuel as [|fuel IH]; intros sz block payload Hfuel; simpl.
  - case_decide as Hsz; [|apply never_raises_ok; by eexists].
    destruct (ceil_div_step sz MSG_LEN HM ltac:(lia)). lia.
  - case_decide as Hsz; [|apply never_raises_ok; by eexists].
    destruct (ceil_div_step sz MSG_LEN HM ltac:(lia)).
    apply never_raises_bind.
    { unfold chunk_request. apply never_raises_pack; [done | pack_fields]. }
    intros msg. apply never_raises_bind; [by apply never_raises_send|]. intros data.
    apply IH. lia.
Qed.

(** With a positive [MSG_LEN] the fuel of the model is enough: a
    discovery returns or raises a Python exception. *)
Lemma reload_terminates sideload_json :
  0 < MSG_LEN -> never_raises NonTermination (reload sideload_json).
Proof.
  intros HM. unfold reload.
  apply never_raises_bind; [apply never_raises_ok; by eexists|]. intros _.
  apply never_raises_bind; [apply never_raises_ok; by eexists|]. intros _.
  apply never_raises_bind; [|intros _; apply never_raises_bind;
    [by apply reload_layers_raises | intros _; by apply reload_keymap_raises]].
  unfold reload_layout. apply never_raises_bind; [|intros payload; by apply apply_payload_raises].
  destruct sideload_json as [doc|]; [apply never_raises_ok; by eexists|].
  unfold fetch_payload.
  apply never_raises_bind; [apply never_raises_pack; [done | pack_fields]|].
  intros msg. apply never_raises_bind; [by apply never_raises_send|]. intros data.
  apply never_raises_bind.
  { apply never_raises_lift. intros Hr. by apply unpack_IQ_le_raise in Hr. }
  intros [p i]. apply never_raises_bind; [apply never_raises_ok; by eexists|]. intros _.
  apply never_raises_bind; [apply never_raises_pack; [done | pack_fields]|].
  intros msg2. apply never_raises_bind; [by apply never_raises_send|]. intros data2.
  apply never_raises_bind.
  { apply never_raises_lift. intros Hr. by apply unpack_I_le_raise in Hr. }
  intros sz. apply never_raises_bind; [|intros payload; by apply never_raises_lift_opt].
  apply fetch_chunks_terminates; [done|].
  destruct (decide (0 <= sz)) as [Hsz|Hsz].
  - pose proof (ceil_div_le sz MSG_LEN HM Hsz).
    assert (0 <= ceil_div sz MSG_LEN) by (unfold ceil_div; apply Z.div_pos; lia). lia.
  - pose proof (ceil_div_nonpos sz MSG_LEN HM ltac:(lia)). lia.
Qed.

(** A [PayloadError] out of [reload_layout] on the live path comes from
    the decoding of the payload: the part shared with the sideload path
    was not entered. *)
Lemma reload_layout_payload_error w w' :
  reload_layout None w = (Raise PayloadError, w') ->
  fetch_payload w = (Raise PayloadError, w').
Proof.
  unfold reload_layout, bind. intros Hr.
  destruct (fetch_payload w) as [[payload|e] w1] eqn:Hf; [|congruence].
  pose proof (apply_payload_raises PayloadError payload
                ltac:(done) ltac:(done) ltac:(done) ltac:(done) w1) as Hno.
  rewrite Hr in Hno. done.
Qed.

Lemma reload_payload_error w w' :
  reload None w = (Raise PayloadError, w') ->
  reload_layout None
    (mkWorld _ (set_layout ∅ (set_rowcol [] (self w))) (device w) (sent w)) =
  (Raise PayloadError, w').
Proof.
  unfold reload. unfold bind at 1 2 3. simpl. intros Hr.
  destruct (reload_layout None _) as [[[]|e] w1] eqn:Hl; [|done].
  exfalso. revert Hr. unfold bind.
  pose proof (reload_layers_raises PayloadError
                ltac:(done) ltac:(done) ltac:(done) w1) as Hno1.
  destruct (reload_layers w1) as [[[]|e] w2]; [|simpl in Hno1; congruence].
  pose proof (reload_keymap_raises PayloadError ltac:(done) ltac:(done) w2) as Hno2.
  intros Hr. rewrite Hr in Hno2. done.
Qed.

End Raises.

(** ** Claims on discovery *)

(** The fields that a failed live discovery is not to touch. *)
Lemma fetch_payload_frame `{Env} (w : World) :
  let w' := (fetch_payload w).2 in
  rowcol (self w') = rowcol (self w) /\ layout (self w') = layout (self w) /\
  rows (self w') = rows (self w) /\ cols (self w') = cols (self w) /\
  layers (self w') = layers (self w) /\ keys (self w') = keys (self w).
Proof.
  apply (fetch_payload_stable
           (fun k => rowcol k = rowcol (self w) /\ layout k = layout (self w) /\
                     rows k = rows (self w) /\ cols k = cols (self w) /\
                     layers k = layers (self w) /\ keys k = keys (self w))).
  - intros p i k Hk. exact Hk.
  - repeat split.
Qed.

(** C1, as the code has it: when a live discovery through [reload] fails
    at the decompression or parsing of the accumulated payload,
    LayoutGeometry (and the key records and the layer count) are as before
    the call, while CoordinateSet and Keymap are empty: [reload] clears
    them before the discovery starts.  The discovery step [reload_layout]
    by itself, when it fails there, has written none of them. *)
Theorem failed_discovery_state `{Env} (w w' : World) :
  reload None w = (Raise PayloadError, w') ->
  (rows (self w') = rows (self w) /\
   cols (self w') = cols (self w) /\
   keys (self w') = keys (self w) /\
   layers (self w') = layers (self w) /\
   rowcol (self w') = [] /\
   layout (self w') = ∅) /\
  forall w0 w1,
    reload_layout None w0 = (Raise PayloadError, w1) ->
    rowcol (self w1) = rowcol (self w0) /\
    layout (self w1) = layout (self w0) /\
    rows (self w1) = rows (self w0) /\
    cols (self w1) = cols (self w0).
Proof.
  intros Hr. split.
  - apply reload_payload_error, reload_layout_payload_error in Hr.
    pose proof (fetch_payload_frame
                  (mkWorld _ (set_layout ∅ (set_rowcol [] (self w))) (device w) (sent w)))
      as Hframe.
    rewrite Hr in Hframe. simpl in Hframe.
    destruct Hframe as (-> & -> & -> & -> & -> & ->). done.
  - intros w0 w1 Hl. apply reload_layout_payload_error in Hl.
    pose proof (fetch_payload_frame w0) as Hframe.
    rewrite Hl in Hframe. simpl in Hframe.
    destruct Hframe as (-> & -> & -> & -> & _). done.
Qed.

Lemma failed_discovery_state_witness :
  (reload None w_corrupt).1 = Raise PayloadError /\
  let w' := (reload None w_corrupt).2 in
  rows (self w') = rows (self w_corrupt) /\
  cols (self w') = cols (self w_corrupt) /\
  keys (self w') = keys (self w_corrupt) /\
  layers (self w') = layers (self w_corrupt) /\
  rowcol (self w') = [] /\
  layout (self w') = ∅.
Proof.
  assert (Hr : (reload None w_corrupt).1 = Raise PayloadError) by (vm_compute; reflexivity).
  split; [exact Hr|].
  apply (failed_discovery_state w_corrupt (reload None w_corrupt).2).
  rewrite <- Hr. apply surjective_pairing.
Defined.

(** C1 fails as stated: a loaded session whose keyboard now serves an
    undecodable definition loses its CoordinateSet and its Keymap in the
    failed [reload]. *)
Lemma failed_discovery_clears_state :
  (reload None w_corrupt).1 = Raise PayloadError /\
  rowcol (self w_corrupt) = [(0, 0); (1, 0)] /\
  rowcol (self (reload None w_corrupt).2) = [] /\
  layout (self w_corrupt) !! (0, 0, 0) = Some 10 /\
  layout (self (reload None w_corrupt).2) !! (0, 0, 0) = None /\
  ~ (rowcol (self (reload None w_corrupt).2) = rowcol (self w_corrupt) /\
     layout (self (reload None w_corrupt).2) = layout (self w_corrupt) /\
     rows (self (reload None w_corrupt).2) = rows (self w_corrupt) /\
     cols (self (reload None w_corrupt).2) = cols (self w_corrupt)).
Proof.
  repeat split; try (vm_compute; reflexivity).
  intros (Hrc & _). vm_compute in Hrc. discriminate Hrc.
Qed.

(** C4, as the code has it: a discovery through the sideload path never
    writes DeviceIdentity, whether it completes or raises, so that the
    identity after the call is the identity before it; on a session as
    [__init__] leaves it that is the unset sentinel, [-1] and [-1]. *)
Theorem sideload_keeps_identity `{Env} (w : World) (doc : Payload KleDoc) :
  (vial_protocol (self (reload (Some doc) w).2) = vial_protocol (self w) /\
   keyboard_id (self (reload (Some doc) w).2) = keyboard_id (self w)) /\
  (vial_protocol (self (reload_layout (Some doc) w).2) = vial_protocol (self w) /\
   keyboard_id (self (reload_layout (Some doc) w).2) = keyboard_id (self w)) /\
  forall d s,
    vial_protocol (self (reload (Some doc) (mkWorld _ init d s)).2) = -1 /\
    keyboard_id (self (reload (Some doc) (mkWorld _ init d s)).2) = -1.
Proof.
  assert (Hlayout : forall p i,
            stable (fun w => vial_protocol (self w) = p /\ keyboard_id (self w) = i)
                   (reload_layout (Some doc))).
  { intros p i. unfold reload_layout.
    apply (stable_bind (fun w => vial_protocol (self w) = p /\ keyboard_id (self w) = i)).
    - apply (stable_ret (fun k => vial_protocol k = p /\ keyboard_id k = i)).
    - intros payload.
      apply (apply_payload_stable (fun k => vial_protocol k = p /\ keyboard_id k = i));
        intros v k Hk; exact Hk. }
  assert (Hreload : forall p i,
            stable (fun w => vial_protocol (self w) = p /\ keyboard_id (self w) = i)
                   (reload (Some doc))).
  { intros p i. unfold reload.
    apply stable_bind.
    { apply (stable_modify_self (fun k => vial_protocol k = p /\ keyboard_id k = i)).
      intros k Hk; exact Hk. }
    intros _. apply stable_bind.
    { apply (stable_modify_self (fun k => vial_protocol k = p /\ keyboard_id k = i)).
      intros k Hk; exact Hk. }
    intros _. apply stable_bind; [apply Hlayout|].
    intros _. apply stable_bind.
    { apply (reload_layers_stable (fun k => vial_protocol k = p /\ keyboard_id k = i)).
      intros v k Hk; exact Hk. }
    intros _.
    apply (reload_keymap_stable (fun k => vial_protocol k = p /\ keyboard_id k = i)).
    intros v k Hk; exact Hk. }
  split; [by apply Hreload|]. split; [by apply Hlayout|].
  intros d s. by apply Hreload.
Qed.

(** C4 fails as stated: a session that has been discovered from the live
    keyboard and is then discovered again from a sideloaded document keeps
    the identity of the keyboard. *)
Lemma sideload_after_live_identity :
  (reload (Some sideload_doc) w_loaded).1 = Ok tt /\
  rowcol (self (reload (Some sideload_doc) w_loaded).2) = [(0, 0)] /\
  vial_protocol (self (reload (Some sideload_doc) w_loaded).2) = 6 /\
  keyboard_id (self (reload (Some sideload_doc) w_loaded).2) = 0x1122334455667788 /\
  ~ (vial_protocol (self (reload (Some sideload_doc) w_loaded).2) = -1 /\
     keyboard_id (self (reload (Some sideload_doc) w_loaded).2) = -1).
Proof.
  repeat split; try (vm_compute; reflexivity).
  intros (Hp & _). vm_compute in Hp. discriminate Hp.
Qed.


(** ** The chunk loop *)

Lemma chunk_request_ok block :
  0 <= block <= 4294967295 ->
  chunk_request block =
    Ok [byte_of_Z 0xFE; byte_of_Z 0x02; byte_of_Z block; byte_of_Z (block / 256);
        byte_of_Z (block / 65536); byte_of_Z (block / 16777216)].
Proof.
  intros Hb. unfold chunk_request, pack_B, pack_I_le,
    CMD_VIA_VIAL_PREFIX, CMD_VIAL_GET_DEFINITION.
  repeat case_decide; try lia. reflexivity.
Qed.

Lemma chunk_request_inv block msg :
  chunk_request block = Ok msg ->
  0 <= block <= 4294967295 /\
  msg = [byte_of_Z 0xFE; byte_of_Z 0x02; byte_of_Z block; byte_of_Z (block / 256);
         byte_of_Z (block / 65536); byte_of_Z (block / 16777216)].
Proof.
  unfold chunk_request, pack_B, pack_I_le, CMD_VIA_VIAL_PREFIX, CMD_VIAL_GET_DEFINITION.
  repeat case_decide; simpl; intros Heq; try discriminate.
  injection Heq as <-. done.
Qed.

(** The request for a block on the wire, byte by byte: the prefix [0xFE],
    the command [0x02], and the block index as four little-endian bytes. *)
Lemma chunk_request_bytes block msg :
  chunk_request block = Ok msg ->
  Z_of_byte <$> msg =
    [0xFE; 0x02; block mod 256; block / 256 mod 256;
     block / 65536 mod 256; block / 16777216 mod 256].
Proof.
  intros [_ ->]%chunk_request_inv.
  rewrite !fmap_cons, !Z_of_byte_of_Z_mod. reflexivity.
Qed.

Lemma chunk_requests_bytes (msgs : list bytes) (blocks : list Z) :
  Ok <$> msgs = chunk_request <$> blocks ->
  fmap Z_of_byte <$> msgs =
    (fun block => [0xFE; 0x02; block mod 256; block / 256 mod 256;
                   block / 65536 mod 256; block / 16777216 mod 256]) <$> blocks.
Proof.
  revert blocks. induction msgs as [|msg msgs IH]; intros [|block blocks]; try done.
  rewrite !fmap_cons. intros [= Hmsg Hrest].
  f_equal; [by apply chunk_request_bytes | by apply IH].
Qed.

Section Chunks.
Context `{Env}.

Lemma send_ok w msg data :
  (usb_send (device w) msg).2 = Some data ->
  send msg w = (Ok data, mkWorld _ (self w) (usb_send (device w) msg).1 (sent w ++ [msg])).
Proof.
  unfold send. destruct (usb_send (device w) msg) as [d [data'|]]; simpl; congruence.
Qed.

(** The loop from any of its states: it appends [max 0 sz] bytes and
    requests the blocks [block], [block + 1], ... *)
Lemma fetch_chunks_spec fuel :
  0 < MSG_LEN ->
  (forall d block msg,
     chunk_request block = Ok msg ->
     exists data, (usb_send d msg).2 = Some data /\ Z.of_nat (length data) = MSG_LEN) ->
  forall sz block payload w,
    0 <= block ->
    block + ceil_div sz MSG_LEN <= 4294967296 ->
    (Z.to_nat (ceil_div sz MSG_LEN) <= fuel)%nat ->
    exists extra msgs w',
      fetch_chunks fuel sz block payload w = (Ok (payload ++ extra), w') /\
      Z.of_nat (length extra) = Z.max 0 sz /\
      sent w' = sent w ++ msgs /\
      Ok <$> msgs = chunk_request <$> seqZ block (ceil_div sz MSG_LEN) /\
      self w' = self w.
Proof.
  intros HM Hdev. induction fuel as [|fuel IH]; intros sz block payload w Hb Hmax Hfuel.
  - destruct (decide (sz > 0)) as [Hsz|Hsz].
    { destruct (ceil_div_step sz MSG_LEN HM ltac:(lia)) as [Hc Hc']. lia. }
    exists [], [], w. simpl. case_decide; [lia|].
    rewrite !app_nil_r, seqZ_nil by (apply ceil_div_nonpos; lia).
    repeat split; [simpl; lia].
  - destruct (decide (sz > 0)) as [Hsz|Hsz].
    2:{ exists [], [], w. simpl. case_decide; [lia|].
        rewrite !app_nil_r, seqZ_nil by (apply ceil_div_nonpos; lia).
        repeat split; [simpl; lia]. }
    destruct (ceil_div_step sz MSG_LEN HM ltac:(lia)) as [Hc Hc'].
    assert (Hreq : chunk_request block = Ok
              [byte_of_Z 0xFE; byte_of_Z 0x02; byte_of_Z block; byte_of_Z (block / 256);
               byte_of_Z (block / 65536); byte_of_Z (block / 16777216)])
      by (apply chunk_request_ok; lia).
    set (msg := [byte_of_Z 0xFE; byte_of_Z 0x02; byte_of_Z block; byte_of_Z (block / 256);
                 byte_of_Z (block / 65536); byte_of_Z (block / 16777216)]) in *.
    destruct (Hdev (device w) block msg Hreq) as (data & Hdata & Hlen).
    set (data' := if decide (sz < MSG_LEN) then take (Z.to_nat sz) data else data).
    set (w1 := mkWorld _ (self w) (usb_send (device w) msg).1 (sent w ++ [msg])).
    destruct (IH (sz - MSG_LEN) (block + 1) (payload ++ data') w1)
      as (extra & msgs & w' & Hrun & Hextra & Hsent & Hmsgs & Hself); [lia | lia | lia |].
    exists (data' ++ extra), (msg :: msgs), w'.
    split; [|split; [|split; [|split]]].
    + simpl. case_decide; [|lia]. unfold bind at 1. unfold lift at 1. rewrite Hreq.
      unfold bind at 1. rewrite (send_ok w msg data Hdata).
      fold w1. fold data'. rewrite Hrun, app_assoc. reflexivity.
    + rewrite length_app, Nat2Z.inj_add, Hextra. unfold data'.
      case_decide; [rewrite length_take|]; lia.
    + rewrite Hsent. simpl. rewrite <- app_assoc. reflexivity.
    + rewrite (seqZ_cons block) by lia. rewrite !fmap_cons, Hmsgs, Hreq.
      replace (Z.succ block) with (block + 1) by lia.
      replace (Z.pred (ceil_div sz MSG_LEN)) with (ceil_div (sz - MSG_LEN) MSG_LEN) by lia.
      reflexivity.
    + rewrite Hself. reflexivity.
Qed.

End Chunks.

(** The simulated keyboard answers every chunk request with a full frame. *)
Lemma sim_chunk_response (d : Sim.firmware) block msg :
  chunk_request block = Ok msg ->
  exists data, (Sim.respond d msg).2 = Some data /\ Z.of_nat (length data) = 32.
Proof.
  intros [_ ->]%chunk_request_inv. unfold Sim.respond.
  rewrite !fmap_cons, !Z_of_byte_of_Z by lia. simpl.
  eexists. split; [reflexivity|].
  unfold Sim.frame. rewrite length_take, length_app, length_replicate. lia.
Qed.

(** C3: in the chunked payload fetch, for a declared total size [S] (a
    32-bit value, as the size response is decoded) and a message length
    [MSG_LEN > 0], on a transport that answers every chunk request with
    exactly [MSG_LEN] bytes, the loop returns; it issues [ceil(S / MSG_LEN)]
    requests and no other, for the block indices 0, 1, 2, ... in order
    (the [i]-th request is, byte by byte, [0xFE], [0x02] and [i] as four
    little-endian bytes), and the accumulated buffer has exactly [S]
    bytes.  The fuel [S] on which [reload_layout] runs the loop is
    enough. *)
Theorem chunked_fetch `{Env} (w : World) (S : Z) (fuel : nat) :
  0 < MSG_LEN ->
  0 <= S <= 4294967295 ->
  (forall d block msg,
     chunk_request block = Ok msg ->
     exists data, (usb_send d msg).2 = Some data /\ Z.of_nat (length data) = MSG_LEN) ->
  (Z.to_nat (ceil_div S MSG_LEN) <= fuel)%nat ->
  (Z.to_nat (ceil_div S MSG_LEN) <= Z.to_nat S)%nat /\
  exists payload msgs w',
    fetch_chunks fuel S 0 [] w = (Ok payload, w') /\
    Z.of_nat (length payload) = S /\
    sent w' = sent w ++ msgs /\
    Z.of_nat (length msgs) = ceil_div S MSG_LEN /\
    Ok <$> msgs = chunk_request <$> range (ceil_div S MSG_LEN) /\
    fmap Z_of_byte <$> msgs =
      (fun block => [0xFE; 0x02; block mod 256; block / 256 mod 256;
                     block / 65536 mod 256; block / 16777216 mod 256])
        <$> range (ceil_div S MSG_LEN) /\
    self w' = self w.
Proof.
  intros HM HS Hdev Hfuel.
  pose proof (ceil_div_le S MSG_LEN HM ltac:(lia)) as Hle.
  assert (Hge : 0 <= ceil_div S MSG_LEN) by (unfold ceil_div; apply Z.div_pos; lia).
  split; [lia|].
  destruct (fetch_chunks_spec fuel HM Hdev S 0 [] w)
    as (extra & msgs & w' & Hrun & Hextra & Hsent & Hmsgs & Hself); [lia | lia | lia |].
  exists extra, msgs, w'.
  split; [done|]. split; [lia|]. split; [done|]. split.
  { apply (f_equal length) in Hmsgs.
    rewrite !length_fmap, length_seqZ in Hmsgs. lia. }
  split; [done|]. split; [|done].
  by apply chunk_requests_bytes.
Qed.

Lemma chunked_fetch_witness :
  (0 < @MSG_LEN sim_env /\ 0 <= 33 <= 4294967295 /\ ceil_div 33 32 = 2 /\
   (Z.to_nat (ceil_div 33 32) <= 33)%nat /\
   (fun block => [0xFE; 0x02; block mod 256; block / 256 mod 256;
                  block / 65536 mod 256; block / 16777216 mod 256])
     <$> range (ceil_div 33 (@MSG_LEN sim_env)) =
   [[254; 2; 0; 0; 0; 0]; [254; 2; 1; 0; 0; 0]]) /\
  (Z.to_nat (ceil_div 33 (@MSG_LEN sim_env)) <= Z.to_nat 33)%nat /\
  exists payload msgs w',
    fetch_chunks 33 33 0 [] w_fresh = (Ok payload, w') /\
    Z.of_nat (length payload) = 33 /\
    sent w' = sent w_fresh ++ msgs /\
    Z.of_nat (length msgs) = ceil_div 33 (@MSG_LEN sim_env) /\
    Ok <$> msgs = chunk_request <$> range (ceil_div 33 (@MSG_LEN sim_env)) /\
    fmap Z_of_byte <$> msgs =
      (fun block => [0xFE; 0x02; block mod 256; block / 256 mod 256;
                     block / 65536 mod 256; block / 16777216 mod 256])
        <$> range (ceil_div 33 (@MSG_LEN sim_env)) /\
    self w' = self w_fresh.
Proof.
  assert (Hc : ceil_div 33 32 = 2) by (vm_compute; reflexivity).
  split; [rewrite Hc; repeat split; try lia; vm_compute; reflexivity|].
  apply (chunked_fetch w_fresh 33 33).
  - reflexivity.
  - lia.
  - exact sim_chunk_response.
  - change (@MSG_LEN sim_env) with 32. rewrite Hc. lia.
Defined.

(** ** Coordinates of the key records *)

Lemma elem_of_foldl_setitem (cs acc : list (Z * Z)) rc :
  rc ∈ foldl (fun acc rc => rowcol_setitem rc acc) acc cs <-> rc ∈ acc \/ rc ∈ cs.
Proof.
  revert acc. induction cs as [|x cs IH]; intros acc; simpl.
  - rewrite elem_of_nil. tauto.
  - rewrite IH, elem_of_cons. unfold rowcol_setitem. case_decide.
    + split; [tauto|]. intros [?|[->|?]]; tauto.
    + rewrite elem_of_app, list_elem_of_singleton. tauto.
Qed.

(** Distinct new coordinates are appended in the order of their arrival. *)
Lemma foldl_setitem_NoDup (cs acc : list (Z * Z)) :
  NoDup cs -> (forall rc, rc ∈ cs -> rc ∉ acc) ->
  foldl (fun acc rc => rowcol_setitem rc acc) acc cs = acc ++ cs.
Proof.
  revert acc. induction cs as [|x cs IH]; intros acc Hnd Hfresh; simpl.
  - by rewrite app_nil_r.
  - apply NoDup_cons in Hnd as [Hx Hnd].
    unfold rowcol_setitem at 2. case_decide as Hin.
    { exfalso. apply (Hfresh x); [left | done]. }
    rewrite IH, <- app_assoc; [done | done |].
    intros rc Hrc [Hacc | ->%list_elem_of_singleton]%elem_of_app; [|done].
    apply (Hfresh rc); [by right | done].
Qed.

Lemma key_coordinate_3_7 key :
  key_labels key !! 0%nat = Some (Some "3,7"%string) ->
  key_coordinate key = Some (3, 7) /\
  key_located key = mkKey (key_labels key) (Some 3) (Some 7).
Proof.
  intros Hl. unfold key_located, key_coordinate. rewrite Hl. split; reflexivity.
Qed.

Lemma key_coordinate_none key :
  key_labels key !! 0%nat = Some None \/
  key_labels key !! 0%nat = Some (Some EmptyString) \/
  (exists s, key_labels key !! 0%nat = Some (Some s) /\ has_comma s = false) ->
  key_coordinate key = None /\
  key_located key = mkKey (key_labels key) None None.
Proof.
  intros Hl.
  assert (Hc : key_coordinate key = None).
  { unfold key_coordinate, label_coordinate.
    destruct Hl as [-> | [-> | (s & -> & Hs)]]; [done | done |].
    simpl. rewrite Hs, andb_false_r. done. }
  split; [done|]. unfold key_located. rewrite Hc. done.
Qed.

Section ReloadKeys.
Context `{Env}.

(** One iteration of the loop over the key records, when it returns. *)
Lemma reload_key_ok i key w w' :
  reload_key i key w = (Ok tt, w') ->
  exists l0,
    key_labels key !! 0%nat = Some l0 /\
    label_coordinate l0 = Ok (key_coordinate key) /\
    device w' = device w /\ sent w' = sent w /\
    self w' =
      set_rowcol (foldl (fun acc rc => rowcol_setitem rc acc) (rowcol (self w))
                        (option_list (key_coordinate key)))
        (set_keys (alter (fun k => mkKey (key_labels k) (fst <$> key_coordinate key)
                                            (snd <$> key_coordinate key))
                         i (keys (self w)))
                  (self w)).
Proof.
  destruct w as [k d s].
  unfold reload_key, key_coordinate, bind, modify_self, lift_opt, lift. simpl.
  destruct (key_labels key !! 0%nat) as [l0|]; simpl; [|done].
  destruct (label_coordinate l0) as [[[row col]|]|e] eqn:Hc; simpl; [| |done].
  - intros [= <-]. exists l0. do 4 (split; [done|]). simpl.
    destruct k; unfold set_rowcol, set_keys, key_set_rowcol; simpl.
    rewrite list_alter_alter_eq. reflexivity.
  - intros [= <-]. exists l0. do 4 (split; [done|]). simpl.
    destruct k; unfold set_rowcol, set_keys, key_set_rowcol; simpl.
    reflexivity.
Qed.

(** The loop over the key records, when it returns: every record has been
    located, and the coordinates went into [rowcol] in the order of the
    records. *)
Lemma reload_keys_from (ks pre : list Key) w w' :
  keys (self w) = pre ++ ks ->
  for_each (imap (fun i key => ((length pre + i)%nat, key)) ks)
           (fun '(i, key) => reload_key i key) w = (Ok tt, w') ->
  device w' = device w /\ sent w' = sent w /\
  self w' =
    set_rowcol (foldl (fun acc rc => rowcol_setitem rc acc) (rowcol (self w))
                      (omap key_coordinate ks))
      (set_keys (pre ++ (key_located <$> ks)) (self w)).
Proof.
  revert pre w. induction ks as [|key ks IH]; intros pre w Hkeys; simpl.
  - intros [= <-]. do 2 (split; [done|]). simpl. rewrite <- Hkeys.
    destruct w as [k d s]; destruct k; reflexivity.
  - unfold bind at 1.
    destruct (reload_key (length pre + 0) key w) as [[[]|e] w1] eqn:Hk; [|done].
    apply reload_key_ok in Hk as (l0 & Hl0 & Hc & Hd & Hs & Hself).
    rewrite Hkeys, alter_app_r in Hself. simpl in Hself.
    intros Hrest.
    destruct (IH (pre ++ [key_located key]) w1) as (Hd' & Hs' & Hself').
    { rewrite Hself. simpl. rewrite <- app_assoc. reflexivity. }
    { rewrite <- Hrest. f_equal. apply imap_ext. intros j k _. simpl.
      rewrite length_app. simpl. f_equal. lia. }
    rewrite Hd', Hs', Hself', Hd, Hs, Hself. do 2 (split; [done|]).
    destruct w as [k d s]; destruct k; unfold set_rowcol, set_keys; simpl.
    rewrite <- app_assoc. simpl.
    destruct (key_coordinate key); reflexivity.
Qed.

Lemma reload_keys_ok (ks : list Key) w w' :
  keys (self w) = ks ->
  reload_keys ks w = (Ok tt, w') ->
  device w' = device w /\ sent w' = sent w /\
  self w' =
    set_rowcol (foldl (fun acc rc => rowcol_setitem rc acc) (rowcol (self w))
                      (omap key_coordinate ks))
      (set_keys (key_located <$> ks) (self w)).
Proof.
  intros Hkeys. unfold reload_keys. apply (reload_keys_from ks []). done.
Qed.

(** The shared part of [reload_layout], when it returns. *)
Lemma apply_payload_ok payload w w' :
  apply_payload payload w = (Ok tt, w') ->
  exists r c doc ks,
    matrix_rows payload = Some r /\ matrix_cols payload = Some c /\
    layouts_keymap payload = Some doc /\ deserialize doc = Some ks /\
    device w' = device w /\ sent w' = sent w /\
    self w' =
      set_rowcol (foldl (fun acc rc => rowcol_setitem rc acc) (rowcol (self w))
                        (omap key_coordinate ks))
        (set_keys (key_located <$> ks) (set_cols c (set_rows r (self w)))).
Proof.
  unfold apply_payload, bind, modify_self, lift_opt. simpl.
  destruct (matrix_rows payload) as [r|]; simpl; [|done].
  destruct (matrix_cols payload) as [c|]; simpl; [|done].
  destruct (layouts_keymap payload) as [doc|]; simpl; [|done].
  destruct (deserialize doc) as [ks|] eqn:Hks; simpl; [|done].
  intros Hrun. apply reload_keys_ok in Hrun as (Hd & Hs & Hself); [|done].
  exists r, c, doc, ks. rewrite Hd, Hs, Hself. simpl. do 6 (split; [done|]).
  destruct w as [k d s]; destruct k; reflexivity.
Qed.

End ReloadKeys.


(** C8: the post-processing of a discovery that returns (shown on the
    sideload path; the live path runs the same steps on the decoded
    payload).  Every key record is kept; a record whose primary label is
    the text ["3,7"] gets row 3 and column 7, and [(3, 7)] is in the
    CoordinateSet; a record whose primary label is absent, empty or without
    a comma gets no coordinate, and the CoordinateSet holds nothing but its
    former members and the coordinates of the records; the coordinates are
    inserted in the order of the deserializer's output, so that from an
    empty CoordinateSet and distinct coordinates the CoordinateSet is the
    list of the coordinates in that order. *)
Theorem coordinate_parsing `{Env} (w w' : World) (payload : Payload KleDoc)
    (doc : KleDoc) (ks : list Key) :
  layouts_keymap payload = Some doc ->
  deserialize doc = Some ks ->
  reload_layout (Some payload) w = (Ok tt, w') ->
  keys (self w') = key_located <$> ks /\
  (forall key,
     key ∈ ks -> key_labels key !! 0%nat = Some (Some "3,7"%string) ->
     key_located key = mkKey (key_labels key) (Some 3) (Some 7) /\
     (3, 7) ∈ rowcol (self w')) /\
  (forall key,
     key ∈ ks ->
     key_labels key !! 0%nat = Some None \/
     key_labels key !! 0%nat = Some (Some EmptyString) \/
     (exists s, key_labels key !! 0%nat = Some (Some s) /\ has_comma s = false) ->
     key_coordinate key = None /\
     key_located key = mkKey (key_labels key) None None) /\
  (forall rc,
     rc ∈ rowcol (self w') <->
     rc ∈ rowcol (self w) \/ exists key, key ∈ ks /\ key_coordinate key = Some rc) /\
  rowcol (self w') =
    foldl (fun acc rc => rowcol_setitem rc acc) (rowcol (self w))
          (omap key_coordinate ks) /\
  (rowcol (self w) = [] -> NoDup (omap key_coordinate ks) ->
   rowcol (self w') = omap key_coordinate ks).
Proof.
  intros Hdoc Hks Hrun.
  change (reload_layout (Some payload) w) with (apply_payload payload w) in Hrun.
  apply apply_payload_ok in Hrun
    as (r & c & doc' & ks' & _ & _ & Hdoc' & Hks' & _ & _ & Hself).
  assert (doc' = doc) as -> by congruence.
  assert (ks' = ks) as -> by congruence.
  assert (Hrc : rowcol (self w') =
                foldl (fun acc rc => rowcol_setitem rc acc) (rowcol (self w))
                      (omap key_coordinate ks)) by (rewrite Hself; reflexivity).
  assert (Hset : forall rc,
     rc ∈ rowcol (self w') <->
     rc ∈ rowcol (self w) \/ exists key, key ∈ ks /\ key_coordinate key = Some rc).
  { intros rc. rewrite Hrc, elem_of_foldl_setitem, list_elem_of_omap. done. }
  split; [rewrite Hself; reflexivity|].
  split.
  { intros key Hin Hl. destruct (key_coordinate_3_7 key Hl) as [Hc Hloc].
    split; [exact Hloc|]. apply Hset. right. eauto. }
  split; [intros key _ Hl; by apply key_coordinate_none|].
  split; [exact Hset|]. split; [exact Hrc|].
  intros Hempty Hnd. rewrite Hrc, Hempty.
  rewrite foldl_setitem_NoDup; [done | done |].
  intros rc _ Hin. by apply elem_of_nil in Hin.
Qed.

Lemma coordinate_parsing_witness :
  (layouts_keymap four_keys = Some ["3,7"; ""; "Esc"; "0,0"]%string /\
   (reload_layout (Some four_keys) w_fresh).1 = Ok tt /\
   rowcol (self w_fresh) = [] /\
   omap key_coordinate (Sim.key_of_label <$> ["3,7"; ""; "Esc"; "0,0"]%string) =
     [(3, 7); (0, 0)]) /\
  rowcol (self (reload_layout (Some four_keys) w_fresh).2) = [(3, 7); (0, 0)] /\
  keys (self (reload_layout (Some four_keys) w_fresh).2) =
    key_located <$> (Sim.key_of_label <$> ["3,7"; ""; "Esc"; "0,0"]%string).
Proof.
  assert (Hrun : (reload_layout (Some four_keys) w_fresh).1 = Ok tt)
    by (vm_compute; reflexivity).
  assert (Hcs : omap key_coordinate
                  (Sim.key_of_label <$> ["3,7"; ""; "Esc"; "0,0"]%string) =
                [(3, 7); (0, 0)]) by (vm_compute; reflexivity).
  split; [split; [reflexivity | split; [exact Hrun | split; [reflexivity | exact Hcs]]]|].
  destruct (@coordinate_parsing sim_env w_fresh
              (@reload_layout sim_env (Some four_keys) w_fresh).2
              four_keys ["3,7"; ""; "Esc"; "0,0"]%string
              (Sim.key_of_label <$> ["3,7"; ""; "Esc"; "0,0"]%string))
    as (Hkeys & _ & _ & _ & _ & Horder).
  - reflexivity.
  - reflexivity.
  - rewrite <- Hrun. apply surjective_pairing.
  - split; [|exact Hkeys]. rewrite <- Hcs. apply Horder; [reflexivity|].
    rewrite Hcs. apply (bool_decide_unpack _). vm_compute. exact I.
Defined.


(** ** The codec of the simulated keyboard reads back what it writes *)

Lemma append_cons c s t : String c s +:+ t = String c (s +:+ t).
Proof. reflexivity. Qed.

Lemma append_empty t : EmptyString +:+ t = t.
Proof. reflexivity. Qed.

Lemma num_char_not_ws c : Json.is_num_char c = true -> Json.is_ws c = false.
Proof.
  destruct c as [[] [] [] [] [] [] [] []]; vm_compute; congruence.
Qed.

Lemma uint_digits d : string_forall Json.is_num_char (NilEmpty.string_of_uint d) = true.
Proof. induction d; simpl; try done; rewrite IHd; reflexivity. Qed.

Lemma print_int_digits z :
  exists c s, Json.print_int z = String c s /\
              Json.is_num_char c = true /\ string_forall Json.is_num_char s = true.
Proof.
  unfold Json.print_int.
  assert (Hu : forall d, exists c s, NilZero.string_of_uint d = String c s /\
              Json.is_num_char c = true /\ string_forall Json.is_num_char s = true).
  { intros d. pose proof (uint_digits d) as Hd. unfold NilZero.string_of_uint.
    destruct d; simpl in *; eauto. }
  destruct (Z.to_int z) as [d|d]; simpl.
  - apply Hu.
  - destruct (Hu d) as (c & s & -> & Hc & Hs).
    eexists _, _. split; [reflexivity|]. split; [reflexivity|]. simpl.
    by rewrite Hc, Hs.
Qed.

Lemma span_num_app n rest :
  string_forall Json.is_num_char n = true -> ends_number rest ->
  Json.span_num (n +:+ rest) = (n, rest).
Proof.
  intros Hn Hrest. induction n as [|c n IH].
  - rewrite append_empty. destruct rest as [|c r]; simpl in *; [done|]. by rewrite Hrest.
  - simpl in Hn. apply andb_prop in Hn as [Hc Hn]. rewrite append_cons.
    change (Json.span_num (String c (n +:+ rest))) with
      (if Json.is_num_char c
       then let '(m, r) := Json.span_num (n +:+ rest) in (String c m, r)
       else (EmptyString, String c (n +:+ rest))).
    rewrite Hc, (IH Hn). reflexivity.
Qed.

Lemma int_of_print_int z :
  NilZero.int_of_string (Json.print_int z) = Some (Z.to_int z).
Proof.
  unfold Json.print_int. apply NilZero.isi.
  - destruct z; simpl; try discriminate.
    intros [= Hp]. by apply DecimalPos.Unsigned.to_uint_nonnil in Hp.
  - destruct z; simpl; try discriminate.
    intros [= Hp]. by apply DecimalPos.Unsigned.to_uint_nonnil in Hp.
Qed.

Lemma p_int_print z rest :
  ends_number rest ->
  Json.p_int (Json.print_int z +:+ rest) = Some (z, rest) /\
  Json.p_int (String " " (Json.print_int z +:+ rest)) = Some (z, rest).
Proof.
  intros Hrest.
  destruct (print_int_digits z) as (c & s & Hz & Hc & Hs).
  assert (Hskip : Json.skip_ws (Json.print_int z +:+ rest) = Json.print_int z +:+ rest).
  { rewrite Hz, append_cons. simpl. by rewrite (num_char_not_ws c Hc). }
  assert (Hp : Json.p_int (Json.print_int z +:+ rest) = Some (z, rest)).
  { unfold Json.p_int. rewrite Hskip, span_num_app; [| |done].
    - rewrite int_of_print_int. simpl. by rewrite DecimalZ.of_to.
    - rewrite Hz. simpl. by rewrite Hc, Hs. }
  split; [exact Hp|].
  unfold Json.p_int in *. simpl. exact Hp.
Qed.

Lemma append_assoc (a b c : string) : (a +:+ b) +:+ c = a +:+ (b +:+ c).
Proof. induction a as [|x a IH]; [done|]. by rewrite !append_cons, IH. Qed.

Lemma length_append (a b : string) :
  String.length (a +:+ b) = (String.length a + String.length b)%nat.
Proof. induction a as [|x a IH]; [done|]. rewrite append_cons. simpl. by rewrite IH. Qed.

Lemma num_char_not_bracket c :
  Json.is_num_char c = true -> Ascii.eqb c "]"%char = false.
Proof.
  destruct c as [[] [] [] [] [] [] [] []]; vm_compute; congruence.
Qed.

Section ListCodec.
Context {A : Type} (pr : A -> string) (p : Json.parser A).

Hypothesis p_print : forall x rest,
  ends_number rest ->
  p (pr x +:+ rest) = Some (x, rest) /\ p (String " " (pr x +:+ rest)) = Some (x, rest).

Hypothesis pr_start : forall x,
  exists c s, pr x = String c s /\ Json.is_ws c = false /\ Ascii.eqb c "]"%char = false.

Lemma concat_items x xs rest :
  String.concat ", " (pr <$> (x :: xs)) +:+ String "]" rest = pr x +:+ items_tail pr xs rest.
Proof.
  revert x. induction xs as [|y xs IH]; intros x; [done|].
  change (String.concat ", " (pr <$> (x :: y :: xs)))
    with (pr x +:+ ", " +:+ String.concat ", " (pr <$> (y :: xs))).
  rewrite !append_assoc, IH. reflexivity.
Qed.

Lemma print_list_cons x xs rest :
  Json.print_list pr (x :: xs) +:+ rest = String "[" (pr x +:+ items_tail pr xs rest).
Proof.
  unfold Json.print_list. rewrite !append_assoc, append_cons, append_empty.
  change ("]" +:+ rest) with (String "]" rest). by rewrite concat_items.
Qed.

Lemma ends_number_items_tail xs rest : ends_number (items_tail pr xs rest).
Proof. destruct xs; reflexivity. Qed.

Lemma length_items_tail xs rest : (length xs < String.length (items_tail pr xs rest))%nat.
Proof.
  induction xs as [|x xs IH]; simpl; [lia|]. rewrite length_append. lia.
Qed.

Lemma p_items_tail xs : forall fuel rest,
  (length xs < fuel)%nat ->
  Json.p_items p fuel (items_tail pr xs rest) = Some (xs, rest).
Proof.
  induction xs as [|x xs IH]; intros [|fuel] rest Hfuel; simpl in Hfuel; try lia.
  - reflexivity.
  - destruct (p_print x (items_tail pr xs rest) (ends_number_items_tail xs rest)) as [_ Hp].
    change (Json.p_items p (S fuel) (items_tail pr (x :: xs) rest)) with
      (match p (String " " (pr x +:+ items_tail pr xs rest)) with
       | Some (y, s1) => (fun '(ys, s2) => (y :: ys, s2)) <$> Json.p_items p fuel s1
       | None => None
       end).
    rewrite Hp, IH by lia. reflexivity.
Qed.

Lemma p_list_print xs rest :
  Json.p_list p (Json.print_list pr xs +:+ rest) = Some (xs, rest) /\
  Json.p_list p (String " " (Json.print_list pr xs +:+ rest)) = Some (xs, rest).
Proof.
  destruct xs as [|x xs]; [split; reflexivity|].
  rewrite print_list_cons.
  destruct (pr_start x) as (c & s & Hx & Hws & Hbr).
  destruct (p_print x (items_tail pr xs rest) (ends_number_items_tail xs rest)) as [Hp _].
  assert (Hgo : forall fuel, (length xs < fuel)%nat ->
            match Json.skip_ws (pr x +:+ items_tail pr xs rest) with
            | String c' rest' =>
                if Ascii.eqb c' "]"%char then Some ([], rest')
                else
                  match p (pr x +:+ items_tail pr xs rest) with
                  | Some (y, s1) =>
                      (fun '(ys, s2) => (y :: ys, s2)) <$> Json.p_items p fuel s1
                  | None => None
                  end
            | EmptyString => None
            end = Some (x :: xs, rest)).
  { intros fuel Hfuel. rewrite Hp, p_items_tail by done.
    rewrite Hx, append_cons. simpl. rewrite Hws, Hbr. reflexivity. }
  pose proof (length_items_tail xs rest) as Hlen.
  split; apply Hgo; simpl; rewrite length_append; lia.
Qed.

End ListCodec.

Lemma p_doc_print d : Json.p_doc (Json.print_doc d) = Some (d, EmptyString).
Proof.
  destruct d as [v l]. unfold Json.print_doc, Json.quote. simpl doc_version. simpl doc_layout.
  rewrite !append_cons, !append_empty.
  assert (Hint : forall z rest, ends_number rest ->
            Json.p_int (Json.print_int z +:+ rest) = Some (z, rest) /\
            Json.p_int (String " " (Json.print_int z +:+ rest)) = Some (z, rest))
    by apply p_int_print.
  assert (Hint_start : forall z, exists c s, Json.print_int z = String c s /\
            Json.is_ws c = false /\ Ascii.eqb c "]"%char = false).
  { intros z. destruct (print_int_digits z) as (c & s & Hz & Hc & _).
    exists c, s. eauto using num_char_not_ws, num_char_not_bracket. }
  assert (Hl1 : forall xs rest, ends_number rest ->
            Json.p_list Json.p_int (Json.print_list Json.print_int xs +:+ rest) = Some (xs, rest) /\
            Json.p_list Json.p_int (String " " (Json.print_list Json.print_int xs +:+ rest))
              = Some (xs, rest)).
  { intros xs rest _. by apply p_list_print. }
  assert (Hstart : forall {B} (pr : B -> string) xs, exists c s,
            Json.print_list pr xs = String c s /\
            Json.is_ws c = false /\ Ascii.eqb c "]"%char = false).
  { intros B pr xs. eexists _, _. split; [reflexivity|]. split; reflexivity. }
  assert (Hl2 : forall xs rest, ends_number rest ->
            Json.p_list (Json.p_list Json.p_int)
              (Json.print_list (Json.print_list Json.print_int) xs +:+ rest) = Some (xs, rest) /\
            Json.p_list (Json.p_list Json.p_int)
              (String " " (Json.print_list (Json.print_list Json.print_int) xs +:+ rest))
              = Some (xs, rest)).
  { intros xs rest _. apply p_list_print; [exact Hl1 | apply Hstart]. }
  destruct (p_list_print (Json.print_list (Json.print_list Json.print_int))
              (Json.p_list (Json.p_list Json.p_int)) Hl2 (Hstart _ _) l "}") as [_ Hl3].
  unfold Json.p_doc. simpl.
  match goal with
  | |- context [Json.p_int (String " " (Json.print_int v +:+ ?r))] =>
      rewrite (proj2 (Hint v r eq_refl))
  end.
  simpl. rewrite Hl3. reflexivity.
Qed.

(** The codec reads back every save document it writes. *)
Lemma json_loads_dumps d : Json.loads (Json.dumps d) = Some d.
Proof.
  unfold Json.loads, Json.dumps.
  rewrite String.string_of_list_byte_of_string, p_doc_print. reflexivity.
Qed.

(** On the simulated keyboard [restore(save())] is a no-op for every
    session: the hypothesis on the codec is met throughout. *)
Lemma sim_restore_save (w : @World sim_env) :
  (let* data := save_layout in restore_layout data) w = (Ok tt, w).
Proof. apply restore_save_noop, json_loads_dumps. Qed.

(** ** Scenarios *)

(** The chunk loop at the boundaries [S = 0], [M], [M + 1] and [2 M], for
    frames of [M = 32] bytes. *)
Example chunk_boundaries :
  fetched <$> [0; 32; 33; 64] =
  [Some (0, 0); Some (32, 1); Some (33, 2); Some (64, 2)]%nat.
Proof. vm_compute. reflexivity. Qed.

(** Two rows, one column, one layer, keycodes 10 and 20: the live
    discovery, the requests it issues, and the saved array. *)
Example live_discovery :
  (reload None w_fresh).1 = Ok tt /\
  rowcol (self w_loaded) = [(0, 0); (1, 0)] /\
  (rows (self w_loaded), cols (self w_loaded), layers (self w_loaded)) = (2, 1, 1) /\
  (vial_protocol (self w_loaded), keyboard_id (self w_loaded)) = (6, 0x1122334455667788) /\
  map_to_list (layout (self w_loaded)) ≡ₚ [((0, 0, 0), 10); ((0, 1, 0), 20)] /\
  (fun msg : bytes => Z_of_byte <$> msg) <$> sent w_loaded =
    [[0xFE; 0x00]; [0xFE; 0x01]; [0xFE; 0x02; 0; 0; 0; 0];
     [0x11]; [0x04; 0; 0; 0]; [0x04; 0; 1; 0]] /\
  doc_layout (save_doc (self w_loaded)) = [[[10]; [20]]] /\
  String.string_of_list_byte (json_dumps (save_doc (self w_loaded))) =
    ("{" +:+ Json.quote +:+ "version" +:+ Json.quote +:+ ": 0, " +:+
     Json.quote +:+ "layout" +:+ Json.quote +:+ ": [[[10], [20]]]}")%string.
Proof.
  repeat split; try (vm_compute; reflexivity).
  vm_compute. apply perm_swap.
Qed.

(** A sideloaded document with a one by one matrix and one key labelled
    ["0,0"], on a session as [__init__] leaves it. *)
Example sideload_scenario :
  let w' := (reload_layout (Some sideload_doc) w_fresh).2 in
  (reload_layout (Some sideload_doc) w_fresh).1 = Ok tt /\
  rowcol (self w') = [(0, 0)] /\
  (rows (self w'), cols (self w')) = (1, 1) /\
  (vial_protocol (self w'), keyboard_id (self w')) = (-1, -1) /\
  sent w' = [].
Proof. repeat split; vm_compute; reflexivity. Qed.

(** Labels that [int] or the unpacking of the split rejects. *)
Example label_coordinate_cases :
  label_coordinate <$>
    [None; Some ""; Some "Esc"; Some "3,7"; Some " 3 , -7 "; Some "1,2,3";
     Some ","; Some "a,b"; Some "1_0,+2"]%string =
  [Ok None; Ok None; Ok None; Ok (Some (3, 7)); Ok (Some (3, -7)); Raise ValueError;
   Raise ValueError; Raise ValueError; Ok (Some (10, 2))].
Proof. vm_compute. reflexivity. Qed.

(** * Further properties of the session *)

(** ** What the mutators keep *)

Lemma set_layout_self (k : Keyboard) : set_layout (layout k) k = k.
Proof. by destruct k. Qed.

Lemma same_shape_refl k : same_shape k k.
Proof. by repeat split. Qed.

Lemma same_shape_trans k1 k2 k3 :
  same_shape k1 k2 -> same_shape k2 k3 -> same_shape k1 k3.
Proof.
  intros (A1 & A2 & A3 & A4 & A5 & A6 & A7 & A8) (B1 & B2 & B3 & B4 & B5 & B6 & B7 & B8).
  unfold same_shape. rewrite B1, B2, B3, B4, B5, B6, B7, B8. done.
Qed.

Lemma same_shape_insert k key v :
  is_Some (layout k !! key) -> same_shape k (set_layout (<[key := v]> (layout k)) k).
Proof.
  intros Hk. repeat split. simpl. rewrite dom_insert_L.
  apply elem_of_dom in Hk. apply subseteq_union_1_L. by apply singleton_subseteq_l.
Qed.

Lemma keymap_wf_insert m l r c v :
  keymap_wf m -> is_Some (m !! (l, r, c)) -> 0 <= v <= 65535 ->
  keymap_wf (<[(l, r, c) := v]> m).
Proof.
  intros Hwf [cur Hcur] Hv l' r' c' v' Hl.
  destruct (decide ((l, r, c) = (l', r', c'))) as [[= <- <- <-]|Hne].
  - rewrite lookup_insert_eq in Hl. injection Hl as <-.
    destruct (Hwf l r c cur Hcur) as (? & ? & ? & _). done.
  - rewrite lookup_insert_ne in Hl by done. by eapply Hwf.
Qed.

Section Mutators.
Context `{Env}.

(** A call of [set_key] that returns has found an entry and leaves the
    requested keycode in it; it has sent one write request, or none when
    the entry held the keycode already. *)
Lemma set_key_ok w w' l r c code :
  set_key l r c code w = (Ok tt, w') ->
  exists cur,
    layout (self w) !! (l, r, c) = Some cur /\
    self w' = set_layout (<[(l, r, c) := code]> (layout (self w))) (self w) /\
    (cur = code /\ w' = w \/
     cur <> code /\ exists msg,
       set_request l r c code = Ok msg /\ sent w' = sent w ++ [msg] /\
       device w' = (usb_send (device w) msg).1).
Proof.
  intros Hrun.
  destruct (layout (self w) !! (l, r, c)) as [cur|] eqn:Hk.
  2:{ rewrite (set_key_absent _ _ _ _ _ Hk) in Hrun. discriminate. }
  exists cur. split; [done|].
  destruct (decide (cur = code)) as [->|Hne].
  { rewrite (set_key_same _ _ _ _ _ Hk) in Hrun. injection Hrun as <-.
    split; [|by left]. by rewrite insert_id, set_layout_self. }
  destruct (set_request l r c code) as [msg|e] eqn:Hreq.
  2:{ rewrite (set_request_raise _ _ _ _ _ Hreq) in Hreq.
      rewrite (set_key_unpackable _ _ _ _ _ _ Hk Hne Hreq) in Hrun. discriminate. }
  rewrite (set_key_write _ _ _ _ _ _ _ Hk Hne Hreq) in Hrun.
  destruct (usb_send (device w) msg).2; [|discriminate].
  injection Hrun as <-. simpl. split; [done|]. right. eauto.
Qed.

Lemma set_key_shape w l r c v : same_shape (self w) (self (set_key l r c v w).2).
Proof.
  destruct (set_key_effect w l r c v) as [_ Hlay].
  destruct (layout (self w) !! (l, r, c)) as [cur|] eqn:Hk.
  2:{ rewrite (set_key_absent _ _ _ _ _ Hk). apply same_shape_refl. }
  destruct (decide (cur = v)) as [->|Hne].
  { rewrite (set_key_same _ _ _ _ _ Hk). apply same_shape_refl. }
  destruct (set_request l r c v) as [msg|e] eqn:Hreq.
  2:{ rewrite (set_request_raise _ _ _ _ _ Hreq) in Hreq.
      rewrite (set_key_unpackable _ _ _ _ _ _ Hk Hne Hreq). apply same_shape_refl. }
  rewrite (set_key_write _ _ _ _ _ _ _ Hk Hne Hreq).
  destruct (usb_send (device w) msg).2; simpl; [|apply same_shape_refl].
  apply same_shape_insert. rewrite Hk. eauto.
Qed.

Lemma restore_cell_shape w l r c v :
  same_shape (self w) (self (restore_cell l r c v w).2).
Proof.
  destruct (layout (self w) !! (l, r, c)) as [cur|] eqn:Hk.
  - rewrite restore_cell_known by (rewrite Hk; eauto). apply set_key_shape.
  - rewrite (restore_cell_unknown _ _ _ _ _ Hk). apply same_shape_refl.
Qed.

Lemma restore_layout_world data w :
  json_loads data = None /\ (restore_layout data w).2 = w \/
  exists doc, json_loads data = Some doc /\
    restore_layout data w =
      for_each (doc_cells doc) (fun '(l, r, c, col) => restore_cell l r c col) w.
Proof.
  destruct (json_loads data) as [doc|] eqn:Hd.
  - right. exists doc. split; [done|].
    rewrite (restore_layout_decoded data doc w Hd). apply restore_doc_cells.
  - left. split; [done|]. unfold restore_layout, bind. by rewrite Hd.
Qed.

Lemma restore_layout_shape data w :
  same_shape (self w) (self (restore_layout data w).2).
Proof.
  destruct (restore_layout_world data w) as [[_ ->] | (doc & _ & ->)];
    [apply same_shape_refl|].
  apply (for_each_invariant (fun w1 => same_shape (self w) (self w1)));
    [|apply same_shape_refl].
  intros [[[l r] c] v] w1 Hw1. eapply same_shape_trans; [exact Hw1|].
  apply restore_cell_shape.
Qed.

End Mutators.

(** X1: neither [set_key] nor [restore_layout], whether they return or
    raise, changes the CoordinateSet, the LayoutGeometry, the layer count,
    the key records or the DeviceIdentity, and neither adds a key to the
    Keymap or removes one: only values of existing entries change. *)
Theorem mutators_keep_shape `{Env} (w : World) :
  (forall l r c v, same_shape (self w) (self (set_key l r c v w).2)) /\
  (forall data, same_shape (self w) (self (restore_layout data w).2)).
Proof.
  split; [intros; apply set_key_shape | intros; apply restore_layout_shape].
Qed.

(** X2: a Keymap whose keys fit the byte fields of the requests and whose
    values are 16-bit keycodes stays so under [set_key] and under
    [restore_layout], whether they return or raise: a value that does not
    fit is rejected by the encoding of the write request before the cache
    is touched. *)
Theorem mutators_keep_keymap_wf `{Env} (w : World) :
  keymap_wf (layout (self w)) ->
  (forall l r c v, keymap_wf (layout (self (set_key l r c v w).2))) /\
  (forall data, keymap_wf (layout (self (restore_layout data w).2))).
Proof.
  intros Hwf.
  assert (Hset : forall w1 l r c v, keymap_wf (layout (self w1)) ->
            keymap_wf (layout (self (set_key l r c v w1).2))).
  { intros w1 l r c v Hw1.
    destruct (set_key_effect w1 l r c v) as [_ [-> | (-> & Hsome & Hv)]]; [done|].
    by apply keymap_wf_insert. }
  split; [intros; by apply Hset|]. intros data.
  destruct (restore_layout_world data w) as [[_ ->] | (doc & _ & ->)]; [done|].
  apply (for_each_invariant (fun w1 => keymap_wf (layout (self w1)))); [|done].
  intros [[[l r] c] v] w1 Hw1.
  destruct (layout (self w1) !! (l, r, c)) as [cur|] eqn:Hk.
  - rewrite restore_cell_known by (rewrite Hk; eauto). by apply Hset.
  - by rewrite (restore_cell_unknown _ _ _ _ _ Hk).
Qed.

Lemma w_loaded_keymap_wf : keymap_wf (layout (self w_loaded)).
Proof.
  intros l r c v Hv. apply elem_of_map_to_list in Hv.
  assert (Hl : map_to_list (layout (self w_loaded)) ≡ₚ [((0, 0, 0), 10); ((0, 1, 0), 20)]).
  { vm_compute. apply perm_swap. }
  rewrite Hl in Hv.
  apply elem_of_cons in Hv as [[= -> -> -> ->] | Hv]; [lia|].
  apply list_elem_of_singleton in Hv as [= -> -> -> ->]. lia.
Qed.

Lemma mutators_keep_keymap_wf_witness :
  keymap_wf (layout (self w_loaded)) /\
  (set_key 0 1 0 70000 w_loaded).1 = Raise StructError /\
  keymap_wf (layout (self (set_key 0 1 0 70000 w_loaded).2)) /\
  keymap_wf (layout (self (restore_layout (json_dumps doc_foreign) w_loaded).2)).
Proof.
  split; [exact w_loaded_keymap_wf|]. split; [vm_compute; reflexivity|].
  destruct (mutators_keep_keymap_wf w_loaded w_loaded_keymap_wf) as [Hset Hrestore].
  split; [apply Hset | apply Hrestore].
Defined.

(** ** The write request *)

Lemma be_value_pair x :
  0 <= x <= 65535 -> be_value [byte_of_Z (x / 256); byte_of_Z x] = x.
Proof.
  intros Hx. unfold be_value.
  change (foldl (fun acc b => 256 * acc + Z_of_byte b) 0
            [byte_of_Z (x / 256); byte_of_Z x])
    with (256 * (256 * 0 + Z_of_byte (byte_of_Z (x / 256))) + Z_of_byte (byte_of_Z x)).
  assert (0 <= x / 256 <= 255).
  { split; [apply Z.div_pos; lia|].
    assert (x / 256 < 256) by (apply Z.div_lt_upper_bound; lia). lia. }
  rewrite (Z_of_byte_of_Z (x / 256)), (Z_of_byte_of_Z_mod x) by done.
  pose proof (Z.div_mod x 256 ltac:(lia)). lia.
Qed.

(** X3: when the transport raises on the write request of [set_key], the
    call raises to the caller with the request logged as sent and the
    session object untouched: the cache still holds the former keycode,
    since it is updated only after the request has returned. *)
Theorem set_key_transport_failure `{Env} (w : World) (l r c code cur : Z) (msg : bytes) :
  layout (self w) !! (l, r, c) = Some cur ->
  cur <> code ->
  set_request l r c code = Ok msg ->
  (usb_send (device w) msg).2 = None ->
  (set_key l r c code w).1 = Raise TransportError /\
  self (set_key l r c code w).2 = self w /\
  layout (self (set_key l r c code w).2) !! (l, r, c) = Some cur /\
  sent (set_key l r c code w).2 = sent w ++ [msg].
Proof.
  intros Hk Hne Hreq Hsend.
  rewrite (set_key_write w l r c code cur msg Hk Hne Hreq), Hsend. simpl. auto.
Qed.

Lemma set_key_transport_failure_witness :
  (layout (self w_unplugged) !! (0, 1, 0) = Some 20 /\ 20 <> 21 /\
   set_request 0 1 0 21 =
     Ok (byte_of_Z <$> [5; 0; 1; 0; 0; 21])) /\
  (set_key 0 1 0 21 w_unplugged).1 = Raise TransportError /\
  self (set_key 0 1 0 21 w_unplugged).2 = self w_unplugged /\
  layout (self (set_key 0 1 0 21 w_unplugged).2) !! (0, 1, 0) = Some 20 /\
  sent (set_key 0 1 0 21 w_unplugged).2 =
    sent w_unplugged ++ [byte_of_Z <$> [5; 0; 1; 0; 0; 21]].
Proof.
  assert (Hk : layout (self w_unplugged) !! (0, 1, 0) = Some 20)
    by (vm_compute; reflexivity).
  assert (Hreq : set_request 0 1 0 21 = Ok (byte_of_Z <$> [5; 0; 1; 0; 0; 21]))
    by (vm_compute; reflexivity).
  split; [split; [exact Hk | split; [lia | exact Hreq]]|].
  apply (@set_key_transport_failure unplugged_env w_unplugged 0 1 0 21 20 _ Hk);
    [lia | exact Hreq | reflexivity].
Defined.

(** X4: the write request of [set_key] and the decoding in [reload_keymap]
    agree on the place and the byte order of the keycode: a write request
    is the command byte 5, the three address bytes, and the keycode as a
    big-endian 16-bit field at bytes 4 and 5, which is where
    [reload_keymap] reads the keycode of a response, so that a response
    which echoes the request decodes to the keycode written. *)
Theorem keycode_field_round_trip (l r c code : Z) (msg : bytes) :
  set_request l r c code = Ok msg ->
  Z_of_byte <$> take 4 msg = [5; l; r; c] /\
  length msg = 6%nat /\
  unpack_H_be (slice 4 6 msg) = Ok code.
Proof.
  intros [(Hl & Hr & Hc & Hcode) ->]%set_request_inv.
  split; [|split; [reflexivity|]].
  - simpl. rewrite !Z_of_byte_of_Z by lia. reflexivity.
  - unfold unpack_H_be, slice. simpl. by rewrite be_value_pair.
Qed.

Lemma keycode_field_round_trip_witness :
  set_request 2 3 4 0x5401 = Ok (byte_of_Z <$> [5; 2; 3; 4; 0x54; 0x01]) /\
  Z_of_byte <$> take 4 (byte_of_Z <$> [5; 2; 3; 4; 0x54; 0x01]) = [5; 2; 3; 4] /\
  length (byte_of_Z <$> [5; 2; 3; 4; 0x54; 0x01]) = 6%nat /\
  unpack_H_be (slice 4 6 (byte_of_Z <$> [5; 2; 3; 4; 0x54; 0x01])) = Ok 0x5401.
Proof.
  assert (Hreq : set_request 2 3 4 0x5401 = Ok (byte_of_Z <$> [5; 2; 3; 4; 0x54; 0x01]))
    by (vm_compute; reflexivity).
  split; [exact Hreq|].
  apply (keycode_field_round_trip 2 3 4 0x5401 _ Hreq).
Defined.

(** X5: a [set_key] that returns is seen by [save_layout]: for a triple
    below the layer count and the matrix dimensions the saved array holds
    the new keycode at that index, every other entry of the array is as
    it was, and the size of the array has not changed. *)
Theorem set_key_then_save `{Env} (w w' : World) (l r c : nat) (code : Z) :
  set_key (Z.of_nat l) (Z.of_nat r) (Z.of_nat c) code w = (Ok tt, w') ->
  Z.of_nat l < layers (self w) ->
  Z.of_nat r < rows (self w) ->
  Z.of_nat c < cols (self w) ->
  doc_at (save_doc (self w')) l r c = Some code /\
  forall i j n,
    (i, j, n) <> (l, r, c) ->
    doc_at (save_doc (self w')) i j n = doc_at (save_doc (self w)) i j n.
Proof.
  intros Hrun Hl Hr Hc.
  apply set_key_ok in Hrun as (cur & Hk & Hself & _).
  split.
  - rewrite save_doc_at, Hself. simpl. case_decide; [|lia].
    by rewrite lookup_insert_eq.
  - intros i j n Hne. rewrite !save_doc_at, Hself. simpl.
    case_decide; [|done]. rewrite lookup_insert_ne; [done|].
    intros [= Hi Hj Hn]. apply Hne. f_equal; [f_equal|]; lia.
Qed.

Lemma set_key_then_save_witness :
  (set_key 0 1 0 21 w_loaded).1 = Ok tt /\
  doc_layout (save_doc (self w_loaded)) = [[[10]; [20]]] /\
  doc_layout (save_doc (self (set_key 0 1 0 21 w_loaded).2)) = [[[10]; [21]]] /\
  doc_at (save_doc (self (set_key 0 1 0 21 w_loaded).2)) 0 1 0 = Some 21 /\
  forall i j n,
    (i, j, n) <> (0, 1, 0)%nat ->
    doc_at (save_doc (self (set_key 0 1 0 21 w_loaded).2)) i j n =
    doc_at (save_doc (self w_loaded)) i j n.
Proof.
  assert (Hrun : (set_key 0 1 0 21 w_loaded).1 = Ok tt) by (vm_compute; reflexivity).
  split; [exact Hrun|]. split; [vm_compute; reflexivity|]. split; [vm_compute; reflexivity|].
  apply (set_key_then_save w_loaded (set_key 0 1 0 21 w_loaded).2 0 1 0 21).
  - rewrite <- Hrun. apply surjective_pairing.
  - vm_compute. reflexivity.
  - vm_compute. reflexivity.
  - vm_compute. reflexivity.
Defined.

(** ** The index triples of a save document *)

Lemma NoDup_enumerate {A} (xs : list A) : NoDup (enumerate xs).
Proof.
  apply NoDup_alt. intros i j [n x] Hi Hj. unfold enumerate in *.
  apply list_lookup_imap_Some in Hi as (y & _ & [= Hn _]).
  apply list_lookup_imap_Some in Hj as (y' & _ & [= Hn' _]). lia.
Qed.

Lemma NoDup_doc_cells doc : NoDup (doc_cells doc).
Proof.
  unfold doc_cells.
  apply NoDup_bind; [| |apply NoDup_enumerate].
  - intros [l1 layer1] [l2 layer2] [[[l r] c] v] H1 H2 Hy1 Hy2.
    apply list_elem_of_bind in Hy1 as ([r1 row1] & Hy1 & _).
    apply list_elem_of_bind in Hy1 as ([c1 col1] & Hy1 & _).
    apply list_elem_of_singleton in Hy1 as [= -> _ _ _].
    apply list_elem_of_bind in Hy2 as ([r2 row2] & Hy2 & _).
    apply list_elem_of_bind in Hy2 as ([c2 col2] & Hy2 & _).
    apply list_elem_of_singleton in Hy2 as [= -> _ _ _].
    apply elem_of_enumerate in H1 as (i & -> & Hi).
    apply elem_of_enumerate in H2 as (j & Hij & Hj).
    apply Nat2Z.inj in Hij as <-. congruence.
  - intros [l layer] _.
    apply NoDup_bind; [| |apply NoDup_enumerate].
    + intros [r1 row1] [r2 row2] [[[l' r] c] v] H1 H2 Hy1 Hy2.
      apply list_elem_of_bind in Hy1 as ([c1 col1] & Hy1 & _).
      apply list_elem_of_singleton in Hy1 as [= _ -> _ _].
      apply list_elem_of_bind in Hy2 as ([c2 col2] & Hy2 & _).
      apply list_elem_of_singleton in Hy2 as [= _ -> _ _].
      apply elem_of_enumerate in H1 as (i & -> & Hi).
      apply elem_of_enumerate in H2 as (j & Hij & Hj).
      apply Nat2Z.inj in Hij as <-. congruence.
    + intros [r row] _.
      apply NoDup_bind; [| |apply NoDup_enumerate].
      * intros [c1 col1] [c2 col2] y _ _
          ->%list_elem_of_singleton [= -> ->]%list_elem_of_singleton. done.
      * intros [c col] _. apply NoDup_singleton.
Qed.

(** Every index triple occurs once among the cells of a document. *)
Lemma NoDup_doc_triples doc : NoDup (doc_cells doc).*1.
Proof.
  apply NoDup_fmap_fst; [|apply NoDup_doc_cells].
  intros [[l r] c] v1 v2 H1 H2.
  apply elem_of_doc_cells in H1 as (i & j & n & -> & -> & -> & H1).
  apply elem_of_doc_cells in H2 as (i' & j' & n' & Hi & Hj & Hn & H2).
  apply Nat2Z.inj in Hi as <-. apply Nat2Z.inj in Hj as <-. apply Nat2Z.inj in Hn as <-.
  congruence.
Qed.


(** ** What a restore that returns has done *)

Lemma filter_ext_in {A} (P Q : A -> Prop) `{forall x, Decision (P x)}
    `{forall x, Decision (Q x)} (xs : list A) :
  (forall x, x ∈ xs -> P x <-> Q x) -> filter P xs = filter Q xs.
Proof.
  induction xs as [|x xs IH]; intros Hpq; [done|].
  rewrite !filter_cons.
  destruct (decide (P x)) as [HP|HP], (decide (Q x)) as [HQ|HQ].
  - f_equal. apply IH. intros y Hy. apply Hpq. by right.
  - exfalso. apply HQ, (Hpq x); [left | done].
  - exfalso. apply HP, (Hpq x); [left | done].
  - apply IH. intros y Hy. apply Hpq. by right.
Qed.

Section RestoreOk.
Context `{Env}.

(** One cell of a restore that goes on: the entry of its triple, if
    there is one, now holds the keycode of the cell, the other entries
    are as before, and a write request was sent if the keycode differed. *)
Lemma restore_cell_ok w w1 l r c v :
  restore_cell l r c v w = (Ok tt, w1) ->
  (forall key, key <> (l, r, c) -> layout (self w1) !! key = layout (self w) !! key) /\
  (is_Some (layout (self w) !! (l, r, c)) -> layout (self w1) !! (l, r, c) = Some v) /\
  (layout (self w) !! (l, r, c) = None -> w1 = w) /\
  exists msgs,
    sent w1 = sent w ++ msgs /\
    Ok <$> msgs =
      cell_request <$> filter (cell_differs (layout (self w))) [(l, r, c, v)].
Proof.
  intros Hrun.
  assert (Hfilter : forall P : Prop,
            (P <-> cell_differs (layout (self w)) (l, r, c, v)) ->
            forall msgs : list bytes,
              (P -> exists msg, msgs = [msg] /\ set_request l r c v = Ok msg) ->
              (~ P -> msgs = []) ->
              Ok <$> msgs =
                cell_request <$> filter (cell_differs (layout (self w))) [(l, r, c, v)]).
  { intros P HP msgs Hyes Hno. rewrite filter_cons.
    destruct (decide (cell_differs (layout (self w)) (l, r, c, v))) as [Hd|Hd].
    - apply HP in Hd. destruct (Hyes Hd) as (msg & -> & Hreq). simpl. by rewrite Hreq.
    - rewrite Hno; [done|]. intros HP'. by apply Hd, HP. }
  destruct (layout (self w) !! (l, r, c)) as [cur|] eqn:Hk.
  - rewrite restore_cell_known in Hrun by (rewrite Hk; eauto).
    apply set_key_ok in Hrun as (cur' & Hk' & Hself & Hcase).
    assert (cur' = cur) as -> by congruence.
    split; [|split; [|split; [done|]]].
    + intros key Hne. rewrite Hself. simpl. by rewrite lookup_insert_ne.
    + intros _. rewrite Hself. simpl. by rewrite lookup_insert_eq.
    + destruct Hcase as [[-> ->] | (Hne & msg & Hreq & Hsent & _)].
      * exists []. rewrite app_nil_r. split; [done|].
        apply (Hfilter False); [|done|done].
        unfold cell_differs. simpl. rewrite Hk. tauto.
      * exists [msg]. split; [done|].
        apply (Hfilter True); [|eauto|tauto].
        unfold cell_differs. simpl. rewrite Hk. tauto.
  - rewrite (restore_cell_unknown _ _ _ _ _ Hk) in Hrun. injection Hrun as <-.
    split; [done|]. split; [by intros [? ?]|]. split; [done|].
    exists []. rewrite app_nil_r. split; [done|].
    apply (Hfilter False); [|done|done].
    unfold cell_differs. simpl. rewrite Hk. tauto.
Qed.

Lemma restore_cells_ok cells : forall w w',
  NoDup cells.*1 ->
  for_each cells (fun '(l, r, c, col) => restore_cell l r c col) w = (Ok tt, w') ->
  (forall key v, (key, v) ∈ cells -> is_Some (layout (self w) !! key) ->
     layout (self w') !! key = Some v) /\
  (forall key, key ∉ cells.*1 -> layout (self w') !! key = layout (self w) !! key) /\
  exists msgs,
    sent w' = sent w ++ msgs /\
    Ok <$> msgs = cell_request <$> filter (cell_differs (layout (self w))) cells.
Proof.
  induction cells as [|[[[l r] c] v] cells IH]; intros w w' Hnd Hrun.
  - injection Hrun as <-. split; [intros key v Hin; by apply elem_of_nil in Hin|].
    split; [done|]. exists []. by rewrite app_nil_r.
  - apply NoDup_cons in Hnd as [Hfresh Hnd]. simpl in Hfresh, Hrun. unfold bind in Hrun.
    destruct (restore_cell l r c v w) as [[[]|e] w1] eqn:Hcell; [|discriminate].
    apply restore_cell_ok in Hcell as (Hother & Hthis & _ & msgs1 & Hsent1 & Hmsgs1).
    destruct (IH w1 w' Hnd Hrun) as (Hset & Hkeep & msgs2 & Hsent2 & Hmsgs2).
    assert (Hrest : forall key, key ∈ cells.*1 ->
              layout (self w1) !! key = layout (self w) !! key).
    { intros key Hin. apply Hother. intros ->. done. }
    split; [|split].
    + intros key v' [[= -> ->] | Hin]%elem_of_cons Hsome.
      * rewrite (Hkeep _ Hfresh). by apply Hthis.
      * apply Hset; [done|]. rewrite Hrest; [done|].
        apply list_elem_of_fmap. by exists (key, v').
    + intros key Hnot. apply not_elem_of_cons in Hnot as [Hne Hnot].
      rewrite (Hkeep _ Hnot). by apply Hother.
    + exists (msgs1 ++ msgs2). rewrite Hsent2, Hsent1, <- app_assoc. split; [done|].
      rewrite fmap_app, Hmsgs1, Hmsgs2.
      change ((l, r, c, v) :: cells) with ([(l, r, c, v)] ++ cells).
      rewrite filter_app, fmap_app. f_equal. f_equal.
      apply filter_ext_in. intros cell Hcell_in. unfold cell_differs.
      rewrite Hrest; [done|]. apply list_elem_of_fmap. by exists cell.
Qed.

End RestoreOk.

Lemma restore_layout_ok_cells `{Env} data doc w w' :
  json_loads data = Some doc ->
  restore_layout data w = (Ok tt, w') ->
  for_each (doc_cells doc) (fun '(l, r, c, col) => restore_cell l r c col) w = (Ok tt, w').
Proof.
  intros Hd Hrun. by rewrite <- restore_doc_cells, <- (restore_layout_decoded data doc w Hd).
Qed.

(** X6: a [restore_layout] that returns has applied the document: every
    entry of the Keymap whose triple is an index of the array now holds
    the value of the array at that index, every other entry holds what it
    held, and no entry has been created. *)
Theorem restore_applies_document `{Env} (w w' : World) (data : bytes) (doc : SavedLayout) :
  json_loads data = Some doc ->
  restore_layout data w = (Ok tt, w') ->
  (forall l r c v,
     (l, r, c, v) ∈ doc_cells doc -> is_Some (layout (self w) !! (l, r, c)) ->
     layout (self w') !! (l, r, c) = Some v) /\
  (forall key,
     (forall v, (key, v) ∉ doc_cells doc) ->
     layout (self w') !! key = layout (self w) !! key) /\
  (forall key, layout (self w) !! key = None -> layout (self w') !! key = None).
Proof.
  intros Hd Hrun.
  pose proof (restore_layout_shape data w) as Hshape. rewrite Hrun in Hshape.
  destruct Hshape as (_ & _ & _ & _ & _ & _ & _ & Hdom). simpl in Hdom.
  apply (restore_layout_ok_cells data doc) in Hrun; [|done].
  apply restore_cells_ok in Hrun as (Hset & Hkeep & _); [|apply NoDup_doc_triples].
  split; [intros l r c v; apply Hset|]. split.
  - intros key Hnot. apply Hkeep. intros ([key' v] & -> & Hin)%list_elem_of_fmap.
    by apply (Hnot v).
  - intros key Hnone. apply not_elem_of_dom. rewrite Hdom. by apply not_elem_of_dom.
Qed.

Lemma restore_applies_document_witness :
  (json_loads (json_dumps doc_foreign) = Some doc_foreign /\
   (restore_layout (json_dumps doc_foreign) w_loaded).1 = Ok tt /\
   (0, 1, 0, 21) ∈ doc_cells doc_foreign /\
   layout (self w_loaded) !! (0, 1, 0) = Some 20) /\
  layout (self (restore_layout (json_dumps doc_foreign) w_loaded).2) !! (0, 1, 0) = Some 21 /\
  layout (self (restore_layout (json_dumps doc_foreign) w_loaded).2) !! (0, 0, 1) = None.
Proof.
  assert (Hd : json_loads (json_dumps doc_foreign) = Some doc_foreign)
    by (vm_compute; reflexivity).
  assert (Hrun : (restore_layout (json_dumps doc_foreign) w_loaded).1 = Ok tt)
    by (vm_compute; reflexivity).
  assert (Hin : (0, 1, 0, 21) ∈ doc_cells doc_foreign).
  { vm_compute. right. right. left. }
  assert (Hk : layout (self w_loaded) !! (0, 1, 0) = Some 20) by (vm_compute; reflexivity).
  split; [by repeat split|].
  destruct (restore_applies_document w_loaded
              (restore_layout (json_dumps doc_foreign) w_loaded).2
              (json_dumps doc_foreign) doc_foreign Hd) as (Hset & _ & Hnone).
  { rewrite <- Hrun. apply surjective_pairing. }
  split; [apply Hset; [exact Hin | rewrite Hk; eauto]|].
  apply Hnone. vm_compute. reflexivity.
Defined.

(** X7: a [restore_layout] that returns has sent one write request for
    each cell of the document whose triple has an entry with another
    keycode, in the order of the array (layer, then row, then column),
    and no other request. *)
Theorem restore_write_requests `{Env} (w w' : World) (data : bytes) (doc : SavedLayout) :
  json_loads data = Some doc ->
  restore_layout data w = (Ok tt, w') ->
  exists msgs,
    sent w' = sent w ++ msgs /\
    Ok <$> msgs = cell_request <$> filter (cell_differs (layout (self w))) (doc_cells doc) /\
    length msgs = length (filter (cell_differs (layout (self w))) (doc_cells doc)).
Proof.
  intros Hd Hrun.
  apply (restore_layout_ok_cells data doc) in Hrun; [|done].
  apply restore_cells_ok in Hrun as (_ & _ & msgs & Hsent & Hmsgs); [|apply NoDup_doc_triples].
  exists msgs. split; [done|]. split; [done|].
  apply (f_equal length) in Hmsgs. by rewrite !length_fmap in Hmsgs.
Qed.

Lemma restore_write_requests_witness :
  (json_loads (json_dumps doc_foreign) = Some doc_foreign /\
   (restore_layout (json_dumps doc_foreign) w_loaded).1 = Ok tt /\
   filter (cell_differs (layout (self w_loaded))) (doc_cells doc_foreign) = [(0, 1, 0, 21)]) /\
  exists msgs,
    sent (restore_layout (json_dumps doc_foreign) w_loaded).2 = sent w_loaded ++ msgs /\
    Ok <$> msgs =
      cell_request <$>
        filter (cell_differs (layout (self w_loaded))) (doc_cells doc_foreign) /\
    length msgs =
      length (filter (cell_differs (layout (self w_loaded))) (doc_cells doc_foreign)).
Proof.
  assert (Hd : json_loads (json_dumps doc_foreign) = Some doc_foreign)
    by (vm_compute; reflexivity).
  assert (Hrun : (restore_layout (json_dumps doc_foreign) w_loaded).1 = Ok tt)
    by (vm_compute; reflexivity).
  split; [split; [exact Hd | split; [exact Hrun | vm_compute; reflexivity]]|].
  apply (restore_write_requests w_loaded _ (json_dumps doc_foreign) doc_foreign Hd).
  rewrite <- Hrun. apply surjective_pairing.
Defined.

(** X8: [restore_layout] is idempotent: after a restore that returned,
    restoring the same bytes again returns, sends nothing and changes
    nothing. *)
Theorem restore_idempotent `{Env} (w w' : World) (data : bytes) (doc : SavedLayout) :
  json_loads data = Some doc ->
  restore_layout data w = (Ok tt, w') ->
  restore_layout data w' = (Ok tt, w').
Proof.
  intros Hd Hrun.
  pose proof (restore_layout_shape data w) as Hshape. rewrite Hrun in Hshape.
  destruct Hshape as (_ & _ & _ & _ & _ & _ & _ & Hdom). simpl in Hdom.
  apply (restore_layout_ok_cells data doc) in Hrun; [|done].
  apply restore_cells_ok in Hrun as (Hset & _ & _); [|apply NoDup_doc_triples].
  rewrite (restore_layout_decoded data doc w' Hd), restore_doc_cells.
  apply for_each_noop. intros [[[l r] c] v] Hin.
  destruct (layout (self w') !! (l, r, c)) as [cur|] eqn:Hk.
  - rewrite restore_cell_known by (rewrite Hk; eauto).
    apply set_key_same. apply Hset; [done|].
    apply elem_of_dom. rewrite <- Hdom. apply elem_of_dom. rewrite Hk. eauto.
  - by apply restore_cell_unknown.
Qed.

Lemma restore_idempotent_witness :
  (json_loads (json_dumps doc_foreign) = Some doc_foreign /\
   (restore_layout (json_dumps doc_foreign) w_loaded).1 = Ok tt /\
   length (sent (restore_layout (json_dumps doc_foreign) w_loaded).2) =
     S (length (sent w_loaded))) /\
  restore_layout (json_dumps doc_foreign)
    (restore_layout (json_dumps doc_foreign) w_loaded).2 =
  (Ok tt, (restore_layout (json_dumps doc_foreign) w_loaded).2).
Proof.
  assert (Hd : json_loads (json_dumps doc_foreign) = Some doc_foreign)
    by (vm_compute; reflexivity).
  assert (Hrun : (restore_layout (json_dumps doc_foreign) w_loaded).1 = Ok tt)
    by (vm_compute; reflexivity).
  split; [split; [exact Hd | split; [exact Hrun | vm_compute; reflexivity]]|].
  apply (restore_idempotent w_loaded _ (json_dumps doc_foreign) doc_foreign Hd).
  rewrite <- Hrun. apply surjective_pairing.
Defined.

(** X9: restore, then save: after a [restore_layout] that returned, the
    array that [save_layout] builds agrees with the restored document at
    every index that lies below the layer count and the matrix dimensions
    and whose triple has an entry in the Keymap. *)
Theorem restore_then_save `{Env} (w w' : World) (data : bytes) (doc : SavedLayout) :
  json_loads data = Some doc ->
  restore_layout data w = (Ok tt, w') ->
  forall (i j n : nat) v,
    doc_at doc i j n = Some v ->
    is_Some (layout (self w) !! (Z.of_nat i, Z.of_nat j, Z.of_nat n)) ->
    Z.of_nat i < layers (self w) ->
    Z.of_nat j < rows (self w) ->
    Z.of_nat n < cols (self w) ->
    doc_at (save_doc (self w')) i j n = Some v.
Proof.
  intros Hd Hrun i j n v Hat Hsome Hi Hj Hn.
  pose proof (restore_layout_shape data w) as Hshape. rewrite Hrun in Hshape.
  destruct Hshape as (_ & Hrows & Hcols & Hlayers & _). simpl in *.
  apply (restore_layout_ok_cells data doc) in Hrun; [|done].
  apply restore_cells_ok in Hrun as (Hset & _ & _); [|apply NoDup_doc_triples].
  rewrite save_doc_at, Hrows, Hcols, Hlayers. case_decide; [|lia].
  rewrite (Hset (Z.of_nat i, Z.of_nat j, Z.of_nat n) v); [done | | done].
  apply elem_of_doc_cells. eauto 10.
Qed.

Lemma restore_then_save_witness :
  (json_loads (json_dumps doc_foreign) = Some doc_foreign /\
   (restore_layout (json_dumps doc_foreign) w_loaded).1 = Ok tt /\
   doc_at doc_foreign 0 1 0 = Some 21) /\
  doc_at (save_doc (self (restore_layout (json_dumps doc_foreign) w_loaded).2)) 0 1 0 =
    Some 21 /\
  doc_layout (save_doc (self (restore_layout (json_dumps doc_foreign) w_loaded).2)) =
    [[[10]; [21]]].
Proof.
  assert (Hd : json_loads (json_dumps doc_foreign) = Some doc_foreign)
    by (vm_compute; reflexivity).
  assert (Hrun : (restore_layout (json_dumps doc_foreign) w_loaded).1 = Ok tt)
    by (vm_compute; reflexivity).
  split; [split; [exact Hd | split; [exact Hrun | reflexivity]]|].
  split; [|vm_compute; reflexivity].
  apply (restore_then_save w_loaded _ (json_dumps doc_foreign) doc_foreign Hd).
  - rewrite <- Hrun. apply surjective_pairing.
  - reflexivity.
  - vm_compute. eexists. reflexivity.
  - vm_compute. reflexivity.
  - vm_compute. reflexivity.
  - vm_compute. reflexivity.
Defined.


(** ** The keymap fetch *)

Lemma get_request_inv layer row col msg :
  get_request layer row col = Ok msg ->
  (0 <= layer <= 255 /\ 0 <= row <= 255 /\ 0 <= col <= 255) /\
  msg = [byte_of_Z 4; byte_of_Z layer; byte_of_Z row; byte_of_Z col].
Proof.
  unfold get_request, pack_B, CMD_VIA_GET_KEYCODE.
  repeat case_decide; simpl; intros Heq; try discriminate.
  injection Heq as <-. done.
Qed.

Lemma get_request_raise layer row col e :
  get_request layer row col = Raise e -> e = StructError.
Proof.
  unfold get_request, pack_B, CMD_VIA_GET_KEYCODE.
  repeat case_decide; simpl; intros Heq; try discriminate; by injection Heq.
Qed.

Lemma get_request_bad layer row col :
  ~ (0 <= layer <= 255 /\ 0 <= row <= 255 /\ 0 <= col <= 255) ->
  get_request layer row col = Raise StructError.
Proof.
  intros Hbad. destruct (get_request layer row col) as [msg|e] eqn:Hreq.
  - apply get_request_inv in Hreq as [Hr _]. done.
  - by rewrite (get_request_raise _ _ _ _ Hreq).
Qed.

Lemma unpack_H_be_range b v : unpack_H_be b = Ok v -> 0 <= v <= 65535.
Proof.
  unfold unpack_H_be. case_decide as Hlen; [|discriminate]. intros [= <-].
  destruct b as [|b0 [|b1 [|b2 b]]]; try discriminate.
  unfold be_value. simpl.
  pose proof (Z_of_byte_range b0). pose proof (Z_of_byte_range b1). lia.
Qed.

Lemma same_but_keymap_refl k : same_but_keymap k k.
Proof. by repeat split. Qed.

Lemma same_but_keymap_trans k1 k2 k3 :
  same_but_keymap k1 k2 -> same_but_keymap k2 k3 -> same_but_keymap k1 k3.
Proof.
  intros (A1 & A2 & A3 & A4 & A5 & A6 & A7) (B1 & B2 & B3 & B4 & B5 & B6 & B7).
  unfold same_but_keymap. rewrite B1, B2, B3, B4, B5, B6, B7. done.
Qed.

Lemma length_keymap_keys ls rc :
  length (keymap_keys ls rc) = (length ls * length rc)%nat.
Proof.
  unfold keymap_keys. induction ls as [|l ls IH]; [done|].
  rewrite bind_cons, length_app, length_fmap, IH. simpl. lia.
Qed.

Lemma elem_of_keymap_keys ls rc l r c :
  (l, r, c) ∈ keymap_keys ls rc <-> l ∈ ls /\ (r, c) ∈ rc.
Proof.
  unfold keymap_keys. rewrite list_elem_of_bind. split.
  - intros (l' & Hin & Hl). apply list_elem_of_fmap in Hin as ([r' c'] & [= -> -> ->] & Hrc).
    done.
  - intros [Hl Hrc]. exists l. split; [|done].
    apply list_elem_of_fmap. by exists (r, c).
Qed.

Section Keymap.
Context `{Env}.

Lemma bind_ok {A B} (m : M A) (k : A -> M B) w b w' :
  bind m k w = (Ok b, w') ->
  exists a w1, m w = (Ok a, w1) /\ k a w1 = (Ok b, w').
Proof.
  unfold bind. destruct (m w) as [[a|e] w1]; [eauto | discriminate].
Qed.

Lemma for_each_cons {A} (x : A) xs (body : A -> M unit) w :
  for_each (x :: xs) body w = (body x ;; for_each xs body) w.
Proof. reflexivity. Qed.

(** One exchange of the keymap fetch: it raises and leaves the session
    object alone, or it stores the keycode decoded from the response. *)
Lemma keymap_step_cases layer row col w :
  (exists e, (keymap_step layer (row, col) w).1 = Raise e /\
             self (keymap_step layer (row, col) w).2 = self w) \/
  exists msg data keycode,
    get_request layer row col = Ok msg /\
    (usb_send (device w) msg).2 = Some data /\
    unpack_H_be (slice 4 6 data) = Ok keycode /\
    keymap_step layer (row, col) w =
      (Ok tt,
       mkWorld _ (set_layout (<[(layer, row, col) := keycode]> (layout (self w))) (self w))
               (usb_send (device w) msg).1 (sent w ++ [msg])).
Proof.
  unfold keymap_step, bind, lift. fold (get_request layer row col).
  destruct (get_request layer row col) as [msg|e] eqn:Hreq; [|left; eauto].
  unfold send. destruct (usb_send (device w) msg) as [d [data|]] eqn:Hsend;
    [|left; eauto].
  simpl. destruct (unpack_H_be (slice 4 6 data)) as [keycode|e] eqn:Hun; [|left; eauto].
  right. exists msg, data, keycode. rewrite Hsend. done.
Qed.

Lemma keymap_inner_ok layer rc : forall w w',
  for_each rc (keymap_step layer) w = (Ok tt, w') ->
  same_but_keymap (self w) (self w') /\
  (exists msgs, sent w' = sent w ++ msgs /\
     Ok <$> msgs = (fun '(r, c) => get_request layer r c) <$> rc) /\
  dom (layout (self w')) =
    dom (layout (self w)) ∪ list_to_set ((fun '(r, c) => (layer, r, c)) <$> rc).
Proof.
  induction rc as [|[row col] rc IH]; intros w w' Hrun.
  - injection Hrun as <-. split; [apply same_but_keymap_refl|]. split.
    + exists []. by rewrite app_nil_r.
    + simpl. by rewrite (right_id_L ∅ (∪)).
  - rewrite for_each_cons in Hrun. apply bind_ok in Hrun as ([] & w1 & Hstep & Hrest).
    destruct (keymap_step_cases layer row col w)
      as [(e & He & _) | (msg & data & keycode & Hreq & _ & _ & Heq)].
    { rewrite Hstep in He. discriminate. }
    rewrite Heq in Hstep. injection Hstep as <-.
    destruct (IH _ _ Hrest) as (Hsame & (msgs & Hsent & Hmsgs) & Hdom).
    split; [|split].
    + eapply same_but_keymap_trans; [|exact Hsame]. by repeat split.
    + exists (msg :: msgs). split; [rewrite Hsent; simpl; by rewrite <- app_assoc|].
      by rewrite !fmap_cons, Hmsgs, Hreq.
    + rewrite Hdom. simpl. rewrite dom_insert_L.
      rewrite (comm_L (∪) {[(layer, row, col)]} (dom (layout (self w)))).
      by rewrite (assoc_L (∪)).
Qed.

Lemma keymap_outer_ok ls : forall w w',
  for_each ls (fun layer =>
    let* k := get_self in for_each (rowcol k) (keymap_step layer)) w = (Ok tt, w') ->
  same_but_keymap (self w) (self w') /\
  (exists msgs, sent w' = sent w ++ msgs /\
     Ok <$> msgs =
       (fun '(l, r, c) => get_request l r c) <$> keymap_keys ls (rowcol (self w))) /\
  dom (layout (self w')) =
    dom (layout (self w)) ∪ list_to_set (keymap_keys ls (rowcol (self w))).
Proof.
  induction ls as [|layer ls IH]; intros w w' Hrun.
  - injection Hrun as <-. split; [apply same_but_keymap_refl|]. split.
    + exists []. by rewrite app_nil_r.
    + simpl. by rewrite (right_id_L ∅ (∪)).
  - rewrite for_each_cons in Hrun. apply bind_ok in Hrun as ([] & w1 & Hlayer & Hrest).
    change ((let* k := get_self in for_each (rowcol k) (keymap_step layer)) w)
      with (for_each (rowcol (self w)) (keymap_step layer) w) in Hlayer.
    destruct (keymap_inner_ok _ _ _ _ Hlayer) as (Hsame1 & (msgs1 & Hsent1 & Hmsgs1) & Hdom1).
    destruct (IH _ _ Hrest) as (Hsame2 & (msgs2 & Hsent2 & Hmsgs2) & Hdom2).
    assert (Hrc : rowcol (self w1) = rowcol (self w)) by apply Hsame1.
    rewrite Hrc in Hmsgs2, Hdom2.
    split; [|split].
    + by eapply same_but_keymap_trans.
    + exists (msgs1 ++ msgs2). rewrite Hsent2, Hsent1, <- app_assoc. split; [done|].
      unfold keymap_keys. rewrite bind_cons, !fmap_app, Hmsgs1. f_equal.
      * rewrite <- list_fmap_compose. apply list_fmap_ext. by intros _ [r c] _.
      * exact Hmsgs2.
    + rewrite Hdom2, Hdom1. unfold keymap_keys at 2. rewrite bind_cons, list_to_set_app_L.
      by rewrite (assoc_L (∪)).
Qed.

Lemma reload_keymap_ok w w' :
  reload_keymap w = (Ok tt, w') ->
  same_but_keymap (self w) (self w') /\
  (exists msgs, sent w' = sent w ++ msgs /\
     Ok <$> msgs =
       (fun '(l, r, c) => get_request l r c)
         <$> keymap_keys (range (layers (self w))) (rowcol (self w))) /\
  dom (layout (self w')) =
    dom (layout (self w))
      ∪ list_to_set (keymap_keys (range (layers (self w))) (rowcol (self w))).
Proof. apply keymap_outer_ok. Qed.

End Keymap.

Section ReloadSteps.
Context `{Env}.

Lemma reload_layout_stable (Pk : Keyboard -> Prop) sideload_json :
  (forall p i k, Pk k -> Pk (set_identity p i k)) ->
  (forall v k, Pk k -> Pk (set_rows v k)) ->
  (forall v k, Pk k -> Pk (set_cols v k)) ->
  (forall v k, Pk k -> Pk (set_keys v k)) ->
  (forall v k, Pk k -> Pk (set_rowcol v k)) ->
  stable (fun w => Pk (self w)) (reload_layout sideload_json).
Proof.
  intros Hid Hrows Hcols Hkeys Hrc. unfold reload_layout.
  apply stable_bind; [|intros payload; by apply apply_payload_stable].
  destruct sideload_json as [doc|]; [apply (stable_ret Pk) | by apply fetch_payload_stable].
Qed.

Lemma keymap_step_wf layer rc :
  stable (fun w => keymap_wf (layout (self w))) (keymap_step layer rc).
Proof.
  destruct rc as [row col]. intros w Hwf.
  destruct (keymap_step_cases layer row col w)
    as [(e & _ & ->) | (msg & data & keycode & Hreq & _ & Hun & ->)]; [done|].
  simpl. apply get_request_inv in Hreq as [(Hl & Hr & Hc) _].
  apply unpack_H_be_range in Hun.
  intros l r c v Hv.
  destruct (decide ((layer, row, col) = (l, r, c))) as [[= <- <- <-]|Hne].
  - rewrite lookup_insert_eq in Hv. injection Hv as <-. done.
  - rewrite lookup_insert_ne in Hv by done. by eapply Hwf.
Qed.

Lemma reload_keymap_wf :
  stable (fun w => keymap_wf (layout (self w))) reload_keymap.
Proof.
  unfold reload_keymap.
  apply stable_bind; [apply (stable_get_self (fun k => keymap_wf (layout k)))|].
  intros k. apply stable_for_each. intros layer.
  apply stable_bind; [apply (stable_get_self (fun k => keymap_wf (layout k)))|].
  intros k'. apply stable_for_each. intros rc. apply keymap_step_wf.
Qed.

(** The world in which [reload] starts the discovery. *)
Lemma reload_unfold sideload_json w :
  reload sideload_json w =
    (reload_layout sideload_json ;; reload_layers ;; reload_keymap)
      (mkWorld _ (set_layout ∅ (set_rowcol [] (self w))) (device w) (sent w)).
Proof. reflexivity. Qed.

Lemma reload_steps_stable (Pk : Keyboard -> Prop) sideload_json :
  stable (fun w => Pk (self w)) (reload_layout sideload_json) ->
  stable (fun w => Pk (self w)) reload_layers ->
  stable (fun w => Pk (self w)) reload_keymap ->
  forall w, Pk (set_layout ∅ (set_rowcol [] (self w))) ->
            Pk (self (reload sideload_json w).2).
Proof.
  intros H1 H2 H3 w Hw. rewrite reload_unfold.
  apply (stable_bind (fun w => Pk (self w))); [done | | done].
  intros _. apply stable_bind; [done|]. intros _. done.
Qed.

(** A [reload] that returns went through its three steps. *)
Lemma reload_ok sideload_json w w' :
  reload sideload_json w = (Ok tt, w') ->
  exists w1 w2,
    reload_layout sideload_json
      (mkWorld _ (set_layout ∅ (set_rowcol [] (self w))) (device w) (sent w)) = (Ok tt, w1) /\
    reload_layers w1 = (Ok tt, w2) /\
    reload_keymap w2 = (Ok tt, w').
Proof.
  rewrite reload_unfold. intros Hrun.
  apply bind_ok in Hrun as ([] & w1 & H1 & Hrun).
  apply bind_ok in Hrun as ([] & w2 & H2 & H3). eauto.
Qed.

End ReloadSteps.

(** X10: a keymap fetch that returns has issued exactly one read request
    for every layer below the layer count and every coordinate of the
    CoordinateSet, the layers outermost and the coordinates in their
    order of insertion: [layers * len(rowcol)] requests; it has changed
    nothing of the session object but the Keymap. *)
Theorem reload_keymap_requests `{Env} (w w' : World) :
  reload_keymap w = (Ok tt, w') ->
  same_but_keymap (self w) (self w') /\
  exists msgs,
    sent w' = sent w ++ msgs /\
    Ok <$> msgs =
      (fun '(l, r, c) => get_request l r c)
        <$> keymap_keys (range (layers (self w))) (rowcol (self w)) /\
    length msgs = (Z.to_nat (layers (self w)) * length (rowcol (self w)))%nat.
Proof.
  intros Hrun. apply reload_keymap_ok in Hrun as (Hsame & (msgs & Hsent & Hmsgs) & _).
  split; [done|]. exists msgs. split; [done|]. split; [done|].
  apply (f_equal length) in Hmsgs.
  rewrite !length_fmap, length_keymap_keys in Hmsgs. unfold range in Hmsgs.
  by rewrite length_seqZ in Hmsgs.
Qed.

Lemma reload_keymap_requests_witness :
  (reload_keymap w_loaded).1 = Ok tt /\
  keymap_keys (range (layers (self w_loaded))) (rowcol (self w_loaded)) =
    [(0, 0, 0); (0, 1, 0)] /\
  exists msgs,
    sent (reload_keymap w_loaded).2 = sent w_loaded ++ msgs /\
    Ok <$> msgs =
      (fun '(l, r, c) => get_request l r c)
        <$> keymap_keys (range (layers (self w_loaded))) (rowcol (self w_loaded)) /\
    length msgs = (Z.to_nat (layers (self w_loaded)) * length (rowcol (self w_loaded)))%nat.
Proof.
  assert (Hrun : (reload_keymap w_loaded).1 = Ok tt) by (vm_compute; reflexivity).
  split; [exact Hrun|]. split; [vm_compute; reflexivity|].
  apply (reload_keymap_requests w_loaded (reload_keymap w_loaded).2).
  rewrite <- Hrun. apply surjective_pairing.
Defined.

(** X11: after a [reload], on either path and whether it returned or
    raised, every key of the Keymap fits the byte fields of the requests
    and every value is a 16-bit keycode. *)
Theorem reload_keymap_well_formed `{Env} (w : World) (sideload_json : option (Payload KleDoc)) :
  keymap_wf (layout (self (reload sideload_json w).2)).
Proof.
  apply (reload_steps_stable (fun k => keymap_wf (layout k))).
  - apply (reload_layout_stable (fun k => keymap_wf (layout k))); intros; assumption.
  - apply (reload_layers_stable (fun k => keymap_wf (layout k))). intros; assumption.
  - apply reload_keymap_wf.
  - intros l r c v Hv. simpl in Hv. by rewrite lookup_empty in Hv.
Qed.

(** X12: after a [reload] that returned, the Keymap has an entry exactly
    for the triples of a layer below the layer count and a coordinate of
    the CoordinateSet: nothing of an earlier Keymap is left, and no
    coordinate of the layout is missing. *)
Theorem reload_keymap_entries `{Env} (w w' : World) (sideload_json : option (Payload KleDoc)) :
  reload sideload_json w = (Ok tt, w') ->
  forall l r c,
    is_Some (layout (self w') !! (l, r, c)) <->
    0 <= l < layers (self w') /\ (r, c) ∈ rowcol (self w').
Proof.
  intros Hrun l r c. apply reload_ok in Hrun as (w1 & w2 & H1 & H2 & H3).
  assert (Hempty : layout (self w2) = ∅).
  { assert (Hl1 : stable (fun w => layout (self w) = ∅) (reload_layout sideload_json)).
    { apply (reload_layout_stable (fun k => layout k = ∅)); intros; assumption. }
    assert (Hl2 : stable (fun w => layout (self w) = ∅) reload_layers).
    { apply (reload_layers_stable (fun k => layout k = ∅)). intros; assumption. }
    assert (H1' : layout (self w1) = ∅).
    { change w1 with (Ok tt, w1).2. rewrite <- H1. by apply Hl1. }
    change w2 with (Ok tt, w2).2. rewrite <- H2. by apply Hl2. }
  apply reload_keymap_ok in H3 as ((Hrc & _ & _ & Hlayers & _) & _ & Hdom).
  rewrite <- elem_of_dom, Hdom, Hempty, dom_empty_L, (left_id_L ∅ (∪)).
  rewrite elem_of_list_to_set, elem_of_keymap_keys, Hrc, Hlayers.
  unfold range. rewrite elem_of_seqZ. split; intros [? ?]; split; (lia || done).
Qed.

Lemma reload_keymap_entries_witness :
  (reload None w_fresh).1 = Ok tt /\
  forall l r c,
    is_Some (layout (self w_loaded) !! (l, r, c)) <->
    0 <= l < layers (self w_loaded) /\ (r, c) ∈ rowcol (self w_loaded).
Proof.
  assert (Hrun : (reload None w_fresh).1 = Ok tt) by (vm_compute; reflexivity).
  split; [exact Hrun|].
  apply (reload_keymap_entries w_fresh w_loaded None).
  unfold w_loaded. rewrite <- Hrun. apply surjective_pairing.
Defined.

(** X13: a coordinate that does not fit the byte fields of a read request
    (a row or a column below 0 or above 255, which the parsing of the
    labels lets through) makes the keymap fetch raise as soon as the
    keyboard has a layer: the fetch cannot complete. *)
Theorem reload_keymap_bad_coordinate `{Env} (w : World) (r c : Z) :
  (r, c) ∈ rowcol (self w) ->
  ~ (0 <= r <= 255 /\ 0 <= c <= 255) ->
  0 < layers (self w) ->
  exists e, (reload_keymap w).1 = Raise e.
Proof.
  intros Hin Hbad Hlayers.
  destruct (reload_keymap w) as [[[]|e] w'] eqn:Hrun; [|by exists e].
  exfalso. apply reload_keymap_ok in Hrun as (_ & (msgs & _ & Hmsgs) & _).
  assert (Hkey : (0, r, c) ∈ keymap_keys (range (layers (self w))) (rowcol (self w))).
  { apply elem_of_keymap_keys. split; [|done]. unfold range. apply elem_of_seqZ. lia. }
  assert (Hraise : Raise StructError ∈
            (fun '(l, r, c) => get_request l r c)
              <$> keymap_keys (range (layers (self w))) (rowcol (self w))).
  { apply list_elem_of_fmap. exists (0, r, c). split; [|done].
    symmetry. apply get_request_bad. tauto. }
  rewrite <- Hmsgs in Hraise.
  apply list_elem_of_fmap in Hraise as (msg & Hmsg & _). discriminate.
Qed.

Lemma reload_keymap_bad_coordinate_witness :
  ((300, 0) ∈ rowcol (self w_far) /\ layers (self w_far) = 1 /\
   (reload (Some far_doc) w_fresh).1 = Raise StructError) /\
  exists e, (reload_keymap w_far).1 = Raise e.
Proof.
  assert (Hin : (300, 0) ∈ rowcol (self w_far)) by (vm_compute; left).
  assert (Hl : layers (self w_far) = 1) by (vm_compute; reflexivity).
  split; [split; [exact Hin | split; [exact Hl | vm_compute; reflexivity]]|].
  apply (reload_keymap_bad_coordinate w_far 300 0 Hin); [lia | rewrite Hl; lia].
Defined.

(** ** The layer count and the identity *)

Lemma layer_count_request_ok : layer_count_request = Ok [byte_of_Z 0x11].
Proof. reflexivity. Qed.

Lemma identity_request_ok : identity_request = Ok [byte_of_Z 0xFE; byte_of_Z 0x00].
Proof. reflexivity. Qed.

Lemma le_value_range bs : 0 <= le_value bs < 256 ^ Z.of_nat (length bs).
Proof.
  induction bs as [|b bs IH]; [simpl; lia|].
  change (le_value (b :: bs)) with (Z_of_byte b + 256 * le_value bs).
  rewrite length_cons, Nat2Z.inj_succ, Z.pow_succ_r by lia.
  pose proof (Z_of_byte_range b). lia.
Qed.

(** A [reload_layers] that returns has stored byte 1 of the response. *)
Lemma reload_layers_ok `{Env} (w w' : World) :
  reload_layers w = (Ok tt, w') ->
  exists data n,
    (usb_send (device w) [byte_of_Z 0x11]).2 = Some data /\
    data !! 1%nat = Some n /\
    self w' = set_layers (Z_of_byte n) (self w).
Proof.
  unfold reload_layers.
  change (pack_all [pack_B CMD_VIA_GET_LAYER_COUNT]) with layer_count_request.
  rewrite layer_count_request_ok. intros Hrun.
  apply bind_ok in Hrun as (msg & w0 & [= <- <-] & Hrun).
  apply bind_ok in Hrun as (data & w1 & Hsend & Hrun).
  apply bind_ok in Hrun as (n & w2 & Hn & Hrun).
  exists data, n. unfold send in Hsend.
  destruct (usb_send (device w) [byte_of_Z 17]) as [d [data'|]]; [|discriminate].
  injection Hsend as <- <-.
  destruct (data' !! 1%nat) as [n'|]; [|discriminate].
  injection Hn as <- <-. injection Hrun as <-. done.
Qed.

(** X14: [reload_layers] sends the one-byte request [0x11] and nothing
    else.  When it returns, the layer count is the second byte of the
    response, a value from 0 to 255, and no other field has changed;
    when it raises (the transport failed, or the response has fewer than
    two bytes) the session object is as before. *)
Theorem reload_layers_effect `{Env} (w : World) :
  sent (reload_layers w).2 = sent w ++ [[byte_of_Z 0x11]] /\
  match (reload_layers w).1 with
  | Ok _ =>
      exists data n,
        (usb_send (device w) [byte_of_Z 0x11]).2 = Some data /\
        data !! 1%nat = Some n /\
        self (reload_layers w).2 = set_layers (Z_of_byte n) (self w) /\
        0 <= layers (self (reload_layers w).2) <= 255
  | Raise e =>
      (e = TransportError \/ e = IndexError) /\ self (reload_layers w).2 = self w
  end.
Proof.
  unfold reload_layers.
  change (pack_all [pack_B CMD_VIA_GET_LAYER_COUNT]) with layer_count_request.
  rewrite layer_count_request_ok. unfold bind, lift, send.
  destruct (usb_send (device w) [byte_of_Z 17]) as [d [data|]]; simpl; [|by auto].
  destruct (data !! 1%nat) as [n|] eqn:Hn; simpl; [|by auto].
  split; [done|]. exists data, n. do 3 (split; [done|]). apply Z_of_byte_range.
Qed.

Section Identity.
Context `{Env}.

Lemma unpack_IQ_le_inv data p i :
  unpack_IQ_le (slice 0 12 data) = Ok (p, i) ->
  (12 <= length data)%nat /\
  p = le_value (slice 0 4 data) /\ i = le_value (slice 4 12 data) /\
  0 <= p < 2 ^ 32 /\ 0 <= i < 2 ^ 64.
Proof.
  unfold unpack_IQ_le, slice. rewrite !drop_0.
  change (12 - 0)%nat with 12%nat. change (4 - 0)%nat with 4%nat.
  change (12 - 4)%nat with 8%nat.
  case_decide as Hlen; [|discriminate].
  intros [= <- <-]. rewrite length_take in Hlen.
  assert (Hp : take 4 (take 12 data) = take 4 data) by (rewrite take_take; f_equal).
  assert (Hi : drop 4 (take 12 data) = take 8 (drop 4 data))
    by (by rewrite take_drop_commute).
  rewrite Hp, Hi. split; [lia|]. do 2 (split; [done|]). split.
  - pose proof (le_value_range (take 4 data)) as Hr.
    rewrite length_take in Hr. replace (4 `min` length data)%nat with 4%nat in Hr by lia.
    exact Hr.
  - pose proof (le_value_range (take 8 (drop 4 data))) as Hr.
    rewrite length_take, length_drop in Hr.
    replace (8 `min` (length data - 4))%nat with 8%nat in Hr by lia.
    exact Hr.
Qed.

(** The live path from its first exchange on. *)
Lemma fetch_payload_identity w payload w' :
  fetch_payload w = (Ok payload, w') ->
  exists data,
    (usb_send (device w) [byte_of_Z 0xFE; byte_of_Z 0x00]).2 = Some data /\
    (12 <= length data)%nat /\
    vial_protocol (self w') = le_value (slice 0 4 data) /\
    keyboard_id (self w') = le_value (slice 4 12 data) /\
    0 <= vial_protocol (self w') < 2 ^ 32 /\
    0 <= keyboard_id (self w') < 2 ^ 64.
Proof.
  unfold fetch_payload.
  change (pack_all [pack_B CMD_VIA_VIAL_PREFIX; pack_B CMD_VIAL_GET_KEYBOARD_ID])
    with identity_request.
  rewrite identity_request_ok. intros Hrun.
  apply bind_ok in Hrun as (msg & w0 & [= <- <-] & Hrun).
  apply bind_ok in Hrun as (data & w1 & Hsend & Hrun).
  apply bind_ok in Hrun as ([p i] & w2 & Hun & Hrun).
  apply bind_ok in Hrun as ([] & w3 & Hmod & Hrun).
  unfold lift in Hun. injection Hun as Hun <-.
  unfold modify_self in Hmod. injection Hmod as <-.
  apply unpack_IQ_le_inv in Hun as (Hlen & Hp & Hi & Hpr & Hir).
  assert (Hdata : (usb_send (device w) [byte_of_Z 254; byte_of_Z 0]).2 = Some data).
  { revert Hsend. unfold send.
    destruct (usb_send (device w) _) as [d [data'|]]; simpl; congruence. }
  exists data. do 2 (split; [done|]).
  match type of Hrun with ?m _ = _ =>
    assert (Hst : stable (fun w => vial_protocol (self w) = p /\ keyboard_id (self w) = i) m)
  end.
  { apply stable_bind; [apply (stable_lift (fun k => vial_protocol k = p /\ keyboard_id k = i))|].
    intros msg2. apply stable_bind;
      [apply (stable_send (fun k => vial_protocol k = p /\ keyboard_id k = i))|].
    intros data2. apply stable_bind;
      [apply (stable_lift (fun k => vial_protocol k = p /\ keyboard_id k = i))|].
    intros sz. apply stable_bind;
      [apply (fetch_chunks_stable (fun k => vial_protocol k = p /\ keyboard_id k = i))|].
    intros payload'.
    apply (stable_lift_opt (fun k => vial_protocol k = p /\ keyboard_id k = i)). }
  match type of Hrun with ?m ?w0 = _ => specialize (Hst w0 ltac:(done)) end.
  rewrite Hrun in Hst. simpl in Hst. destruct Hst as [-> ->]. by subst.
Qed.

End Identity.

(** X15: after a live [reload_layout] that returned, DeviceIdentity is
    what the first twelve bytes of the response to the identity request
    say, read as a little-endian 32-bit protocol version and a
    little-endian 64-bit keyboard id: both are non-negative, so neither
    is the unset sentinel [-1]. *)
Theorem live_identity_decoded `{Env} (w w' : World) :
  reload_layout None w = (Ok tt, w') ->
  exists data,
    (usb_send (device w) [byte_of_Z 0xFE; byte_of_Z 0x00]).2 = Some data /\
    (12 <= length data)%nat /\
    vial_protocol (self w') = le_value (slice 0 4 data) /\
    keyboard_id (self w') = le_value (slice 4 12 data) /\
    0 <= vial_protocol (self w') < 2 ^ 32 /\
    0 <= keyboard_id (self w') < 2 ^ 64.
Proof.
  unfold reload_layout. intros Hrun.
  apply bind_ok in Hrun as (payload & w1 & Hfetch & Happly).
  apply apply_payload_ok in Happly as (r & c & doc & ks & _ & _ & _ & _ & _ & _ & Hself).
  apply fetch_payload_identity in Hfetch as (data & Hdata & Hlen & Hp & Hi & Hpr & Hir).
  exists data. rewrite Hself. simpl. done.
Qed.

Lemma live_identity_decoded_witness :
  (reload_layout None w_fresh).1 = Ok tt /\
  exists data,
    (usb_send (device w_fresh) [byte_of_Z 0xFE; byte_of_Z 0x00]).2 = Some data /\
    (12 <= length data)%nat /\
    vial_protocol (self (reload_layout None w_fresh).2) = le_value (slice 0 4 data) /\
    keyboard_id (self (reload_layout None w_fresh).2) = le_value (slice 4 12 data) /\
    0 <= vial_protocol (self (reload_layout None w_fresh).2) < 2 ^ 32 /\
    0 <= keyboard_id (self (reload_layout None w_fresh).2) < 2 ^ 64.
Proof.
  assert (Hrun : (reload_layout None w_fresh).1 = Ok tt) by (vm_compute; reflexivity).
  split; [exact Hrun|].
  apply (live_identity_decoded w_fresh (reload_layout None w_fresh).2).
  rewrite <- Hrun. apply surjective_pairing.
Defined.

(** X16: when the response to the identity request has fewer than twelve
    bytes, the live discovery raises [struct.error] after that one
    request, with the session object as it was; through [reload], the
    CoordinateSet and the Keymap have been emptied and nothing else has
    changed. *)
Theorem short_identity_response `{Env} (w : World) (data : bytes) :
  (usb_send (device w) [byte_of_Z 0xFE; byte_of_Z 0x00]).2 = Some data ->
  (length data < 12)%nat ->
  (reload_layout None w).1 = Raise StructError /\
  self (reload_layout None w).2 = self w /\
  sent (reload_layout None w).2 = sent w ++ [[byte_of_Z 0xFE; byte_of_Z 0x00]] /\
  (reload None w).1 = Raise StructError /\
  self (reload None w).2 = set_layout ∅ (set_rowcol [] (self w)) /\
  sent (reload None w).2 = sent w ++ [[byte_of_Z 0xFE; byte_of_Z 0x00]].
Proof.
  intros Hdata Hlen.
  assert (Hun : unpack_IQ_le (slice 0 12 data) = Raise StructError).
  { unfold unpack_IQ_le, slice. case_decide as Hl; [|done].
    rewrite length_take, length_drop in Hl. lia. }
  assert (Hgen : forall w0, device w0 = device w ->
            reload_layout None w0 =
              (Raise StructError,
               mkWorld _ (self w0) (usb_send (device w) [byte_of_Z 0xFE; byte_of_Z 0x00]).1
                       (sent w0 ++ [[byte_of_Z 0xFE; byte_of_Z 0x00]]))).
  { intros w0 Hd. unfold reload_layout, fetch_payload.
    change (pack_all [pack_B CMD_VIA_VIAL_PREFIX; pack_B CMD_VIAL_GET_KEYBOARD_ID])
      with identity_request.
    rewrite identity_request_ok. unfold bind at 1 2. unfold lift at 1.
    unfold bind at 1. rewrite (send_ok w0 _ data) by (by rewrite Hd).
    unfold bind at 1. unfold lift at 1. rewrite Hun, Hd. reflexivity. }
  rewrite (Hgen w eq_refl). do 3 (split; [done|]).
  assert (Hr : reload None w =
            (Raise StructError,
             mkWorld _ (set_layout ∅ (set_rowcol [] (self w)))
                     (usb_send (device w) [byte_of_Z 0xFE; byte_of_Z 0x00]).1
                     (sent w ++ [[byte_of_Z 0xFE; byte_of_Z 0x00]]))).
  { rewrite reload_unfold. unfold bind at 1. rewrite Hgen by done. reflexivity. }
  rewrite Hr. done.
Qed.

Lemma short_identity_response_witness :
  (reload_layout None w_mute).1 = Raise StructError /\
  self (reload_layout None w_mute).2 = self w_mute /\
  sent (reload_layout None w_mute).2 = sent w_mute ++ [[byte_of_Z 0xFE; byte_of_Z 0x00]] /\
  (reload None w_mute).1 = Raise StructError /\
  self (reload None w_mute).2 = set_layout ∅ (set_rowcol [] (self w_mute)) /\
  sent (reload None w_mute).2 = sent w_mute ++ [[byte_of_Z 0xFE; byte_of_Z 0x00]].
Proof.
  apply (@short_identity_response mute_env w_mute []); [reflexivity | simpl; lia].
Defined.

(** ** Exchanges with the device *)

Section Quiet.
Context `{Env}.

Lemma quiet_bind {A B} (m : M A) (k : A -> M B) :
  quiet m -> (forall a, quiet (k a)) -> quiet (bind m k).
Proof.
  intros Hm Hk w. unfold bind. specialize (Hm w).
  destruct (m w) as [[a|e] w1]; simpl in *; [|done].
  destruct (Hk a w1) as [-> ->]. done.
Qed.

Lemma quiet_pure {A} (m : M A) : (forall w, (m w).2 = w) -> quiet m.
Proof. intros Hm w. by rewrite Hm. Qed.

Lemma quiet_modify_self f : quiet (modify_self f).
Proof. by intros w. Qed.

Lemma quiet_lift {A} (r : result A) : quiet (lift r).
Proof. by apply quiet_pure. Qed.

Lemma quiet_lift_opt {A} e (o : option A) : quiet (lift_opt e o).
Proof. apply quiet_pure. by destruct o. Qed.

Lemma quiet_for_each {A} (xs : list A) (body : A -> M unit) :
  (forall x, quiet (body x)) -> quiet (for_each xs body).
Proof.
  intros Hbody. induction xs as [|x xs IH]; [by intros w|].
  simpl. apply quiet_bind; [apply Hbody | intros _; apply IH].
Qed.

Lemma reload_key_quiet i key : quiet (reload_key i key).
Proof.
  unfold reload_key.
  apply quiet_bind; [apply quiet_modify_self|]. intros _.
  apply quiet_bind; [apply quiet_lift_opt|]. intros l0.
  apply quiet_bind; [apply quiet_lift|]. intros [[row col]|]; [|by apply quiet_pure].
  apply quiet_bind; [apply quiet_modify_self|]. intros _. apply quiet_modify_self.
Qed.

Lemma apply_payload_quiet payload : quiet (apply_payload payload).
Proof.
  unfold apply_payload, reload_keys.
  apply quiet_bind; [apply quiet_lift_opt|]. intros r.
  apply quiet_bind; [apply quiet_modify_self|]. intros _.
  apply quiet_bind; [apply quiet_lift_opt|]. intros c.
  apply quiet_bind; [apply quiet_modify_self|]. intros _.
  apply quiet_bind; [apply quiet_lift_opt|]. intros doc.
  apply quiet_bind; [apply quiet_lift_opt|]. intros ks.
  apply quiet_bind; [apply quiet_modify_self|]. intros _.
  apply quiet_for_each. intros [i key]. apply reload_key_quiet.
Qed.

Lemma sideload_quiet doc : quiet (reload_layout (Some doc)).
Proof.
  unfold reload_layout. apply quiet_bind; [by apply quiet_pure|].
  intros payload. apply apply_payload_quiet.
Qed.

Variable s0 : list bytes.
Variable Q : bytes -> Prop.

Lemma since_quiet {A} (m : M A) : quiet m -> stable (sent_since s0 Q) m.
Proof.
  intros Hm w (msgs & Hs & HQ). exists msgs. by rewrite (proj1 (Hm w)).
Qed.

Lemma since_send msg : Q msg -> stable (sent_since s0 Q) (send msg).
Proof.
  intros Hmsg w (msgs & Hs & HQ). exists (msgs ++ [msg]). split.
  - unfold send. destruct (usb_send (device w) msg) as [d [data|]]; simpl;
      by rewrite Hs, app_assoc.
  - apply Forall_app. split; [done|]. by apply Forall_singleton.
Qed.

Lemma stable_bind_lift {A B} P (r : result A) (k : A -> M B) :
  (forall a, r = Ok a -> stable P (k a)) -> stable P (bind (lift r) k).
Proof.
  intros Hk w Hw. unfold bind, lift. destruct r as [a|e]; [by apply Hk | done].
Qed.

Lemma reload_layers_since :
  Q [byte_of_Z 0x11] -> stable (sent_since s0 Q) reload_layers.
Proof.
  intros HQ. unfold reload_layers. apply stable_bind_lift. intros msg [= <-].
  apply stable_bind; [by apply since_send|]. intros data.
  apply stable_bind; [apply since_quiet, quiet_lift_opt|]. intros n.
  apply since_quiet, quiet_modify_self.
Qed.

Lemma reload_keymap_since :
  (forall l r c, Q [byte_of_Z 4; byte_of_Z l; byte_of_Z r; byte_of_Z c]) ->
  stable (sent_since s0 Q) reload_keymap.
Proof.
  intros HQ. unfold reload_keymap.
  apply stable_bind; [by apply since_quiet, quiet_pure|]. intros k.
  apply stable_for_each. intros layer.
  apply stable_bind; [by apply since_quiet, quiet_pure|]. intros k'.
  apply stable_for_each. intros [row col].
  apply stable_bind_lift. intros msg Hmsg.
  apply (get_request_inv layer row col) in Hmsg as [_ ->].
  apply stable_bind; [by apply since_send|]. intros data.
  apply stable_bind; [apply since_quiet, quiet_lift|]. intros keycode.
  apply since_quiet, quiet_modify_self.
Qed.

End Quiet.

(** X17: a discovery through the sideload path does no exchange with the
    device in [reload_layout], whether it returns or raises: no request
    is sent and the device is as before.  A whole [reload] on that path
    sends nothing but the layer-count request and keycode read requests,
    never a request of the definition protocol (prefix [0xFE]). *)
Theorem sideload_sends_nothing `{Env} (w : World) (doc : Payload KleDoc) :
  (sent (reload_layout (Some doc) w).2 = sent w /\
   device (reload_layout (Some doc) w).2 = device w) /\
  exists msgs,
    sent (reload (Some doc) w).2 = sent w ++ msgs /\
    Forall (fun msg => command_of msg = Some 0x11 \/ command_of msg = Some 0x04) msgs.
Proof.
  split; [apply sideload_quiet|].
  set (Q := fun msg => command_of msg = Some 0x11 \/ command_of msg = Some 0x04).
  assert (Hst : stable (sent_since (sent w) Q) (reload (Some doc))).
  { unfold reload.
    apply stable_bind; [apply since_quiet, quiet_modify_self|]. intros _.
    apply stable_bind; [apply since_quiet, quiet_modify_self|]. intros _.
    apply stable_bind; [apply since_quiet, sideload_quiet|]. intros _.
    apply stable_bind; [apply reload_layers_since; by left|]. intros _.
    apply reload_keymap_since. intros l r c. by right. }
  apply Hst. exists []. by rewrite app_nil_r.
Qed.

(** ** The geometry is written before the key records are read *)

(** X18: in [reload_layout], the matrix dimensions of the layout document
    are stored before the key records are deserialized and parsed: once
    the document has given its rows and cols, the session has them,
    whether the rest of the discovery returns or raises.  A document
    without the keymap entry makes the discovery raise [KeyError] with
    the new dimensions stored next to the former key records and
    coordinates. *)
Theorem geometry_committed_first `{Env} (w : World) (payload : Payload KleDoc) (r c : Z) :
  matrix_rows payload = Some r ->
  matrix_cols payload = Some c ->
  (rows (self (reload_layout (Some payload) w).2) = r /\
   cols (self (reload_layout (Some payload) w).2) = c) /\
  (layouts_keymap payload = None ->
   reload_layout (Some payload) w =
     (Raise KeyError, mkWorld _ (set_cols c (set_rows r (self w))) (device w) (sent w))).
Proof.
  intros Hr Hc.
  set (rest := (let* doc := lift_opt KeyError (layouts_keymap payload) in
                let* ks := lift_opt DeserializeError (deserialize doc) in
                modify_self (set_keys ks) ;; reload_keys ks) : M unit).
  assert (Heq : reload_layout (Some payload) w =
                rest (mkWorld _ (set_cols c (set_rows r (self w))) (device w) (sent w))).
  { unfold reload_layout, apply_payload. unfold bind at 1 2 3 4 5. unfold ret at 1.
    rewrite Hr, Hc. reflexivity. }
  rewrite Heq. split.
  - assert (Hst : stable (fun w => rows (self w) = r /\ cols (self w) = c) rest).
    { unfold rest, reload_keys.
      apply stable_bind;
        [apply (stable_lift_opt (fun k => rows k = r /\ cols k = c))|]. intros doc.
      apply stable_bind;
        [apply (stable_lift_opt (fun k => rows k = r /\ cols k = c))|]. intros ks.
      apply stable_bind;
        [by apply (stable_modify_self (fun k => rows k = r /\ cols k = c))|]. intros _.
      apply stable_for_each. intros [i key].
      by apply (reload_key_stable (fun k => rows k = r /\ cols k = c)). }
    by apply Hst.
  - intros Hk. unfold rest, bind. rewrite Hk. reflexivity.
Qed.

Lemma geometry_committed_first_witness :
  (rows (self w_loaded) = 2 /\ cols (self w_loaded) = 1) /\
  (rows (self (reload_layout (Some no_keymap_doc) w_loaded).2) = 5 /\
   cols (self (reload_layout (Some no_keymap_doc) w_loaded).2) = 7) /\
  (layouts_keymap no_keymap_doc = None ->
   reload_layout (Some no_keymap_doc) w_loaded =
     (Raise KeyError,
      mkWorld _ (set_cols 7 (set_rows 5 (self w_loaded))) (device w_loaded) (sent w_loaded))).
Proof.
  split; [split; vm_compute; reflexivity|].
  apply (geometry_committed_first w_loaded no_keymap_doc 5 7); reflexivity.
Defined.

(** ** Commas of a label *)

Lemma length_split_comma_aux cur s :
  length (split_comma_aux cur s) = S (count_commas s).
Proof.
  revert cur. induction s as [|c s IH]; intros cur; simpl; [done|].
  destruct (Ascii.eqb c ","%char); simpl; by rewrite IH.
Qed.

Lemma has_comma_count s : has_comma s = true <-> (0 < count_commas s)%nat.
Proof.
  induction s as [|c s IH]; simpl; [split; [done | lia]|].
  destruct (Ascii.eqb c ","%char); simpl; [split; [lia | done] | exact IH].
Qed.

(** X19: the parse of a primary label goes by the number of its commas:
    without a comma the key gets no coordinate, with exactly one comma
    the label is parsed (and may fail at [int]), and with two commas or
    more the unpacking of [split(",")] into two names raises
    [ValueError], whatever the parts are. *)
Theorem label_comma_count (s : string) :
  match label_coordinate (Some s) with
  | Ok None => count_commas s = 0%nat
  | Ok (Some _) => count_commas s = 1%nat
  | Raise e => e = ValueError /\ (1 <= count_commas s)%nat
  end /\
  ((2 <= count_commas s)%nat -> label_coordinate (Some s) = Raise ValueError).
Proof.
  pose proof (length_split_comma_aux EmptyString s) as Hlen.
  fold (split_comma s) in Hlen.
  pose proof (has_comma_count s) as Hc.
  unfold label_coordinate. change (default EmptyString (Some s)) with s.
  destruct (truthy (Some s)) eqn:Ht; simpl andb.
  2:{ destruct s; [|discriminate]. simpl. split; [done | lia]. }
  destruct (has_comma s) eqn:Hh.
  2:{ destruct Hc as [_ Hc]. destruct (count_commas s) as [|n].
      - split; [done | lia].
      - specialize (Hc ltac:(lia)). discriminate. }
  destruct Hc as [Hc _]. specialize (Hc eq_refl).
  destruct (split_comma s) as [|x [|y [|z l]]]; simpl in Hlen.
  - discriminate.
  - lia.
  - assert (Hone : count_commas s = 1%nat) by lia.
    destruct (py_int x), (py_int y); (split; [first [done | split; [done | lia]] | lia]).
  - split; [split; [done | lia] | done].
Qed.

(** ** The shape of the saved document *)

(** X20: the document of [save_layout] is a rectangular array: version 0,
    [layers] layers of [rows] rows of [cols] cells.  When the Keymap is
    well formed (as [reload] leaves it), every cell is a 16-bit keycode
    or [-1], and a cell holds [-1] exactly when its triple has no entry
    in the Keymap: the sentinel cannot be mistaken for a keycode. *)
Theorem save_doc_rectangular (k : Keyboard) :
  doc_version (save_doc k) = 0 /\
  length (doc_layout (save_doc k)) = Z.to_nat (layers k) /\
  Forall (fun layer =>
            length layer = Z.to_nat (rows k) /\
            Forall (fun row => length row = Z.to_nat (cols k)) layer)
         (doc_layout (save_doc k)) /\
  (keymap_wf (layout k) ->
   Forall (Forall (Forall (fun v => -1 <= v <= 65535))) (doc_layout (save_doc k)) /\
   forall i j n : nat,
     doc_at (save_doc k) i j n = Some (-1) <->
     (Z.of_nat i < layers k /\ Z.of_nat j < rows k /\ Z.of_nat n < cols k) /\
     layout k !! (Z.of_nat i, Z.of_nat j, Z.of_nat n) = None).
Proof.
  split; [done|]. split.
  { unfold save_doc, range. simpl. by rewrite length_fmap, length_seqZ. }
  split.
  { unfold save_doc, range. simpl. apply Forall_fmap, Forall_forall. intros l _. simpl.
    split; [by rewrite length_fmap, length_seqZ|].
    apply Forall_fmap, Forall_forall. intros r _. simpl.
    by rewrite length_fmap, length_seqZ. }
  intros Hwf. split.
  - unfold save_doc. simpl.
    apply Forall_fmap, Forall_forall. intros l _. simpl.
    apply Forall_fmap, Forall_forall. intros r _. simpl.
    apply Forall_fmap, Forall_forall. intros c _. simpl.
    destruct (layout k !! (l, r, c)) as [v|] eqn:Hv; simpl; [|lia].
    apply Hwf in Hv. lia.
  - intros i j n. rewrite save_doc_at. case_decide as Hb.
    + destruct (layout k !! (Z.of_nat i, Z.of_nat j, Z.of_nat n)) as [v|] eqn:Hv; simpl.
      * apply Hwf in Hv. split; [intros [= ->]; lia | intros [_ [=]]].
      * done.
    + split; [done | tauto].
Qed.

(** ** The coordinates are distinct *)

Lemma rowcol_setitem_NoDup rc l : NoDup l -> NoDup (rowcol_setitem rc l).
Proof.
  unfold rowcol_setitem. case_decide as Hin; [done|]. intros Hl.
  apply NoDup_app. split; [done|]. split; [|apply NoDup_singleton].
  intros x Hx ->%list_elem_of_singleton. done.
Qed.

Lemma NoDup_keymap_keys ls rc : NoDup ls -> NoDup rc -> NoDup (keymap_keys ls rc).
Proof.
  intros Hls Hrc. unfold keymap_keys. apply NoDup_bind; [| |done].
  - intros l1 l2 [[l r] c] _ _ H1 H2.
    apply list_elem_of_fmap in H1 as ([r1 c1] & [= -> _ _] & _).
    apply list_elem_of_fmap in H2 as ([r2 c2] & [= -> _ _] & _). done.
  - intros l _. apply NoDup_fmap_2; [|done].
    intros [r1 c1] [r2 c2] [= -> ->]. done.
Qed.

Section Coordinates.
Context `{Env} (Pk : Keyboard -> Prop).
Hypothesis Hkeys : forall v k, Pk k -> Pk (set_keys v k).
Hypothesis Hitem : forall rc k, Pk k -> Pk (set_rowcol (rowcol_setitem rc (rowcol k)) k).

Lemma reload_key_keeps i key : stable (fun w => Pk (self w)) (reload_key i key).
Proof.
  unfold reload_key.
  apply stable_bind; [apply stable_modify_self; intros k; apply Hkeys|]. intros _.
  apply stable_bind; [apply (stable_lift_opt Pk)|]. intros l0.
  apply stable_bind; [apply (stable_lift Pk)|]. intros [[row col]|]; [|apply (stable_ret Pk)].
  apply stable_bind; [apply stable_modify_self; intros k; apply Hkeys|]. intros _.
  apply stable_modify_self. intros k. apply Hitem.
Qed.

Lemma reload_layout_keeps sideload_json :
  (forall p i k, Pk k -> Pk (set_identity p i k)) ->
  (forall v k, Pk k -> Pk (set_rows v k)) ->
  (forall v k, Pk k -> Pk (set_cols v k)) ->
  stable (fun w => Pk (self w)) (reload_layout sideload_json).
Proof.
  intros Hid Hrows Hcols. unfold reload_layout.
  apply stable_bind.
  { destruct sideload_json as [doc|]; [apply (stable_ret Pk) | by apply fetch_payload_stable]. }
  intros payload. unfold apply_payload, reload_keys.
  apply stable_bind; [apply (stable_lift_opt Pk)|]. intros r.
  apply stable_bind; [apply stable_modify_self, Hrows|]. intros _.
  apply stable_bind; [apply (stable_lift_opt Pk)|]. intros c.
  apply stable_bind; [apply stable_modify_self, Hcols|]. intros _.
  apply stable_bind; [apply (stable_lift_opt Pk)|]. intros doc.
  apply stable_bind; [apply (stable_lift_opt Pk)|]. intros ks.
  apply stable_bind; [apply stable_modify_self, Hkeys|]. intros _.
  apply stable_for_each. intros [i key]. apply reload_key_keeps.
Qed.

End Coordinates.

(** X21: after a [reload], whether it returned or raised, no coordinate
    occurs twice in the CoordinateSet (labels that give the same
    coordinate are merged), so that the keymap fetch visits no triple
    twice. *)
Theorem reload_coordinates_distinct `{Env} (w : World) (sideload_json : option (Payload KleDoc)) :
  NoDup (rowcol (self (reload sideload_json w).2)) /\
  NoDup (keymap_keys (range (layers (self (reload sideload_json w).2)))
                     (rowcol (self (reload sideload_json w).2))).
Proof.
  assert (Hnd : NoDup (rowcol (self (reload sideload_json w).2))).
  { apply (reload_steps_stable (fun k => NoDup (rowcol k))).
    - apply (reload_layout_keeps (fun k => NoDup (rowcol k))); try (intros; assumption).
      intros rc k Hk. simpl. by apply rowcol_setitem_NoDup.
    - apply (reload_layers_stable (fun k => NoDup (rowcol k))). intros; assumption.
    - apply (reload_keymap_stable (fun k => NoDup (rowcol k))). intros; assumption.
    - simpl. apply NoDup_nil_2. }
  split; [done|]. apply NoDup_keymap_keys; [apply NoDup_seqZ | done].
Qed.

(** ** The exceptions of a restore *)

Section RestoreRaises.
Context `{Env}.

Lemma restore_cell_raise l r c v w e :
  (restore_cell l r c v w).1 = Raise e -> e = StructError \/ e = TransportError.
Proof.
  destruct (layout (self w) !! (l, r, c)) as [cur|] eqn:Hk.
  2:{ by rewrite (restore_cell_unknown _ _ _ _ _ Hk). }
  rewrite restore_cell_known by (rewrite Hk; eauto).
  unfold set_key, bind, get_self. simpl. rewrite Hk. simpl.
  case_decide; [|done]. unfold lift.
  destruct (set_request l r c v) as [msg|e'] eqn:Hreq; simpl.
  - unfold send. destruct (usb_send (device w) msg) as [d [data|]]; simpl; [done|].
    intros [= <-]. by right.
  - intros [= <-]. left. by apply set_request_raise in Hreq.
Qed.

Lemma restore_cells_raise cells w e :
  (for_each cells (fun '(l, r, c, col) => restore_cell l r c col) w).1 = Raise e ->
  e = StructError \/ e = TransportError.
Proof.
  revert w. induction cells as [|[[[l r] c] v] cells IH]; intros w; [done|].
  rewrite for_each_cons. unfold bind.
  destruct (restore_cell l r c v w) as [[[]|e'] w1] eqn:Hcell; simpl.
  - apply IH.
  - intros [= <-]. apply (restore_cell_raise l r c v w). by rewrite Hcell.
Qed.

End RestoreRaises.

(** X22: on a document of the save format, [restore_layout] raises
    nothing but [struct.error] (a value that does not fit its field of
    the write request) and the errors of the transport: the test
    [in self.layout] keeps the [KeyError] of [set_key] away. *)
Theorem restore_raises_only `{Env} (w : World) (data : bytes) (doc : SavedLayout) (e : exn) :
  json_loads data = Some doc ->
  (restore_layout data w).1 = Raise e ->
  e = StructError \/ e = TransportError.
Proof.
  intros Hd. rewrite (restore_layout_decoded data doc w Hd), restore_doc_cells.
  apply restore_cells_raise.
Qed.

Lemma restore_raises_only_witness :
  (json_loads (json_dumps doc_sentinel) = Some doc_sentinel /\
   (restore_layout (json_dumps doc_sentinel) w_loaded).1 = Raise StructError) /\
  (StructError = StructError \/ StructError = TransportError).
Proof.
  assert (Hd : json_loads (json_dumps doc_sentinel) = Some doc_sentinel)
    by (vm_compute; reflexivity).
  assert (Hrun : (restore_layout (json_dumps doc_sentinel) w_loaded).1 = Raise StructError)
    by (vm_compute; reflexivity).
  split; [by split|].
  exact (restore_raises_only w_loaded (json_dumps doc_sentinel) doc_sentinel StructError
           Hd Hrun).
Defined.

(** ** The session before its first discovery *)

(** X23: on a session as [__init__] leaves it, whatever the device: the
    Keymap has no entry, so that [set_key] raises [KeyError] for every
    triple and [restore_layout] changes and sends nothing (on a document
    of the save format it returns); the document of [save_layout] has
    version 0 and an empty array. *)
Theorem fresh_session_inert `{Env} (d : Dev) (s : list bytes) :
  (forall l r c code,
     set_key l r c code (mkWorld _ init d s) = (Raise KeyError, mkWorld _ init d s)) /\
  (forall data,
     (restore_layout data (mkWorld _ init d s)).2 = mkWorld _ init d s /\
     forall doc,
       json_loads data = Some doc ->
       restore_layout data (mkWorld _ init d s) = (Ok tt, mkWorld _ init d s)) /\
  save_doc init = mkSaved 0 [].
Proof.
  assert (Hdoc : forall doc,
            restore_doc doc (mkWorld _ init d s) = (Ok tt, mkWorld _ init d s)).
  { intros doc. rewrite restore_doc_cells. apply for_each_noop.
    intros [[[l r] c] v] _. by apply restore_cell_unknown. }
  split; [|split].
  - intros l r c code. by apply set_key_absent.
  - intros data. split.
    + unfold restore_layout, bind.
      destruct (json_loads data) as [doc|] eqn:Hd; simpl; [|done].
      by rewrite Hdoc.
    + intros doc Hd. rewrite (restore_layout_decoded data doc _ Hd). apply Hdoc.
  - reflexivity.
Qed.

(** ** The chunk loop and the length of the responses *)

Section ChunksAny.
Context `{Env}.

(** The loop from any of its states, on a transport that answers every
    chunk request: the requests do not depend on what the responses
    hold. *)
Lemma fetch_chunks_any fuel :
  0 < MSG_LEN ->
  (forall d block msg, chunk_request block = Ok msg -> is_Some (usb_send d msg).2) ->
  forall sz block payload w,
    0 <= block ->
    block + ceil_div sz MSG_LEN <= 4294967296 ->
    (Z.to_nat (ceil_div sz MSG_LEN) <= fuel)%nat ->
    exists extra msgs w',
      fetch_chunks fuel sz block payload w = (Ok (payload ++ extra), w') /\
      sent w' = sent w ++ msgs /\
      Ok <$> msgs = chunk_request <$> seqZ block (ceil_div sz MSG_LEN) /\
      self w' = self w /\
      ((forall d msg data,
          (usb_send d msg).2 = Some data -> Z.of_nat (length data) <= MSG_LEN) ->
       Z.of_nat (length extra) <= Z.max 0 sz).
Proof.
  intros HM Hdev. induction fuel as [|fuel IH]; intros sz block payload w Hb Hmax Hfuel.
  - destruct (decide (sz > 0)) as [Hsz|Hsz].
    { destruct (ceil_div_step sz MSG_LEN HM ltac:(lia)) as [Hc Hc']. lia. }
    exists [], [], w. simpl. case_decide; [lia|].
    rewrite !app_nil_r, seqZ_nil by (apply ceil_div_nonpos; lia).
    repeat split. simpl. lia.
  - destruct (decide (sz > 0)) as [Hsz|Hsz].
    2:{ exists [], [], w. simpl. case_decide; [lia|].
        rewrite !app_nil_r, seqZ_nil by (apply ceil_div_nonpos; lia).
        repeat split. simpl. lia. }
    destruct (ceil_div_step sz MSG_LEN HM ltac:(lia)) as [Hc Hc'].
    assert (Hreq : chunk_request block = Ok
              [byte_of_Z 0xFE; byte_of_Z 0x02; byte_of_Z block; byte_of_Z (block / 256);
               byte_of_Z (block / 65536); byte_of_Z (block / 16777216)])
      by (apply chunk_request_ok; lia).
    set (msg := [byte_of_Z 0xFE; byte_of_Z 0x02; byte_of_Z block; byte_of_Z (block / 256);
                 byte_of_Z (block / 65536); byte_of_Z (block / 16777216)]) in *.
    destruct (Hdev (device w) block msg Hreq) as (data & Hdata).
    set (data' := if decide (sz < MSG_LEN) then take (Z.to_nat sz) data else data).
    set (w1 := mkWorld _ (self w) (usb_send (device w) msg).1 (sent w ++ [msg])).
    destruct (IH (sz - MSG_LEN) (block + 1) (payload ++ data') w1)
      as (extra & msgs & w' & Hrun & Hsent & Hmsgs & Hself & Hextra); [lia | lia | lia |].
    exists (data' ++ extra), (msg :: msgs), w'.
    split; [|split; [|split; [|split]]].
    + simpl. case_decide; [|lia]. unfold bind at 1. unfold lift at 1. rewrite Hreq.
      unfold bind at 1. rewrite (send_ok w msg data Hdata).
      fold w1. fold data'. rewrite Hrun, app_assoc. reflexivity.
    + rewrite Hsent. simpl. rewrite <- app_assoc. reflexivity.
    + rewrite (seqZ_cons block) by lia. rewrite !fmap_cons, Hmsgs, Hreq.
      replace (Z.succ block) with (block + 1) by lia.
      replace (Z.pred (ceil_div sz MSG_LEN)) with (ceil_div (sz - MSG_LEN) MSG_LEN) by lia.
      reflexivity.
    + rewrite Hself. reflexivity.
    + intros Hshort. specialize (Hextra Hshort).
      pose proof (Hshort (device w) msg data Hdata) as Hlen.
      rewrite length_app, Nat2Z.inj_add. unfold data'.
      case_decide; [rewrite length_take|]; lia.
Qed.

End ChunksAny.

(** X24: the chunk loop counts by the declared size alone.  On a
    transport that answers every chunk request, with responses of any
    length, it returns after the same [ceil(S / MSG_LEN)] requests for
    the blocks 0, 1, 2, ... (the [i]-th request is, byte by byte, [0xFE],
    [0x02] and [i] as four little-endian bytes): a short response is not
    noticed, and when no response is longer than [MSG_LEN] the buffer has
    at most [S] bytes. *)
Theorem chunked_fetch_any_response `{Env} (w : World) (S : Z) (fuel : nat) :
  0 < MSG_LEN ->
  0 <= S <= 4294967295 ->
  (forall d block msg, chunk_request block = Ok msg -> is_Some (usb_send d msg).2) ->
  (Z.to_nat (ceil_div S MSG_LEN) <= fuel)%nat ->
  exists payload msgs w',
    fetch_chunks fuel S 0 [] w = (Ok payload, w') /\
    sent w' = sent w ++ msgs /\
    Ok <$> msgs = chunk_request <$> range (ceil_div S MSG_LEN) /\
    fmap Z_of_byte <$> msgs =
      (fun block => [0xFE; 0x02; block mod 256; block / 256 mod 256;
                     block / 65536 mod 256; block / 16777216 mod 256])
        <$> range (ceil_div S MSG_LEN) /\
    self w' = self w /\
    ((forall d msg data,
        (usb_send d msg).2 = Some data -> Z.of_nat (length data) <= MSG_LEN) ->
     Z.of_nat (length payload) <= S).
Proof.
  intros HM HS Hdev Hfuel.
  pose proof (ceil_div_le S MSG_LEN HM ltac:(lia)) as Hle.
  destruct (fetch_chunks_any fuel HM Hdev S 0 [] w)
    as (extra & msgs & w' & Hrun & Hsent & Hmsgs & Hself & Hextra); [lia | lia | lia |].
  exists extra, msgs, w'. do 3 (split; [done|]).
  split; [by apply chunk_requests_bytes|]. split; [done|].
  intros Hshort. specialize (Hextra Hshort). lia.
Qed.

Lemma chunked_fetch_any_response_witness :
  (fun block => [0xFE; 0x02; block mod 256; block / 256 mod 256;
                 block / 65536 mod 256; block / 16777216 mod 256])
    <$> range (ceil_div 70 (@MSG_LEN mute_env)) =
  [[254; 2; 0; 0; 0; 0]; [254; 2; 1; 0; 0; 0]; [254; 2; 2; 0; 0; 0]] /\
  exists payload msgs w',
    @fetch_chunks mute_env 70 70 0 [] w_mute = (Ok payload, w') /\
    sent w' = sent w_mute ++ msgs /\
    Ok <$> msgs = chunk_request <$> range (ceil_div 70 (@MSG_LEN mute_env)) /\
    fmap Z_of_byte <$> msgs =
      (fun block => [0xFE; 0x02; block mod 256; block / 256 mod 256;
                     block / 65536 mod 256; block / 16777216 mod 256])
        <$> range (ceil_div 70 (@MSG_LEN mute_env)) /\
    self w' = self w_mute /\
    ((forall d msg data,
        (@usb_send mute_env d msg).2 = Some data ->
        Z.of_nat (length data) <= @MSG_LEN mute_env) ->
     Z.of_nat (length payload) <= 70).
Proof.
  split; [vm_compute; reflexivity|].
  apply (@chunked_fetch_any_response mute_env w_mute 70 70).
  - reflexivity.
  - lia.
  - intros d block msg _. simpl. eauto.
  - vm_compute. lia.
Defined.

(** ** A restore writes nothing but the document *)

Lemma for_each_invariant_in `{Env} {A} (I : World -> Prop) (xs : list A) (body : A -> M unit) :
  (forall x w, x ∈ xs -> I w -> I (body x w).2) ->
  forall w, I w -> I (for_each xs body w).2.
Proof.
  induction xs as [|x xs IH]; intros Hstep w Hw; [done|].
  simpl. unfold bind. pose proof (Hstep x w ltac:(left) Hw) as Hw1.
  destruct (body x w) as [[[]|e] w1]; simpl in *; [|done].
  apply IH; [|done]. intros y w2 Hy. apply Hstep. by right.
Qed.

(** X25: whether [restore_layout] returns or raises on a document of the
    save format, every entry of the Keymap holds what it held or the
    value of the document at its triple, and every request sent is the
    write request of a cell of the document: a restore that fails half
    way has applied a part of the document and nothing else. *)
Theorem restore_writes_only_document `{Env} (w : World) (data : bytes) (doc : SavedLayout) :
  json_loads data = Some doc ->
  (forall key,
     layout (self (restore_layout data w).2) !! key = layout (self w) !! key \/
     exists v, (key, v) ∈ doc_cells doc /\
               layout (self (restore_layout data w).2) !! key = Some v) /\
  exists msgs,
    sent (restore_layout data w).2 = sent w ++ msgs /\
    Forall (fun msg => exists cell, cell ∈ doc_cells doc /\ cell_request cell = Ok msg) msgs.
Proof.
  intros Hd. rewrite (restore_layout_decoded data doc w Hd), restore_doc_cells.
  set (Q := fun msg => exists cell, cell ∈ doc_cells doc /\ cell_request cell = Ok msg).
  apply (for_each_invariant_in
           (fun w1 =>
              (forall key,
                 layout (self w1) !! key = layout (self w) !! key \/
                 exists v, (key, v) ∈ doc_cells doc /\ layout (self w1) !! key = Some v) /\
              sent_since (sent w) Q w1)).
  2:{ split; [by left|]. exists []. by rewrite app_nil_r. }
  intros [[[l r] c] v] w1 Hin [Hlay (msgs & Hsent & Hmsgs)].
  destruct (restore_cell_effect w1 l r c v) as [Hs Hl]. cbv beta iota. split.
  - intros key. destruct Hl as [-> | (-> & _ & _)]; [apply Hlay|].
    destruct (decide ((l, r, c) = key)) as [<-|Hne].
    + right. exists v. by rewrite lookup_insert_eq.
    + rewrite lookup_insert_ne by done. apply Hlay.
  - unfold sent_since.
    destruct Hs as [-> | (msg & -> & Hreq & _)]; [by exists msgs|].
    exists (msgs ++ [msg]). rewrite Hsent, app_assoc. split; [done|].
    apply Forall_app. split; [done|]. apply Forall_singleton.
    by exists (l, r, c, v).
Qed.

Lemma restore_writes_only_document_witness :
  (json_loads (json_dumps doc_sentinel) = Some doc_sentinel /\
   (restore_layout (json_dumps doc_sentinel) w_loaded).1 = Raise StructError /\
   layout (self w_loaded) !! (0, 0, 0) = Some 10 /\
   layout (self (restore_layout (json_dumps doc_sentinel) w_loaded).2) !! (0, 0, 0) = Some 11) /\
  (forall key,
     layout (self (restore_layout (json_dumps doc_sentinel) w_loaded).2) !! key =
       layout (self w_loaded) !! key \/
     exists v, (key, v) ∈ doc_cells doc_sentinel /\
               layout (self (restore_layout (json_dumps doc_sentinel) w_loaded).2) !! key =
                 Some v) /\
  exists msgs,
    sent (restore_layout (json_dumps doc_sentinel) w_loaded).2 = sent w_loaded ++ msgs /\
    Forall (fun msg => exists cell, cell ∈ doc_cells doc_sentinel /\ cell_request cell = Ok msg)
           msgs.
Proof.
  assert (Hd : json_loads (json_dumps doc_sentinel) = Some doc_sentinel)
    by (vm_compute; reflexivity).
  split; [split; [exact Hd | repeat split; vm_compute; reflexivity]|].
  exact (restore_writes_only_document w_loaded (json_dumps doc_sentinel) doc_sentinel Hd).
Defined.

(** ** A reload rebuilds the session *)

Lemma keyboard_eq (k1 k2 : Keyboard) :
  rowcol k1 = rowcol k2 -> layout k1 = layout k2 -> rows k1 = rows k2 ->
  cols k1 = cols k2 -> layers k1 = layers k2 -> keys k1 = keys k2 ->
  vial_protocol k1 = vial_protocol k2 -> keyboard_id k1 = keyboard_id k2 ->
  k1 = k2.
Proof. destruct k1, k2; simpl; intros; subst; reflexivity. Qed.

Lemma world_eq `{Env} (w1 w2 : World) :
  self w1 = self w2 -> device w1 = device w2 -> sent w1 = sent w2 -> w1 = w2.
Proof. destruct w1, w2; simpl; intros; subst; reflexivity. Qed.

Section Oblivious.
Context `{Env}.

Lemma oblivious_bind {A B} (m : M A) (k : A -> M B) :
  oblivious m -> (forall a, oblivious (k a)) -> oblivious (bind m k).
Proof.
  intros Hm Hk d s. destruct (Hm d s) as (r & d1 & s1 & g & Hg).
  destruct r as [a|e].
  - destruct (Hk a d1 s1) as (r2 & d2 & s2 & g2 & Hg2).
    exists r2, d2, s2, (fun k0 => g2 (g k0)). intros k0. unfold bind. rewrite Hg. apply Hg2.
  - exists (Raise e), d1, s1, g. intros k0. unfold bind. by rewrite Hg.
Qed.

Lemma oblivious_const {A} (r : result A) : oblivious (fun w => (r, w)).
Proof. intros d s. by exists r, d, s, id. Qed.

Lemma oblivious_lift {A} (r : result A) : oblivious (lift r).
Proof. apply oblivious_const. Qed.

Lemma oblivious_lift_opt {A} e (o : option A) : oblivious (lift_opt e o).
Proof. destruct o; apply oblivious_const. Qed.

Lemma oblivious_modify_self f : oblivious (modify_self f).
Proof. intros d s. by exists (Ok tt), d, s, f. Qed.

Lemma oblivious_send msg : oblivious (send msg).
Proof.
  intros d s. destruct (usb_send d msg) as [d' [data|]] eqn:Hs.
  - exists (Ok data), d', (s ++ [msg]), id. intros k. unfold send. simpl. by rewrite Hs.
  - exists (Raise TransportError), d', (s ++ [msg]), id. intros k. unfold send. simpl.
    by rewrite Hs.
Qed.

Lemma oblivious_for_each {A} (xs : list A) (body : A -> M unit) :
  (forall x, oblivious (body x)) -> oblivious (for_each xs body).
Proof.
  intros Hbody. induction xs as [|x xs IH]; [apply oblivious_const|].
  simpl. apply oblivious_bind; [apply Hbody | intros _; apply IH].
Qed.

Lemma fetch_chunks_oblivious fuel sz block payload :
  oblivious (fetch_chunks fuel sz block payload).
Proof.
  revert sz block payload. induction fuel as [|fuel IH]; intros sz block payload; simpl.
  - case_decide; apply oblivious_const.
  - case_decide; [|apply oblivious_const].
    apply oblivious_bind; [apply oblivious_lift|]. intros msg.
    apply oblivious_bind; [apply oblivious_send|]. intros data. apply IH.
Qed.

Lemma fetch_payload_oblivious : oblivious fetch_payload.
Proof.
  unfold fetch_payload.
  apply oblivious_bind; [apply oblivious_lift|]. intros msg.
  apply oblivious_bind; [apply oblivious_send|]. intros data.
  apply oblivious_bind; [apply oblivious_lift|]. intros [p i].
  apply oblivious_bind; [apply oblivious_modify_self|]. intros _.
  apply oblivious_bind; [apply oblivious_lift|]. intros msg2.
  apply oblivious_bind; [apply oblivious_send|]. intros data2.
  apply oblivious_bind; [apply oblivious_lift|]. intros sz.
  apply oblivious_bind; [apply fetch_chunks_oblivious|]. intros payload.
  apply oblivious_lift_opt.
Qed.

Lemma reload_key_oblivious i key : oblivious (reload_key i key).
Proof.
  unfold reload_key.
  apply oblivious_bind; [apply oblivious_modify_self|]. intros _.
  apply oblivious_bind; [apply oblivious_lift_opt|]. intros l0.
  apply oblivious_bind; [apply oblivious_lift|]. intros [[row col]|]; [|apply oblivious_const].
  apply oblivious_bind; [apply oblivious_modify_self|]. intros _. apply oblivious_modify_self.
Qed.

Lemma apply_payload_oblivious payload : oblivious (apply_payload payload).
Proof.
  unfold apply_payload, reload_keys.
  apply oblivious_bind; [apply oblivious_lift_opt|]. intros r.
  apply oblivious_bind; [apply oblivious_modify_self|]. intros _.
  apply oblivious_bind; [apply oblivious_lift_opt|]. intros c.
  apply oblivious_bind; [apply oblivious_modify_self|]. intros _.
  apply oblivious_bind; [apply oblivious_lift_opt|]. intros doc.
  apply oblivious_bind; [apply oblivious_lift_opt|]. intros ks.
  apply oblivious_bind; [apply oblivious_modify_self|]. intros _.
  apply oblivious_for_each. intros [i key]. apply reload_key_oblivious.
Qed.

Lemma reload_layout_oblivious sideload_json : oblivious (reload_layout sideload_json).
Proof.
  unfold reload_layout. apply oblivious_bind; [|apply apply_payload_oblivious].
  destruct sideload_json as [doc|]; [apply oblivious_const | apply fetch_payload_oblivious].
Qed.

Lemma reload_layers_oblivious : oblivious reload_layers.
Proof.
  unfold reload_layers.
  apply oblivious_bind; [apply oblivious_lift|]. intros msg.
  apply oblivious_bind; [apply oblivious_send|]. intros data.
  apply oblivious_bind; [apply oblivious_lift_opt|]. intros n.
  apply oblivious_modify_self.
Qed.

Lemma oblivious_run {A} (m : M A) w1 w2 :
  oblivious m -> device w2 = device w1 -> sent w2 = sent w1 ->
  (m w2).1 = (m w1).1 /\ device (m w2).2 = device (m w1).2 /\
  sent (m w2).2 = sent (m w1).2.
Proof.
  intros Hm Hd Hs. destruct w1 as [k1 d s], w2 as [k2 d2 s2]. simpl in *. subst.
  destruct (Hm d s) as (r & d' & s' & g & Hg). by rewrite !Hg.
Qed.

(** Two discoveries in front of the same device, from session objects
    with the same CoordinateSet and Keymap (and, on the sideload path,
    the same identity): when one returns, so does the other, and they
    agree on everything but the layer count. *)
Lemma reload_layout_rebuilds sideload_json W1 W2 wa1 :
  device W2 = device W1 -> sent W2 = sent W1 ->
  rowcol (self W2) = rowcol (self W1) -> layout (self W2) = layout (self W1) ->
  (sideload_json <> None ->
   vial_protocol (self W2) = vial_protocol (self W1) /\
   keyboard_id (self W2) = keyboard_id (self W1)) ->
  reload_layout sideload_json W1 = (Ok tt, wa1) ->
  exists wa2,
    reload_layout sideload_json W2 = (Ok tt, wa2) /\
    device wa2 = device wa1 /\ sent wa2 = sent wa1 /\
    set_layers 0 (self wa2) = set_layers 0 (self wa1).
Proof.
  intros Hd Hs Hrc Hlay Hid H1.
  destruct (oblivious_run (reload_layout sideload_json) W1 W2
              (reload_layout_oblivious sideload_json) Hd Hs) as (Hr & Hd' & Hs').
  rewrite H1 in Hr, Hd', Hs'. simpl in Hr, Hd', Hs'.
  destruct (reload_layout sideload_json W2) as [r2 wa2] eqn:H2. simpl in Hr, Hd', Hs'.
  subst r2. exists wa2. do 3 (split; [done|]).
  unfold reload_layout in H1, H2.
  apply bind_ok in H1 as (p1 & wf1 & Hf1 & Ha1).
  apply bind_ok in H2 as (p2 & wf2 & Hf2 & Ha2).
  apply apply_payload_ok in Ha1
    as (r1 & c1 & doc1 & ks1 & Hr1 & Hc1 & Hdoc1 & Hks1 & _ & _ & Hself1).
  apply apply_payload_ok in Ha2
    as (r2 & c2 & doc2 & ks2 & Hr2 & Hc2 & Hdoc2 & Hks2 & _ & _ & Hself2).
  assert (Hfetch : p2 = p1 /\
            rowcol (self wf2) = rowcol (self wf1) /\
            layout (self wf2) = layout (self wf1) /\
            vial_protocol (self wf2) = vial_protocol (self wf1) /\
            keyboard_id (self wf2) = keyboard_id (self wf1)).
  { destruct sideload_json as [doc|].
    - injection Hf1 as <- <-. injection Hf2 as <- <-.
      destruct (Hid ltac:(done)) as [? ?]. done.
    - destruct (oblivious_run fetch_payload W1 W2 fetch_payload_oblivious Hd Hs)
        as (Hp & _ & _).
      rewrite Hf1, Hf2 in Hp. injection Hp as ->. split; [done|].
      pose proof (fetch_payload_frame W1) as F1. rewrite Hf1 in F1.
      pose proof (fetch_payload_frame W2) as F2. rewrite Hf2 in F2.
      simpl in F1, F2.
      destruct F1 as (F1a & F1b & _). destruct F2 as (F2a & F2b & _).
      split; [congruence|]. split; [congruence|].
      apply fetch_payload_identity in Hf1 as (data1 & Hdata1 & _ & Hv1 & Hi1 & _).
      apply fetch_payload_identity in Hf2 as (data2 & Hdata2 & _ & Hv2 & Hi2 & _).
      rewrite Hd, Hdata1 in Hdata2. injection Hdata2 as <-.
      split; congruence. }
  destruct Hfetch as (-> & Frc & Flay & Fv & Fi).
  assert (r2 = r1) as -> by congruence. assert (c2 = c1) as -> by congruence.
  assert (doc2 = doc1) as -> by congruence. assert (ks2 = ks1) as -> by congruence.
  rewrite Hself1, Hself2. apply keyboard_eq; simpl; congruence.
Qed.

End Oblivious.

(** X26: a [reload] that returns rebuilds the session from the device (or
    the document): started on any other session object in front of the
    same device, it returns the same session, device and log.  Nothing of
    the former geometry, key records, layer count, CoordinateSet or
    Keymap survives; on the sideload path the identity does, as it is not
    written there, so that the two sessions must agree on it. *)
Theorem reload_rebuilds_session `{Env} (w1 w2 w' : World)
    (sideload_json : option (Payload KleDoc)) :
  device w2 = device w1 ->
  sent w2 = sent w1 ->
  (sideload_json <> None ->
   vial_protocol (self w2) = vial_protocol (self w1) /\
   keyboard_id (self w2) = keyboard_id (self w1)) ->
  reload sideload_json w1 = (Ok tt, w') ->
  reload sideload_json w2 = (Ok tt, w').
Proof.
  intros Hd Hs Hid Hrun.
  apply reload_ok in Hrun as (wa1 & wb1 & H1 & H2 & H3).
  destruct (reload_layout_rebuilds sideload_json
              (mkWorld _ (set_layout ∅ (set_rowcol [] (self w1))) (device w1) (sent w1))
              (mkWorld _ (set_layout ∅ (set_rowcol [] (self w2))) (device w2) (sent w2))
              wa1 Hd Hs eq_refl eq_refl Hid H1)
    as (wa2 & H1' & Hda & Hsa & Hka).
  destruct (oblivious_run reload_layers wa1 wa2 reload_layers_oblivious Hda Hsa)
    as (Hr & Hdb & Hsb).
  rewrite H2 in Hr, Hdb, Hsb. simpl in Hr, Hdb, Hsb.
  destruct (reload_layers wa2) as [r2 wb2] eqn:H2'. simpl in Hr, Hdb, Hsb. subst r2.
  pose proof (reload_layers_ok wa1 wb1 H2) as (data1 & n1 & Hdata1 & Hn1 & Hself1).
  pose proof (reload_layers_ok wa2 wb2 H2') as (data2 & n2 & Hdata2 & Hn2 & Hself2).
  rewrite Hda, Hdata1 in Hdata2. injection Hdata2 as <-.
  rewrite Hn1 in Hn2. injection Hn2 as <-.
  assert (Hwb : wb2 = wb1).
  { apply world_eq; [|done|done]. rewrite Hself2, Hself1.
    change (set_layers (Z_of_byte n1) (set_layers 0 (self wa2)) =
            set_layers (Z_of_byte n1) (set_layers 0 (self wa1))).
    by rewrite Hka. }
  subst wb2.
  rewrite reload_unfold. unfold bind. rewrite H1', H2'. exact H3.
Qed.

Lemma reload_rebuilds_session_witness :
  ((reload None w_fresh).1 = Ok tt /\ self w_loaded <> self w_fresh) /\
  reload None (mkWorld _ (self w_loaded) fw0 []) = (Ok tt, w_loaded).
Proof.
  assert (Hrun : (reload None w_fresh).1 = Ok tt) by (vm_compute; reflexivity).
  split.
  { split; [exact Hrun|]. intros Heq. apply (f_equal rows) in Heq.
    vm_compute in Heq. discriminate Heq. }
  apply (@reload_rebuilds_session sim_env w_fresh
           (@mkWorld sim_env (self w_loaded) fw0 []) w_loaded None);
    [reflexivity | reflexivity | intros Hn; exfalso; exact (Hn eq_refl) |].
  unfold w_loaded. rewrite <- Hrun. apply surjective_pairing.
Defined.
